(** * radman2: the RadMan 2 serial session and the FCC 96-326 limit tables

    A shallow embedding of [radman2/radman2.py] (class [RadMan2]) and of
    [radman2/radhaz_standards.py] (class [FCC96326]), with the part of the
    Python runtime, of pyserial and of numpy that these two files call.

    - A Python [str] is a list of Unicode code points, a [bytes] object a list
      of bytes, a [float] (and a numpy [float64]) an IEEE-754 binary64 number
      (Rocq's primitive floats).
    - A Python [dict] with string keys is a finite map ([gmap string value]).
    - Statements run in a state-and-exception monad: an exception leaves the
      state as it was when it was raised.
    - The serial port is scripted: [rx] lists what the successive calls of
      [readline()] return, [tx] collects what [write()] was given. *)

From Stdlib Require Import ZArith NArith Lia Bool Ascii.
From Stdlib.Strings Require Import Byte.
From Stdlib Require Import Floats.
From stdpp Require Import gmap strings list.

Set Warnings "-inexact-float".

Local Open Scope Z_scope.

(* ===================================================================== *)
(** * The Python runtime                                                  *)
(* ===================================================================== *)

Module Py.

(** ** Exceptions *)

(** The exception classes that the modelled code can meet. The last two
    derive from [BaseException] only: [except Exception] lets them through. *)
Inductive exn : Type :=
| ValueError
| TypeError
| IndexError
| KeyError
| ZeroDivisionError
| OverflowError
| UnicodeDecodeError
| UnicodeEncodeError
| NotImplementedError
| PortNotOpenError        (* serial.PortNotOpenError, a SerialException *)
| RuntimeError
| KeyboardInterrupt
| SystemExit.

Definition is_Exception (e : exn) : bool :=
  match e with
  | KeyboardInterrupt | SystemExit => false
  | _ => true
  end.

Definition exn_eqb (a b : exn) : bool :=
  match a, b with
  | ValueError, ValueError | TypeError, TypeError | IndexError, IndexError
  | KeyError, KeyError | ZeroDivisionError, ZeroDivisionError
  | OverflowError, OverflowError | UnicodeDecodeError, UnicodeDecodeError
  | UnicodeEncodeError, UnicodeEncodeError
  | NotImplementedError, NotImplementedError
  | PortNotOpenError, PortNotOpenError | RuntimeError, RuntimeError
  | KeyboardInterrupt, KeyboardInterrupt | SystemExit, SystemExit => true
  | _, _ => false
  end.

Inductive result (A : Type) : Type :=
| Ok (a : A)
| Raise (e : exn).
Arguments Ok {A} a.
Arguments Raise {A} e.

Definition is_ok {A} (r : result A) : bool :=
  match r with Ok _ => true | Raise _ => false end.

Definition rbind {A B} (r : result A) (k : A -> result B) : result B :=
  match r with Ok a => k a | Raise e => Raise e end.

(** ** The state-and-exception monad *)

Definition M (S A : Type) : Type := S -> S * result A.

Definition ret {S A} (a : A) : M S A := fun st => (st, Ok a).
Definition raise {S A} (e : exn) : M S A := fun st => (st, Raise e).
Definition bind {S A B} (m : M S A) (k : A -> M S B) : M S B :=
  fun st => match m st with
            | (st', Ok a) => k a st'
            | (st', Raise e) => (st', Raise e)
            end.
Definition lift {S A} (r : result A) : M S A := fun st => (st, r).
Definition gets {S A} (f : S -> A) : M S A := fun st => (st, Ok (f st)).
Definition modify {S} (f : S -> S) : M S unit := fun st => (f st, Ok tt).

(** [try: body / except Exception as e: handler e]. *)
Definition try_except {S A} (body : M S A) (handler : exn -> M S A) : M S A :=
  fun st => match body st with
            | (st', Raise e) =>
                if is_Exception e then handler e st' else (st', Raise e)
            | r => r
            end.

(** ** Strings and bytes *)

(** A code point of a [str]; a [str] holds values up to 0x10FFFF. *)
Definition str : Type := list N.
Definition bytes : Type := list byte.

(** An ASCII literal of the source as a [str]. *)
Fixpoint lit (s : string) : str :=
  match s with
  | EmptyString => []
  | String a r => N_of_ascii a :: lit r
  end.

Definition byte_of_N (n : N) : byte :=
  match Byte.of_N (n mod 256) with Some b => b | None => x00 end.

Definition N_in (lo hi c : N) : bool := ((lo <=? c) && (c <=? hi))%N.

(** [str.encode()]: UTF-8, strict. A surrogate cannot be encoded. *)
Definition encode_cp (c : N) : option (list N) :=
  (if c <? 0x80 then Some [c]
   else if c <? 0x800 then Some [0xC0 + c / 64; 0x80 + c mod 64]
   else if N_in 0xD800 0xDFFF c then None
   else if c <? 0x10000 then
     Some [0xE0 + c / 4096; 0x80 + (c / 64) mod 64; 0x80 + c mod 64]
   else if c <=? 0x10FFFF then
     Some [0xF0 + c / 262144; 0x80 + (c / 4096) mod 64;
           0x80 + (c / 64) mod 64; 0x80 + c mod 64]
   else None)%N.

Fixpoint encode_cps (s : str) : option (list N) :=
  match s with
  | [] => Some []
  | c :: r =>
      match encode_cp c, encode_cps r with
      | Some bs, Some rs => Some (bs ++ rs)
      | _, _ => None
      end
  end.

Definition encode (s : str) : result bytes :=
  match encode_cps s with
  | Some bs => Ok (map byte_of_N bs)
  | None => Raise UnicodeEncodeError
  end.

(** [bytes.decode()]: UTF-8, strict: no overlong form, no surrogate,
    nothing above 0x10FFFF, no stray or missing continuation byte. *)
Definition is_cont (b : N) : bool := N_in 0x80 0xBF b.

Fixpoint utf8_decode (bs : list N) : option str :=
  match bs with
  | [] => Some []
  | b0 :: r0 =>
      if (b0 <? 0x80)%N then cons b0 <$> utf8_decode r0
      else if N_in 0xC2 0xDF b0 then
        match r0 with
        | b1 :: r1 =>
            if is_cont b1
            then cons ((b0 - 0xC0) * 64 + (b1 - 0x80))%N <$> utf8_decode r1
            else None
        | _ => None
        end
      else if N_in 0xE0 0xEF b0 then
        match r0 with
        | b1 :: b2 :: r2 =>
            let lo := if (b0 =? 0xE0)%N then 0xA0%N else 0x80%N in
            let hi := if (b0 =? 0xED)%N then 0x9F%N else 0xBF%N in
            if N_in lo hi b1 && is_cont b2
            then cons ((b0 - 0xE0) * 4096 + (b1 - 0x80) * 64 + (b2 - 0x80))%N
                   <$> utf8_decode r2
            else None
        | _ => None
        end
      else if N_in 0xF0 0xF4 b0 then
        match r0 with
        | b1 :: b2 :: b3 :: r3 =>
            let lo := if (b0 =? 0xF0)%N then 0x90%N else 0x80%N in
            let hi := if (b0 =? 0xF4)%N then 0x8F%N else 0xBF%N in
            if N_in lo hi b1 && is_cont b2 && is_cont b3
            then cons ((b0 - 0xF0) * 262144 + (b1 - 0x80) * 4096
                       + (b2 - 0x80) * 64 + (b3 - 0x80))%N
                   <$> utf8_decode r3
            else None
        | _ => None
        end
      else None
  end.

Definition decode (b : bytes) : result str :=
  match utf8_decode (map Byte.to_N b) with
  | Some s => Ok s
  | None => Raise UnicodeDecodeError
  end.

(** [str.isspace()] of one character (Unicode 14, as in CPython 3.11). *)
Definition is_space (c : N) : bool :=
  N_in 0x09 0x0D c || N_in 0x1C 0x20 c || (c =? 0x85)%N || (c =? 0xA0)%N
  || (c =? 0x1680)%N || N_in 0x2000 0x200A c || N_in 0x2028 0x2029 c
  || (c =? 0x202F)%N || (c =? 0x205F)%N || (c =? 0x3000)%N.

Fixpoint lstrip_by (p : N -> bool) (s : str) : str :=
  match s with
  | c :: r => if p c then lstrip_by p r else s
  | [] => []
  end.

Definition strip_by (p : N -> bool) (s : str) : str :=
  rev (lstrip_by p (rev (lstrip_by p s))).

(** [s.strip()] *)
Definition strip (s : str) : str := strip_by is_space s.

(** [s[:-1]] *)
Definition drop_last (s : str) : str := removelast s.

(** [s.split(sep)] for a separator of one character. *)
Fixpoint split (sep : N) (s : str) : list str :=
  match s with
  | [] => [[]]
  | c :: r =>
      if (c =? sep)%N then [] :: split sep r
      else match split sep r with
           | h :: t => (c :: h) :: t
           | [] => [[c]]
           end
  end.

Definition comma : N := 44.
Definition semicolon : byte := x3b.

(** ** [float(s)] for a [str]

    CPython first maps the string to ASCII (every non-ASCII white space
    becomes a blank, every non-ASCII decimal digit its ASCII digit, and the
    string is cut after the first other non-ASCII character, which is
    replaced by '?'), strips ASCII white space, checks and removes the
    underscores of PEP 515 and hands the rest to [strtod]; the whole rest
    must be a number. *)

(** The zero of each block of ten decimal digits (Unicode 14, as in
    CPython 3.11). *)
Definition decimal_zeros : list N :=
  [0x30; 0x660; 0x6f0; 0x7c0; 0x966; 0x9e6; 0xa66; 0xae6; 0xb66; 0xbe6;
   0xc66; 0xce6; 0xd66; 0xde6; 0xe50; 0xed0; 0xf20; 0x1040; 0x1090; 0x17e0;
   0x1810; 0x1946; 0x19d0; 0x1a80; 0x1a90; 0x1b50; 0x1bb0; 0x1c40; 0x1c50;
   0xa620; 0xa8d0; 0xa900; 0xa9d0; 0xa9f0; 0xaa50; 0xabf0; 0xff10; 0x104a0;
   0x10d30; 0x11066; 0x110f0; 0x11136; 0x111d0; 0x112f0; 0x11450; 0x114d0;
   0x11650; 0x116c0; 0x11730; 0x118e0; 0x11950; 0x11c50; 0x11d50; 0x11da0;
   0x16a60; 0x16ac0; 0x16b50; 0x1d7ce; 0x1d7d8; 0x1d7e2; 0x1d7ec; 0x1d7f6;
   0x1e140; 0x1e2f0; 0x1e950; 0x1fbf0]%N.

(** [Py_UNICODE_TODECIMAL] *)
Definition to_decimal (c : N) : option N :=
  match List.find (fun z => N_in z (z + 9) c) decimal_zeros with
  | Some z => Some (c - z)%N
  | None => None
  end.

Fixpoint transform_chars (s : str) : str :=
  match s with
  | [] => []
  | c :: r =>
      if (c <? 127)%N then c :: transform_chars r
      else if is_space c then 32%N :: transform_chars r
      else match to_decimal c with
           | Some d => (48 + d)%N :: transform_chars r
           | None => [63%N]
           end
  end.

(** [_PyUnicode_TransformDecimalAndSpaceToASCII] *)
Definition transform_decimal_and_space (s : str) : str :=
  if forallb (fun c => c <? 128)%N s then s else transform_chars s.

(** [Py_ISSPACE] *)
Definition is_ascii_space (c : N) : bool := N_in 9 13 c || (c =? 32)%N.
Definition is_digit (c : N) : bool := N_in 48 57 c.
Definition underscore : N := 95.

(** [_Py_string_to_number_with_underscores]: an underscore stands between
    two digits, and is dropped. *)
Fixpoint strip_underscores (prev : N) (s : str) : option str :=
  match s with
  | [] => if (prev =? underscore)%N then None else Some []
  | c :: r =>
      if (c =? underscore)%N then
        if is_digit prev then strip_underscores c r else None
      else if (prev =? underscore)%N && negb (is_digit c) then None
      else cons c <$> strip_underscores c r
  end.

(** The longest prefix of ASCII digits, as digit values, and the rest. *)
Fixpoint take_digits (s : str) : list Z * str :=
  match s with
  | c :: r =>
      if is_digit c
      then let '(ds, rest) := take_digits r in (Z.of_N (c - 48) :: ds, rest)
      else ([], s)
  | [] => ([], [])
  end.

Definition digits_value (ds : list Z) : Z :=
  fold_left (fun acc d => 10 * acc + d) ds 0.

Definition take_sign (s : str) : bool * str :=
  match s with
  | 43%N :: r => (false, r)
  | 45%N :: r => (true, r)
  | _ => (false, s)
  end.

Definition lower (c : N) : N := if N_in 65 90 c then (c + 32)%N else c.

Definition str_eqb (a b : str) : bool := bool_decide (a = b).

(** What [strtod] reads: an infinity, a NaN, or [m * 10^e] with a sign. *)
Inductive numeral : Type :=
| NumInf (neg : bool)
| NumNan
| NumDec (neg : bool) (m : Z) (e : Z).

Definition parse_numeral (s : str) : option numeral :=
  let '(neg, s1) := take_sign s in
  let low := map lower s1 in
  if str_eqb low (lit "inf") || str_eqb low (lit "infinity") then
    Some (NumInf neg)
  else if str_eqb low (lit "nan") then Some NumNan
  else
    let '(ip, s2) := take_digits s1 in
    let '(fp, s3) := match s2 with
                     | 46%N :: r => take_digits r
                     | _ => ([], s2)
                     end in
    match ip ++ fp with
    | [] => None
    | ds =>
        let m := digits_value ds in
        let scale := Z.of_nat (length fp) in
        match s3 with
        | [] => Some (NumDec neg m (- scale))
        | c :: r =>
            if (lower c =? 101)%N then
              let '(eneg, r1) := take_sign r in
              match take_digits r1 with
              | (d :: ed, []) =>
                  let x := digits_value (d :: ed) in
                  Some (NumDec neg m ((if eneg then - x else x) - scale))
              | _ => None
              end
            else None
        end
    end.

(** [m * 10^e], rounded to the nearest binary64 number, ties to even. *)
Definition dec_to_float (neg : bool) (m e : Z) : float :=
  match m with
  | Zpos p =>
      if 0 <=? e then
        let v := m * 10 ^ e in
        SF2Prim (binary_normalize prec emax (if neg then - v else v) 0 neg)
      else
        SF2Prim (SFdiv prec emax (S754_finite neg p 0)
                   (S754_finite false (Z.to_pos (10 ^ (- e))) 0))
  | _ => if neg then neg_zero else zero
  end.

Definition numeral_to_float (n : numeral) : float :=
  match n with
  | NumInf neg => if neg then neg_infinity else infinity
  | NumNan => nan
  | NumDec neg m e => dec_to_float neg m e
  end.

(** [float(s)] *)
Definition float_of_str (s : str) : result float :=
  let t := strip_by is_ascii_space (transform_decimal_and_space s) in
  match strip_underscores 0%N t with
  | Some u =>
      match parse_numeral u with
      | Some n => Ok (numeral_to_float n)
      | None => Raise ValueError
      end
  | None => Raise ValueError
  end.

End Py.

Import Py.

Declare Scope py_scope.
Delimit Scope py_scope with py.
Notation "x <- m ;; k" := (bind m (fun x => k))
  (at level 100, m at next level, right associativity) : py_scope.
Notation "m ;;; k" := (bind m (fun _ => k))
  (at level 100, right associativity) : py_scope.
Local Open Scope py_scope.

(** [l[i]] for a list. *)
Definition item {A} (l : list A) (i : nat) : result A :=
  match l !! i with
  | Some a => Ok a
  | None => Raise IndexError
  end.

(* ===================================================================== *)
(** * The [logging] module                                                *)
(* ===================================================================== *)

Module Logging.

Inductive level : Type := CRITICAL | ERROR | WARNING | INFO | DEBUG.

(** The messages of the two modules, each with the values its f-string
    formats. *)
Inductive message : Type :=
| Connecting (port : str) (baud_rate : Z)
    (* "Attempting to connect to RadMan2 on {port}, at {baud_rate} baud..." *)
| CouldNotConnect
    (* "Could not connect to RadMan2 - %s" *)
| ProbeInfoException (e : exn)
    (* "Exception when parsing probe info fields - {str(e)}" *)
| NotEnoughFields
    (* "Not enough fields in measurement line." *)
| CouldNotParseLine (line : str) (e : exn)
    (* "Could not parse measurement line: {str(_line)} - {str(e)}" *)
| FarFromNearestMatch (frequency_mhz nearest_mhz : float).
    (* "WARNING - Frequency {frequency_mhz:.3f} MHz is far from nearest
       match in table ({self.frequency_mhz[idx]} MHz.)" *)

Record record : Type := { lvl : level; msg : message }.

Definition warning (m : message) : record := {| lvl := WARNING; msg := m |}.
Definition error (m : message) : record := {| lvl := ERROR; msg := m |}.
Definition info (m : message) : record := {| lvl := INFO; msg := m |}.
Definition critical (m : message) : record := {| lvl := CRITICAL; msg := m |}.

End Logging.

(* ===================================================================== *)
(** * radman2.py                                                          *)
(* ===================================================================== *)

Module Radman2.

(** A value stored in one of the dictionaries. *)
Inductive value : Type :=
| VStr (v : str)
| VFloat (v : float).

Abbreviation dict := (gmap string value).

(** The pyserial port, scripted. *)
Record Serial : Type := {
  is_open : bool;
  rx : list bytes;     (* what the next calls of readline() return *)
  tx : list bytes      (* what write() was given, oldest first *)
}.

Section Session.

(** The state of the consumer behind the callback. *)
Variable W : Type.

(** The callback: it is given the sample, acts on the consumer and may
    raise. *)
Definition callback_t : Type := dict -> W -> W * option exn.

(** The attributes of a [RadMan2] object. *)
Record RadMan2 : Type := {
  measurement_running : bool;
  callback : option callback_t;
  sample_rate : Z;
  s : Serial;
  device_info : option dict;
  probe_info : option dict;
  measurement_thread : option nat    (* the Thread object, by its number *)
}.

(** The object with what its methods act on besides: the logging sink, the
    threads started so far, the seconds slept, the consumer. *)
Record World : Type := {
  self : RadMan2;
  log : list Logging.record;
  threads : nat;
  slept : Z;
  consumer : W
}.

Definition set_self (f : RadMan2 -> RadMan2) (w : World) : World :=
  {| self := f (self w); log := log w; threads := threads w;
     slept := slept w; consumer := consumer w |}.

Definition set_s (f : Serial -> Serial) (r : RadMan2) : RadMan2 :=
  {| measurement_running := measurement_running r; callback := callback r;
     sample_rate := sample_rate r; s := f (s r);
     device_info := device_info r; probe_info := probe_info r;
     measurement_thread := measurement_thread r |}.

Definition set_measurement_running (b : bool) (r : RadMan2) : RadMan2 :=
  {| measurement_running := b; callback := callback r;
     sample_rate := sample_rate r; s := s r;
     device_info := device_info r; probe_info := probe_info r;
     measurement_thread := measurement_thread r |}.

Definition set_measurement_thread (t : option nat) (r : RadMan2) : RadMan2 :=
  {| measurement_running := measurement_running r; callback := callback r;
     sample_rate := sample_rate r; s := s r;
     device_info := device_info r; probe_info := probe_info r;
     measurement_thread := t |}.

Definition set_device_info (d : option dict) (r : RadMan2) : RadMan2 :=
  {| measurement_running := measurement_running r; callback := callback r;
     sample_rate := sample_rate r; s := s r;
     device_info := d; probe_info := probe_info r;
     measurement_thread := measurement_thread r |}.

Definition set_probe_info (d : option dict) (r : RadMan2) : RadMan2 :=
  {| measurement_running := measurement_running r; callback := callback r;
     sample_rate := sample_rate r; s := s r;
     device_info := device_info r; probe_info := d;
     measurement_thread := measurement_thread r |}.

(** [logging.warning(..)], [logging.error(..)], ... *)
Definition logging (r : Logging.record) : M World unit :=
  modify (fun w => {| self := self w; log := log w ++ [r];
                      threads := threads w; slept := slept w;
                      consumer := consumer w |}).

(** [time.sleep(secs)] *)
Definition sleep (secs : Z) : M World unit :=
  modify (fun w => {| self := self w; log := log w; threads := threads w;
                      slept := slept w + secs; consumer := consumer w |}).

(** [self.s.write(b)]: a closed port refuses. *)
Definition serial_write (b : bytes) : M World unit :=
  fun w =>
    if is_open (s (self w))
    then (set_self (set_s (fun p => {| is_open := is_open p; rx := rx p;
                                       tx := tx p ++ [b] |})) w, Ok tt)
    else (w, Raise PortNotOpenError).

(** [self.s.readline()]: the next scripted line, or the empty bytes when the
    script has run out (the read timed out). *)
Definition serial_readline : M World bytes :=
  fun w =>
    if is_open (s (self w))
    then match rx (s (self w)) with
         | l :: r =>
             (set_self (set_s (fun p => {| is_open := is_open p; rx := r;
                                           tx := tx p |})) w, Ok l)
         | [] => (w, Ok [])
         end
    else (w, Raise PortNotOpenError).

(** [self.s.close()] *)
Definition serial_close : M World unit :=
  modify (set_self (set_s (fun p => {| is_open := false; rx := rx p;
                                       tx := tx p |}))).

(** [Thread(target=self.measurement_loop)] and its [start()]. *)
Definition thread_start : M World unit :=
  modify (fun w =>
    {| self := set_measurement_thread (Some (threads w)) (self w);
       log := log w; threads := S (threads w); slept := slept w;
       consumer := consumer w |}).

(** [self.callback(_output)] *)
Definition call_callback (f : callback_t) (d : dict) : M World unit :=
  fun w =>
    let '(c, r) := f d (consumer w) in
    ({| self := self w; log := log w; threads := threads w;
        slept := slept w; consumer := c |},
     match r with Some e => Raise e | None => Ok tt end).

(** [command(self, command, noreply=False)] *)
Definition command (command : str) (noreply : bool) : M World (option str) :=
  running <- gets (fun w => measurement_running (self w)) ;;
  if running : bool then ret None
  else
    _command <- lift (rbind (encode command)
                        (fun b => Ok (b ++ [semicolon]))) ;;
    serial_write _command ;;;
    if noreply then ret None
    else
      _response <- serial_readline ;;
      text <- lift (decode _response) ;;
      ret (Some (strip text)).

(** [data[:-1].split(',')]; [data] is [None] when [command] returned
    nothing, and [None] has no slice. *)
Definition fields_of (data : option str) : result (list str) :=
  match data with
  | Some d => Ok (split comma (drop_last d))
  | None => Raise TypeError
  end.

(** [get_device_info(self)] *)
Definition get_device_info : M World dict :=
  data <- command (lit "DEVICE_INFO?") false ;;
  _fields <- lift (fields_of data) ;;
  if negb (length _fields =? 10)%nat then raise ValueError
  else
    f0 <- lift (item _fields 0) ;; f1 <- lift (item _fields 1) ;;
    f2 <- lift (item _fields 2) ;; f3 <- lift (item _fields 3) ;;
    f4 <- lift (item _fields 4) ;; f5 <- lift (item _fields 5) ;;
    f6 <- lift (item _fields 6) ;; f7 <- lift (item _fields 7) ;;
    f8 <- lift (item _fields 8) ;; f9 <- lift (item _fields 9) ;;
    ret (<["options_name" := VStr f9]>
         (<["num_options" := VStr f8]>
         (<["calibration_due" := VStr f7]>
         (<["calibration_date" := VStr f6]>
         (<["firmware_version" := VStr f5]>
         (<["device_type" := VStr f4]>
         (<["device_id" := VStr f3]>
         (<["serial_number" := VStr f2]>
         (<["production_id" := VStr f1]>
         (<["product_name" := VStr f0]> (∅ : dict))))))))))).

(** [output[key] = float(_fields[i])] *)
Definition store_float (_fields : list str) (key : string) (i : nat)
  : M dict unit :=
  x <- lift (rbind (item _fields i) float_of_str) ;;
  modify (fun output : dict => <[key := VFloat x]> output).

(** [output[key] = _fields[i]] *)
Definition store_str (_fields : list str) (key : string) (i : nat)
  : M dict unit :=
  x <- lift (item _fields i) ;;
  modify (fun output : dict => <[key := VStr x]> output).

(** The statements of the [try] block of [get_probe_info], acting on
    [output]. *)
Definition probe_optional (_fields : list str) : M dict unit :=
  store_float _fields "e_field_lower_frequency_hz" 6 ;;;
  store_float _fields "e_field_upper_frequency_hz" 7 ;;;
  store_float _fields "h_field_lower_frequency_hz" 8 ;;;
  store_float _fields "h_field_upper_frequency_hz" 9 ;;;
  store_str _fields "shaped" 10 ;;;
  store_str _fields "standard_name" 11.

(** [try: body / except Exception as e: handler e], the body acting on a
    local variable, which keeps what the body did to it before it raised. *)
Definition try_local {L} (body : M L unit) (handler : exn -> M World unit)
  (l : L) : M World L :=
  fun w =>
    match body l with
    | (l', Ok _) => (w, Ok l')
    | (l', Raise e) =>
        if is_Exception e
        then match handler e w with
             | (w', Ok _) => (w', Ok l')
             | (w', Raise e') => (w', Raise e')
             end
        else (w, Raise e)
    end.

(** [get_probe_info(self)] *)
Definition get_probe_info : M World dict :=
  data <- command (lit "Probe_INFO?") false ;;
  _fields <- lift (fields_of data) ;;
  if negb (length _fields =? 12)%nat then raise ValueError
  else
    f0 <- lift (item _fields 0) ;; f1 <- lift (item _fields 1) ;;
    f2 <- lift (item _fields 2) ;; f3 <- lift (item _fields 3) ;;
    f4 <- lift (item _fields 4) ;; f5 <- lift (item _fields 5) ;;
    let output : dict :=
      <["field_type" := VStr f5]>
      (<["calibration_due" := VStr f4]>
      (<["calibration_date" := VStr f3]>
      (<["serial_number" := VStr f2]>
      (<["production_id" := VStr f1]>
      (<["product_name" := VStr f0]> (∅ : dict)))))) in
    try_local (probe_optional _fields)
      (fun e => logging (Logging.warning (Logging.ProbeInfoException e)))
      output.

(** [set_remote_mode(self, remote_mode=True)] *)
Definition set_remote_mode (remote_mode : bool) : M World bool :=
  _status <- (if remote_mode
              then command (lit "REMOTE ON") false
              else command (lit "REMOTE OFF") false) ;;
  match _status with
  | Some t => ret (str_eqb t (lit "0;"))
  | None => ret false
  end.

(** The sample that one measurement line yields: the body of the [else]
    branch of [measurement_loop] up to the callback. *)
Definition parse_sample (_fields : list str) : result dict :=
  rbind (rbind (item _fields 0) float_of_str) (fun x0 =>
  rbind (rbind (item _fields 1) float_of_str) (fun x1 =>
  rbind (item _fields 2) (fun f2 =>
  rbind (item _fields 3) (fun f3 =>
  rbind (item _fields 4) (fun f4 =>
  rbind (rbind (item _fields 5) float_of_str) (fun x5 =>
  Ok (<["battery_percentage" := VFloat x5]>
      (<["h_fields_ok" := VStr f4]>
      (<["e_field_ok" := VStr f3]>
      (<["unknown" := VStr f2]>
      (<["h_field_percentage" := VFloat (x1 / 100)%float]>
      (<["e_field_percentage" := VFloat (x0 / 100)%float]>
         (∅ : dict))))))))))))).

(** The [try] block of [measurement_loop], for the line [_line]. *)
Definition handle_line (_line : str) : M World unit :=
  try_except
    (let _fields := split comma (drop_last _line) in
     if negb (length _fields =? 6)%nat
     then logging (Logging.error Logging.NotEnoughFields)   (* continue *)
     else
       _output <- lift (parse_sample _fields) ;;
       cb <- gets (fun w => callback (self w)) ;;
       match cb with
       | Some f => call_callback f _output
       | None => ret tt
       end)
    (fun e => logging (Logging.error (Logging.CouldNotParseLine _line e))).

(** One turn of the [while] loop of [measurement_loop]. *)
Definition measurement_loop_body : M World unit :=
  raw <- serial_readline ;;
  text <- lift (decode raw) ;;
  handle_line (strip text).

(** How a bounded run of the loop ended: its condition was found false, or
    the bound was reached with the loop still turning. *)
Inductive loop_status : Type := Exited | StillRunning.

(** [measurement_loop(self)], for at most [fuel] turns. *)
Fixpoint measurement_loop (fuel : nat) : M World loop_status :=
  running <- gets (fun w => measurement_running (self w)) ;;
  if running : bool
  then match fuel with
       | O => ret StillRunning
       | S n => measurement_loop_body ;;; measurement_loop n
       end
  else ret Exited.

(** [start_measurement(self)] *)
Definition start_measurement : M World unit :=
  running <- gets (fun w => measurement_running (self w)) ;;
  if running : bool then ret tt
  else
    set_remote_mode true ;;;
    command (lit "MEAS_START_CIB") true ;;;
    modify (set_self (set_measurement_running true)) ;;;
    thread_start.

(** [stop_measurement(self)] *)
Definition stop_measurement : M World unit :=
  command (lit "MEAS_STOP_CIB") true ;;; ret tt.

(** [close(self)] *)
Definition close : M World unit :=
  modify (set_self (set_measurement_running false)) ;;;
  sleep 5 ;;;
  serial_close.

(** [__init__]: [port_s] is what [serial.Serial(port, baud_rate, ...)]
    gave, a port or an exception; [sys.exit(1)] raises [SystemExit]. *)
Definition init (port : str) (baud_rate sample_rate : Z) (auto : bool)
  (callback : option callback_t) (port_s : result Serial) (c : W)
  : World * result unit :=
  let closed := {| is_open := false; rx := []; tx := [] |} in
  let w0 := {| self := {| measurement_running := false; callback := callback;
                          sample_rate := sample_rate; s := closed;
                          device_info := None; probe_info := None;
                          measurement_thread := None |};
               log := []; threads := 0; slept := 0; consumer := c |} in
  (logging (Logging.info (Logging.Connecting port baud_rate)) ;;;
   match port_s with
   | Raise e =>
       if is_Exception e
       then logging (Logging.critical Logging.CouldNotConnect) ;;;
            raise SystemExit
       else raise e
   | Ok p =>
       modify (set_self (set_s (fun _ => p))) ;;;
       d <- get_device_info ;;
       modify (set_self (set_device_info (Some d))) ;;;
       q <- get_probe_info ;;
       modify (set_self (set_probe_info (Some q))) ;;;
       if auto then start_measurement else ret tt
   end) w0.

End Session.

End Radman2.

(** ** Notions and sessions that the statements below use *)

Module Scenario.

Import Radman2.

(** The bytes of an ASCII literal. *)
Definition ascii_bytes (t : string) : bytes := map byte_of_N (lit t).

(** A line is malformed when it has not six fields or when one of its three
    numeric fields is not a number. *)
Definition malformed (_line : str) : bool :=
  let _fields := split comma (drop_last _line) in
  negb (length _fields =? 6)%nat || negb (is_ok (parse_sample _fields)).

Section Consumer.

Context {W : Type}.

(** The state with one more record in the logging sink. *)
Definition add_log (r : Logging.record) (w : World W) : World W :=
  {| self := self W w; log := log W w ++ [r]; threads := threads W w;
     slept := slept W w; consumer := consumer W w |}.

(** The state after one query that was answered: [cmd] has been written and
    the first scripted line read, [rest] being the lines still to come. *)
Definition after_query (cmd : bytes) (rest : list bytes) (w : World W)
  : World W :=
  set_self W (set_s W (fun p => {| is_open := is_open p; rx := rest;
                                   tx := tx p ++ [cmd] |})) w.

(** The callback raises nothing outside [Exception]. *)
Definition well_behaved (cb : option (callback_t W)) : Prop :=
  forall f d c e, cb = Some f -> snd (f d c) = Some e -> is_Exception e = true.

End Consumer.

(** A session as [__init__] leaves it once the two information queries are
    answered (their answers are not kept here), with no callback, on a port
    that will answer [lines]. *)
Definition session (running : bool) (lines : list bytes) : World unit :=
  {| self := {| measurement_running := running; callback := None;
                sample_rate := 1;
                s := {| is_open := true; rx := lines; tx := [] |};
                device_info := None; probe_info := None;
                measurement_thread := None |};
     log := []; threads := 0; slept := 0; consumer := tt |}.

(** The session after [start_measurement()], the device answering [0;] to
    [REMOTE ON]: it is measuring. *)
Definition measuring_session : World unit :=
  fst (start_measurement unit (session false [ascii_bytes "0;"])).

(** An idle session whose port will answer with the one line [answer]. *)
Definition answering (answer : string) : World unit :=
  session false [ascii_bytes answer].

End Scenario.

(* ===================================================================== *)
(** * The part of numpy that radhaz_standards.py calls                    *)
(* ===================================================================== *)

Module Numpy.

Local Open Scope float_scope.

(** An index as a [float64]. *)
Definition float_of_index (i : Z) : float := of_uint63 (Uint63.of_Z i).

(** The least integer not below [x]; nothing for a NaN or an infinity. *)
Definition ceil (x : float) : option Z :=
  match Prim2SF x with
  | S754_zero _ => Some 0%Z
  | S754_finite sg m e =>
      let n := if sg then Zneg m else Zpos m in
      Some (if (0 <=? e)%Z then n * 2 ^ e else - ((- n) / 2 ^ (- e)))%Z
  | S754_infinity _ | S754_nan => None
  end.

(** The length of [np.arange(start, stop, step)]: the ceiling of
    [(stop - start) / step], computed on floats; a negative one counts as 0. *)
Definition arange_length (start stop step : float) : result Z :=
  if step =? 0 then Raise ZeroDivisionError
  else
    let value := (stop - start) / step in
    if is_nan value then Raise ValueError
    else match ceil value with
         | Some len =>
             if ((- 2 ^ 63 <=? len) && (len <=? 2 ^ 63))%Z
             then Ok (Z.max 0 len)
             else Raise OverflowError
         | None => Raise OverflowError
         end.

(** The entries of an [arange]: [start], [start + step], and from the third
    on [start + i * delta], where [delta] is the difference of the first two
    entries as stored. *)
Definition arange_item (start step : float) (i : Z) : float :=
  match i with
  | 0%Z => start
  | 1%Z => start + step
  | _ => start + float_of_index i * ((start + step) - start)
  end.

(** The [length] entries from index [i] on. *)
Fixpoint arange_from (start step : float) (i : Z) (length : nat)
  : list float :=
  match length with
  | O => []
  | S n => arange_item start step i :: arange_from start step (i + 1) n
  end.

Definition arange_fill (start step : float) (length : nat) : list float :=
  arange_from start step 0 length.

(** [np.arange(start, stop, step)] for three floats. *)
Definition arange (start stop step : float) : result (list float) :=
  rbind (arange_length start stop step)
        (fun length => Ok (arange_fill start step (Z.to_nat length))).

(** [np.ones(n)] *)
Definition ones (n : nat) : list float := repeat 1 n.

(** [a * c], [c / a], [a / c], [a - c] for an array [a] and a scalar [c]. *)
Definition mul_scalar (a : list float) (c : float) : list float :=
  map (fun x => x * c) a.
Definition scalar_div (c : float) (a : list float) : list float :=
  map (fun x => c / x) a.
Definition div_scalar (a : list float) (c : float) : list float :=
  map (fun x => x / c) a.
Definition sub_scalar (a : list float) (c : float) : list float :=
  map (fun x => x - c) a.

(** [np.sqrt(a)], [np.abs(a)] *)
Definition sqrt (a : list float) : list float := map PrimFloat.sqrt a.
Definition abs (a : list float) : list float := map PrimFloat.abs a.

(** The scan of [argmin] after the first entry: [mp] is the least entry so
    far, at index [mi]; [i] is the index of the head of [l]. An entry
    replaces [mp] unless it is [>= mp]; a NaN ends the scan. *)
Fixpoint argmin_scan (mp : float) (mi i : nat) (l : list float) : nat :=
  match l with
  | [] => mi
  | x :: r =>
      if mp <=? x then argmin_scan mp mi (S i) r
      else if is_nan x then i
      else argmin_scan x i (S i) r
  end.

(** [a.argmin()]: the first index of the least entry, a NaN counting as
    least; an empty array has none. *)
Definition argmin (a : list float) : result nat :=
  match a with
  | [] => Raise ValueError
  | x :: r => Ok (if is_nan x then O else argmin_scan x 0 1 r)
  end.

End Numpy.

(* ===================================================================== *)
(** * radhaz_standards.py                                                 *)
(* ===================================================================== *)

Module Radhaz.

Local Open Scope float_scope.

(** What the conversions take from the C library. *)
Record Libm : Type := {
  log10 : float -> float;
  pow : float -> float -> float
}.

(** The two values of these functions that the conversions rest on, as
    C's Annex F fixes them: [log10(1) = +0] and [pow(x, 0) = 1]. *)
Definition special_values (lm : Libm) : Prop :=
  log10 lm 1 = 0 /\ pow lm 10 0 = 1.

(** A Python number: an [int] or a [float]. *)
Inductive number : Type :=
| PyInt (z : Z)
| PyFloat (x : float).

(** [n == 0.0] *)
Definition is_zero (n : number) : bool :=
  match n with
  | PyInt z => (z =? 0)%Z
  | PyFloat x => x =? 0
  end.

(** The number as a float, as a division by a float takes it: an [int]
    too large for a float raises. *)
Definition to_float (n : number) : result float :=
  match n with
  | PyFloat x => Ok x
  | PyInt z =>
      let x := SF2Prim (binary_normalize prec emax z 0 false) in
      if is_infinity x then Raise OverflowError else Ok x
  end.

(** The attributes of an [FCC96326] object. *)
Record FCC96326 : Type := {
  name : string;
  frequency_mhz : list float;
  efield : list float;
  hfield : list float
}.

(** The three [np.append] lines that close each band. *)
Definition append_band (self : FCC96326) (_freq _efield _hfield : list float)
  : FCC96326 :=
  {| name := name self;
     frequency_mhz := frequency_mhz self ++ _freq;
     efield := efield self ++ _efield;
     hfield := hfield self ++ _hfield |}.

Definition clear_tables (self : FCC96326) : FCC96326 :=
  {| name := name self; frequency_mhz := []; efield := []; hfield := [] |}.

(** [init_tables_occupational(self)] *)
Definition init_tables_occupational (self : FCC96326) : result FCC96326 :=
  let self := clear_tables self in
  (* 0.003 - 0.1 MHz. E = 614 V/m, H = 163 A/m *)
  rbind (Numpy.arange 0.003 0.1 0.01) (fun _freq =>
  let _efield := Numpy.mul_scalar (Numpy.ones (length _freq)) 614 in
  let _hfield := Numpy.mul_scalar (Numpy.ones (length _freq)) 163 in
  let self := append_band self _freq _efield _hfield in
  (* 0.1 - 3.0 MHz. E = 614 V/m, H = 16.3/f A/m *)
  rbind (Numpy.arange 0.1 3.0 0.01) (fun _freq =>
  let _efield := Numpy.mul_scalar (Numpy.ones (length _freq)) 614 in
  let _hfield := Numpy.scalar_div 16.3 _freq in
  let self := append_band self _freq _efield _hfield in
  (* 3.0-30 MHz. E = 1842/f V/m, H = 16.3/f A/m *)
  rbind (Numpy.arange 3.0 30.0 0.01) (fun _freq =>
  let _efield := Numpy.scalar_div 1842.0 _freq in
  let _hfield := Numpy.scalar_div 16.3 _freq in
  let self := append_band self _freq _efield _hfield in
  (* 30-100 MHz. E = 61.4 V/m, H = 16.3/f A/m *)
  rbind (Numpy.arange 30.0 100.0 0.01) (fun _freq =>
  let _efield := Numpy.mul_scalar (Numpy.ones (length _freq)) 61.4 in
  let _hfield := Numpy.scalar_div 16.3 _freq in
  let self := append_band self _freq _efield _hfield in
  (* 100-300 MHz E = 61.4 V/m, H = 0.163 A/m *)
  rbind (Numpy.arange 100.0 300.0 0.01) (fun _freq =>
  let _efield := Numpy.mul_scalar (Numpy.ones (length _freq)) 61.4 in
  let _hfield := Numpy.mul_scalar (Numpy.ones (length _freq)) 0.163 in
  let self := append_band self _freq _efield _hfield in
  (* 300-3000 MHz. S = f/300 W/m^2, E = sqrt(S*377), H = sqrt(S/377) *)
  rbind (Numpy.arange 300.0 3000.0 0.01) (fun _freq =>
  let _s := Numpy.div_scalar _freq 300 in
  let _efield := Numpy.sqrt (Numpy.mul_scalar _s 377.0) in
  let _hfield := Numpy.sqrt (Numpy.div_scalar _s 377.0) in
  Ok (append_band self _freq _efield _hfield))))))).

(** [init_tables_general_public(self)] *)
Definition init_tables_general_public (self : FCC96326) : result FCC96326 :=
  Ok (clear_tables self).

(** [FCC96326(occupational)] *)
Definition init (occupational : bool) : result FCC96326 :=
  if occupational
  then init_tables_occupational
         {| name := "FCC 96-326 Controlled Environments (Occupational)";
            frequency_mhz := []; efield := []; hfield := [] |}
  else init_tables_general_public
         {| name := "FCC 96-326 Uncontrolled Environments (General Public)";
            frequency_mhz := []; efield := []; hfield := [] |}.

(** The methods log; they run on the logging sink. *)
Definition Log : Type := list Logging.record.

Definition logging (r : Logging.record) : M Log unit :=
  modify (fun l : Log => l ++ [r]).

(** What [efield_limit] and [hfield_limit] share: the index of the table
    frequency nearest to [freq], with the warning when it is more than
    1 MHz away. *)
Definition nearest_index (self : FCC96326) (freq : float) : M Log nat :=
  idx <- lift (Numpy.argmin
                 (Numpy.abs (Numpy.sub_scalar (frequency_mhz self) freq))) ;;
  nearest <- lift (item (frequency_mhz self) idx) ;;
  (if 1.0 <? PrimFloat.abs (nearest - freq)
   then logging (Logging.warning (Logging.FarFromNearestMatch freq nearest))
   else ret tt) ;;;
  ret idx.

(** [efield_limit(self, frequency_mhz)] *)
Definition efield_limit (self : FCC96326) (freq : float) : M Log float :=
  idx <- nearest_index self freq ;;
  lift (item (efield self) idx).

(** [hfield_limit(self, frequency_mhz)] *)
Definition hfield_limit (self : FCC96326) (freq : float) : M Log float :=
  idx <- nearest_index self freq ;;
  lift (item (hfield self) idx).

Section Conversions.

Variable lm : Libm.

(** [percentage_to_efield(self, percentage, frequency_mhz)] *)
Definition percentage_to_efield (self : FCC96326) (percentage : number)
  (freq : float) : M Log float :=
  if is_zero percentage then ret 0
  else
    p <- lift (to_float percentage) ;;
    let _percentage_db := 10 * log10 lm (p / 100.0) in
    let ratio := pow lm 10 (_percentage_db / 20.0) in
    limit <- efield_limit self freq ;;
    ret (ratio * limit).

(** [percentage_to_hfield(self, percentage, frequency_mhz)] *)
Definition percentage_to_hfield (self : FCC96326) (percentage : number)
  (freq : float) : M Log float :=
  if is_zero percentage then ret 0
  else
    p <- lift (to_float percentage) ;;
    let _percentage_db := 10 * log10 lm (p / 100.0) in
    let ratio := pow lm 10 (_percentage_db / 20.0) in
    limit <- hfield_limit self freq ;;
    ret (ratio * limit).

End Conversions.

(** [efield_to_percentage], [hfield_to_percentage] *)
Definition efield_to_percentage (self : FCC96326) (value freq : float)
  : float := 0.
Definition hfield_to_percentage (self : FCC96326) (value freq : float)
  : float := 0.

(** [needle in s] for two strings. *)
Fixpoint is_prefix (needle s : str) : bool :=
  match needle, s with
  | [], _ => true
  | a :: n, b :: r => (a =? b)%N && is_prefix n r
  | _ :: _, [] => false
  end.

Fixpoint contains (needle s : str) : bool :=
  is_prefix needle s
  || match s with
     | [] => false
     | _ :: r => contains needle r
     end.

(** [choose_standard(standard_name)] *)
Definition choose_standard (standard_name : str) : result (option FCC96326) :=
  if contains (lit "FCC 96-326 / Occupational") standard_name
  then rbind (init true) (fun std => Ok (Some std))
  else Ok None.

End Radhaz.

(** ** Notions that the statements about the standards use *)

Module Standards.

Import Radhaz.

Local Open Scope float_scope.

(** A C library cut down to the special values: 1 has logarithm 0, any
    number to the power 0 is 1, and nothing else is computed. It shows that
    [special_values] can be met. *)
Definition libm_special : Libm :=
  {| log10 := fun x => if x =? 1 then 0 else nan;
     pow := fun x y => if y =? 0 then 1 else nan |}.

(** The distance of a table frequency to the query, as [nearest_index]
    computes it. *)
Definition distance (entry freq : float) : float := abs (entry - freq).

(** What the lookup logs: the warning when the nearest table frequency is
    more than 1 MHz away, and nothing otherwise. *)
Definition far_warning (freq nearest : float) : Log :=
  if 1.0 <? distance nearest freq
  then [Logging.warning (Logging.FarFromNearestMatch freq nearest)]
  else [].

(** [idx] is an index of the table whose frequency is nearest to [freq]: no
    entry of the table is strictly nearer. *)
Definition nearest_at (self : FCC96326) (freq : float) (idx : nat)
  (nearest : float) : Prop :=
  frequency_mhz self !! idx = Some nearest
  /\ forall (j : nat) (other : float),
       frequency_mhz self !! j = Some other ->
       (distance other freq <? distance nearest freq) = false.

End Standards.

(* ===================================================================== *)
(** * __main__.py                                                         *)
(* ===================================================================== *)

Module Main.

Import Radman2 Radhaz.

(** What reaches the logging sink when the program runs: a record of one of
    the two library modules, or a message of the program itself, kept as the
    text of its f-string (each replacement field written [{}]) with the
    values that go into it. *)
Inductive entry : Type :=
| Library (r : Logging.record)
| Message (lvl : Logging.level) (text : string) (values : list value).

(** The logging sink and the log file: [None] when no file was opened,
    otherwise the lines written, oldest first. *)
Record State : Type := {
  sink : list entry;
  log_file : option (list (string * list value))
}.

Definition tab : string := String (ascii_of_nat 9) EmptyString.

(** [d[key]] *)
Definition getitem (d : dict) (key : string) : result value :=
  match d !! key with
  | Some v => Ok v
  | None => Raise KeyError
  end.

(** [logging.info(..)], [logging.debug(..)] *)
Definition logging (lvl : Logging.level) (text : string)
  (values : list value) : M State unit :=
  modify (fun st => {| sink := sink st ++ [Message lvl text values];
                       log_file := log_file st |}).

(** [logging.info(f"<text>{d[key]}")] *)
Definition info_item (text : string) (d : dict) (key : string)
  : M State unit :=
  v <- lift (getitem d key) ;;
  logging Logging.INFO text [v].

(** [print_device_info(device_info)] *)
Definition print_device_info (device_info : dict) : M State unit :=
  info_item "Device Information for {}" device_info "product_name" ;;;
  info_item (tab ++ "Product Name: {}") device_info "product_name" ;;;
  info_item (tab ++ "Production ID: {}") device_info "production_id" ;;;
  info_item (tab ++ "Serial Number: {}") device_info "serial_number" ;;;
  info_item (tab ++ "Device ID: {}") device_info "device_id" ;;;
  info_item (tab ++ "Device Type: {}") device_info "device_type" ;;;
  info_item (tab ++ "Firmware Version: {}") device_info "firmware_version" ;;;
  info_item (tab ++ "Calibration Date: {}") device_info "calibration_date" ;;;
  info_item (tab ++ "Calibration Due: {}") device_info "calibration_due".

(** [v/1e6]: a string cannot be divided. *)
Definition per_mhz (v : value) : result value :=
  match v with
  | VFloat x => Ok (VFloat (x / 1e6)%float)
  | VStr _ => Raise TypeError
  end.

(** [logging.info(f"<text>{d[lower]/1e6} - {d[upper]/1e6} MHz")] *)
Definition info_range (text : string) (d : dict) (lower upper : string)
  : M State unit :=
  lo <- lift (rbind (getitem d lower) per_mhz) ;;
  hi <- lift (rbind (getitem d upper) per_mhz) ;;
  logging Logging.INFO text [lo; hi].

(** [try: body / except: pass] *)
Definition try_pass {S} (body : M S unit) : M S unit :=
  fun st => match body st with
            | (st', Raise _) => (st', Ok tt)
            | r => r
            end.

(** [print_probe_info(probe_info)] *)
Definition print_probe_info (probe_info : dict) : M State unit :=
  info_item "Probe Information for {}" probe_info "product_name" ;;;
  info_item (tab ++ "Product Name: {}") probe_info "product_name" ;;;
  info_item (tab ++ "Production ID: {}") probe_info "production_id" ;;;
  info_item (tab ++ "Serial Number: {}") probe_info "serial_number" ;;;
  info_item (tab ++ "Calibration Date: {}") probe_info "calibration_date" ;;;
  info_item (tab ++ "Calibration Due: {}") probe_info "calibration_due" ;;;
  info_range (tab ++ "E-Field Range: {} - {} MHz") probe_info
    "e_field_lower_frequency_hz" "e_field_upper_frequency_hz" ;;;
  try_pass (info_range (tab ++ "H-Field Range: {} - {} MHz") probe_info
              "h_field_lower_frequency_hz" "h_field_upper_frequency_hz") ;;;
  info_item (tab ++ "Shaped Probe: {}") probe_info "shaped" ;;;
  info_item (tab ++ "Shaping Standard: {}") probe_info "standard_name".

(** [bool(args.frequency)]: no frequency and the frequency 0.0 are false. *)
Definition truthy (frequency : option float) : bool :=
  match frequency with
  | Some x => negb (x =? 0)%float
  | None => false
  end.

(** [standard and args.frequency], with what the branch then uses. *)
Definition converting (standard : option FCC96326) (frequency : option float)
  : option (FCC96326 * float) :=
  match standard, frequency with
  | Some std, Some f => if truthy frequency then Some (std, f) else None
  | _, _ => None
  end.

(** A value of the sample as the percentage that a conversion is given: a
    string fails at [percentage/100.0]. *)
Definition as_number (v : value) : result number :=
  match v with
  | VFloat x => Ok (PyFloat x)
  | VStr _ => Raise TypeError
  end.

(** [f"{d[key]:.3f}"], [f"{d[key]:.2f}"]: only a number has this format. *)
Definition formatted (d : dict) (key : string) : result value :=
  rbind (getitem d key)
        (fun v => match v with
                  | VFloat _ => Ok v
                  | VStr _ => Raise ValueError
                  end).

(** A method of the standard, run from the program: what it logs goes to the
    sink. *)
Definition run_standard {A} (m : M Log A) : M State A :=
  fun st =>
    let '(lg, r) := m [] in
    ({| sink := sink st ++ map Library lg; log_file := log_file st |}, r).

(** [log_file.write(_log_line)] and [log_file.flush()]; a line is kept as
    its f-string and values, the final newline left out. *)
Definition write_line (text : string) (values : list value) : M State unit :=
  modify (fun st =>
    {| sink := sink st;
       log_file := match log_file st with
                   | Some written => Some (written ++ [(text, values)])
                   | None => None
                   end |}).

Section Handle_data.

Variable lm : Libm.

(** The globals [standard] and [args.frequency]. *)
Variable standard : option FCC96326.
Variable frequency : option float.

(** [handle_data(data)]; [_timestamp] is what
    [datetime.datetime.utcnow().isoformat() + 'Z'] gave. The result is [data]
    as the call leaves it. *)
Definition handle_data (_timestamp : str) (data : dict) : M State dict :=
  data <-
    match converting standard frequency with
    | Some (std, f) =>
        pe <- lift (rbind (getitem data "e_field_percentage") as_number) ;;
        e <- run_standard (percentage_to_efield lm std pe f) ;;
        let data := <["e_field" := VFloat e]> data in
        ph <- lift (rbind (getitem data "h_field_percentage") as_number) ;;
        h <- run_standard (percentage_to_hfield lm std ph f) ;;
        let data := <["h_field" := VFloat h]> data in
        a1 <- lift (formatted data "e_field") ;;
        a2 <- lift (formatted data "e_field_percentage") ;;
        a3 <- lift (formatted data "h_field") ;;
        a4 <- lift (formatted data "h_field_percentage") ;;
        logging Logging.INFO
          "{}: E-Field: {:.3f} V/m ({:.2f}%), H-Field: {:.3f} A/m ({:.2f}%)"
          [VStr _timestamp; a1; a2; a3; a4] ;;;
        ret data
    | None =>
        a1 <- lift (formatted data "e_field_percentage") ;;
        a2 <- lift (formatted data "h_field_percentage") ;;
        logging Logging.INFO "{}: E-Field: {:.2f}%, H-Field: {:.2f}%"
          [VStr _timestamp; a1; a2] ;;;
        ret data
    end ;;
  file <- gets log_file ;;
  match file with
  | Some _ =>
      a1 <- lift (formatted data "e_field_percentage") ;;
      a2 <- lift (formatted data "h_field_percentage") ;;
      a3 <- lift (getitem data "battery_percentage") ;;
      line <-
        match converting standard frequency with
        | Some _ =>
            a4 <- lift (formatted data "e_field") ;;
            a5 <- lift (formatted data "h_field") ;;
            ret ("{},{:.2f},{:.2f},{},{:.3f},{:.3f}",
                 [VStr _timestamp; a1; a2; a3; a4; a5])
        | None =>
            ret ("{},{:.2f},{:.2f},{}", [VStr _timestamp; a1; a2; a3])
        end ;;
      logging Logging.DEBUG "Logged Line: {}" (snd line) ;;;
      write_line (fst line) (snd line) ;;;
      ret data
  | None => ret data
  end.

End Handle_data.

End Main.

(** ** Further notions that the statements use *)

Module Cases.

Import Radman2 Scenario.

Section Consumer.

Context {W : Type}.

(** The state after one write that no read follows. *)
Definition after_write (b : bytes) (w : World W) : World W :=
  set_self W (set_s W (fun p => {| is_open := is_open p; rx := rx p;
                                   tx := tx p ++ [b] |})) w.

(** The state that [start_measurement] leaves when it starts a measurement:
    the two commands written, the answer to the first one read, the flag
    set, and one more thread. *)
Definition started (rest : list bytes) (w : World W) : World W :=
  {| self :=
       {| measurement_running := true;
          callback := callback W (self W w);
          sample_rate := sample_rate W (self W w);
          s := {| is_open := is_open (s W (self W w)); rx := rest;
                  tx := (tx (s W (self W w)) ++ [ascii_bytes "REMOTE ON;"])
                        ++ [ascii_bytes "MEAS_START_CIB;"] |};
          device_info := device_info W (self W w);
          probe_info := probe_info W (self W w);
          measurement_thread := Some (threads W w) |};
     log := log W w; threads := S (threads W w); slept := slept W w;
     consumer := consumer W w |}.

(** The state with the consumer replaced. *)
Definition with_consumer (c : W) (w : World W) : World W :=
  {| self := self W w; log := log W w; threads := threads W w;
     slept := slept W w; consumer := c |}.

End Consumer.

(** A measuring session with the callback [f], on a port that will answer
    [lines]. *)
Definition listening (f : callback_t nat) (lines : list bytes) : World nat :=
  {| self := {| measurement_running := true; callback := Some f;
                sample_rate := 1;
                s := {| is_open := true; rx := lines; tx := [] |};
                device_info := None; probe_info := None;
                measurement_thread := Some O |};
     log := []; threads := 1; slept := 0; consumer := O |}.

(** A callback that counts the samples and raises [e] on each. *)
Definition failing (e : exn) : callback_t nat :=
  fun _ count => (S count, Some e).

(** A callback that keeps the samples it is given, oldest first. *)
Definition recorder : callback_t (list dict) :=
  fun d seen => (seen ++ [d], None).

(** A measuring session with the recording callback, on a port that will
    answer [lines]. *)
Definition recording (lines : list bytes) : World (list dict) :=
  {| self := {| measurement_running := true; callback := Some recorder;
                sample_rate := 1;
                s := {| is_open := true; rx := lines; tx := [] |};
                device_info := None; probe_info := None;
                measurement_thread := Some O |};
     log := []; threads := 1; slept := 0; consumer := [] |}.

(** The sample that a received line yields, when it yields one. *)
Definition sample_of (raw : bytes) : option dict :=
  match decode raw with
  | Ok text =>
      let _fields := split comma (drop_last (strip text)) in
      if (length _fields =? 6)%nat
      then match parse_sample _fields with
           | Ok d => Some d
           | Raise _ => None
           end
      else None
  | Raise _ => None
  end.

(** The error that a received line is reported with, when it yields no
    sample. *)
Definition report_of (raw : bytes) : option Logging.record :=
  match decode raw with
  | Ok text =>
      let _fields := split comma (drop_last (strip text)) in
      if (length _fields =? 6)%nat
      then match parse_sample _fields with
           | Ok _ => None
           | Raise e =>
               Some (Logging.error (Logging.CouldNotParseLine (strip text) e))
           end
      else Some (Logging.error Logging.NotEnoughFields)
  | Raise _ => None
  end.

(** The state of the loop after some turns: the lines [rest] are still to
    come, [seen] is what the consumer holds and [reports] what was logged. *)
Definition after_turns (rest : list bytes) (seen : list dict)
  (reports : list Logging.record) (w : World (list dict))
  : World (list dict) :=
  {| self := set_s (list dict)
               (fun p => {| is_open := is_open p; rx := rest; tx := tx p |})
               (self (list dict) w);
     log := log (list dict) w ++ reports;
     threads := threads (list dict) w; slept := slept (list dict) w;
     consumer := seen |}.

(** A table of three entries, two of which are equally near to 2.5 MHz. *)
Definition three_entries : Radhaz.FCC96326 :=
  {| Radhaz.name := "three entries";
     Radhaz.frequency_mhz := [1; 2; 3]%float;
     Radhaz.efield := [10; 20; 30]%float;
     Radhaz.hfield := [0.5; 0.25; 0.125]%float |}.

(** The six mandatory keys of a probe record. *)
Definition mandatory (f0 f1 f2 f3 f4 f5 : str) : dict :=
  <["field_type" := VStr f5]>
  (<["calibration_due" := VStr f4]>
  (<["calibration_date" := VStr f3]>
  (<["serial_number" := VStr f2]>
  (<["production_id" := VStr f1]>
  (<["product_name" := VStr f0]> (∅ : dict)))))).

(** The keys of the four optional numbers of a probe record, in the order
    in which [get_probe_info] stores them. *)
Definition optional_keys : list string :=
  ["e_field_lower_frequency_hz"; "e_field_upper_frequency_hz";
   "h_field_lower_frequency_hz"; "h_field_upper_frequency_hz"].

(** The record [m] with the numbers [xs] stored under the first optional
    keys. *)
Definition partial_record (m : dict) (xs : list float) : dict :=
  fold_left (fun d kx => <[fst kx := VFloat (snd kx)]> d)
            (zip optional_keys xs) m.

(** The record [m] with the two keys of the shaping. *)
Definition with_shaping (f10 f11 : str) (m : dict) : dict :=
  <["standard_name" := VStr f11]> (<["shaped" := VStr f10]> m).

(** The numbers of the fields before the first one that is no number. *)
Fixpoint parsed_prefix (fs : list str) : list float :=
  match fs with
  | [] => []
  | f :: r =>
      match float_of_str f with
      | Ok x => x :: parsed_prefix r
      | Raise _ => []
      end
  end.

(** The ten keys of a device record. *)
Definition device_record (f0 f1 f2 f3 f4 f5 f6 f7 f8 f9 : str) : dict :=
  <["options_name" := VStr f9]>
  (<["num_options" := VStr f8]>
  (<["calibration_due" := VStr f7]>
  (<["calibration_date" := VStr f6]>
  (<["firmware_version" := VStr f5]>
  (<["device_type" := VStr f4]>
  (<["device_id" := VStr f3]>
  (<["serial_number" := VStr f2]>
  (<["production_id" := VStr f1]>
  (<["product_name" := VStr f0]> (∅ : dict)))))))))).

(** The probe record of twelve fields: the mandatory keys, the optional
    numbers before the first malformed one, and the shaping when all four
    numbers are well formed. *)
Definition probe_record (f0 f1 f2 f3 f4 f5 f6 f7 f8 f9 f10 f11 : str)
  : dict :=
  let xs := parsed_prefix [f6; f7; f8; f9] in
  let d := partial_record (mandatory f0 f1 f2 f3 f4 f5) xs in
  if (length xs =? 4)%nat then with_shaping f10 f11 d else d.

(** What [get_probe_info] logs on twelve fields of which [fs] are the
    optional numbers. *)
Definition probe_warning (fs : list str) : list Logging.record :=
  if (length (parsed_prefix fs) =? 4)%nat then []
  else [Logging.warning (Logging.ProbeInfoException ValueError)].
(** The [j]-th frequency of a band that begins at [start] and is stepped by
    0.01 MHz: [start] plus [j] times the step as the floats have it, which
    is the difference of the first two frequencies of the band. *)
Definition nth_frequency (start : float) (j : Z) : float :=
  (start + of_uint63 (Uint63.of_Z j) * ((start + 0.01) - start))%float.

(** From the index [first] on, the tables of [std] hold the [n] frequencies
    of the band that begins at [start], each with the limits [e] and [h] of
    that frequency. *)
Definition holds_band (std : Radhaz.FCC96326) (first n : Z) (start : float)
  (e h : float -> float) : Prop :=
  forall j : Z, (0 <= j < n)%Z ->
    let f := nth_frequency start j in
    Radhaz.frequency_mhz std !! Z.to_nat (first + j) = Some f
    /\ Radhaz.efield std !! Z.to_nat (first + j) = Some (e f)
    /\ Radhaz.hfield std !! Z.to_nat (first + j) = Some (h f).

(** The state with more messages of the program in the sink. *)
Definition said (ms : list Main.entry) (st : Main.State) : Main.State :=
  {| Main.sink := Main.sink st ++ ms; Main.log_file := Main.log_file st |}.

(** The state with more lines in the log file, when there is one. *)
Definition written (ls : list (string * list value)) (st : Main.State)
  : Main.State :=
  {| Main.sink := Main.sink st;
     Main.log_file := match Main.log_file st with
                      | Some old => Some (old ++ ls)
                      | None => None
                      end |}.

(** The sink of a program that has logged nothing, with or without a log
    file. *)
Definition fresh (with_file : bool) : Main.State :=
  {| Main.sink := [];
     Main.log_file := if with_file then Some [] else None |}.

End Cases.

(* ===================================================================== *)
(** * Facts about the session (radman2.py)                                *)
(* ===================================================================== *)

Module Radman2_facts.

Import Radman2 Scenario Cases.

(** Running a block of statements: unfold the monad. *)
Ltac run :=
  unfold bind, ret, raise, lift, gets, modify, try_except, rbind; simpl.

Section Guard.

Context {W : Type}.

(** C2. While [measurement_running] is true, [command] writes nothing to the
    port, reads nothing from it and returns [None], whatever the command
    string and the [noreply] flag: the whole state is as before. *)
Theorem command_disabled_while_measuring
  (cmd : str) (noreply : bool) (w : World W) :
  measurement_running W (self W w) = true ->
  command W cmd noreply w = (w, Ok None)
  /\ tx (s W (self W (fst (command W cmd noreply w)))) = tx (s W (self W w)).
Proof.
  intros Hrun. unfold command. run. rewrite Hrun. split; reflexivity.
Qed.

(** C10. While [measurement_running] is true, [start_measurement] returns
    at once: no [REMOTE ON] and no [MEAS_START_CIB] is written, no thread is
    started and the whole state is as before. *)
Theorem start_measurement_idempotent (w : World W) :
  measurement_running W (self W w) = true ->
  start_measurement W w = (w, Ok tt)
  /\ tx (s W (self W (fst (start_measurement W w)))) = tx (s W (self W w))
  /\ threads W (fst (start_measurement W w)) = threads W w.
Proof.
  intros Hrun. unfold start_measurement. run. rewrite Hrun.
  repeat split; reflexivity.
Qed.

(** [stop_measurement] goes through [command], so the guard of [command]
    silences it exactly when a measurement runs. *)
Lemma stop_measurement_while_measuring (w : World W) :
  measurement_running W (self W w) = true ->
  stop_measurement W w = (w, Ok tt).
Proof.
  intros Hrun. unfold stop_measurement, command. run. rewrite Hrun.
  reflexivity.
Qed.

(** X26. [close] writes nothing: it clears the flag, sleeps 5 seconds and
    closes the port; the device is not told to stop. *)
Lemma close_writes_nothing (w : World W) :
  exists w', close W w = (w', Ok tt)
    /\ tx (s W (self W w')) = tx (s W (self W w))
    /\ is_open (s W (self W w')) = false
    /\ measurement_running W (self W w') = false
    /\ slept W w' = slept W w + 5.
Proof.
  unfold close, sleep, serial_close. run.
  eexists; split; [reflexivity|]. simpl. repeat split; reflexivity.
Qed.

End Guard.

Lemma command_disabled_while_measuring_witness :
  measurement_running unit (self unit measuring_session) = true
  /\ (command unit (lit "DEVICE_INFO?") false measuring_session
      = (measuring_session, Ok None)
      /\ tx (s unit (self unit
              (fst (command unit (lit "DEVICE_INFO?") false
                      measuring_session))))
         = tx (s unit (self unit measuring_session))).
Proof.
  split; [reflexivity|].
  apply (command_disabled_while_measuring (lit "DEVICE_INFO?") false
           measuring_session).
  reflexivity.
Defined.

Lemma start_measurement_idempotent_witness :
  measurement_running unit (self unit measuring_session) = true
  /\ (start_measurement unit measuring_session = (measuring_session, Ok tt)
      /\ tx (s unit (self unit
              (fst (start_measurement unit measuring_session))))
         = tx (s unit (self unit measuring_session))
      /\ threads unit (fst (start_measurement unit measuring_session))
         = threads unit measuring_session).
Proof.
  split; [reflexivity|].
  apply (start_measurement_idempotent measuring_session). reflexivity.
Defined.

(** C1, on the code. In the measuring session, whose port has been given
    [REMOTE ON;] and [MEAS_START_CIB;], [stop_measurement()] returns with the
    state unchanged: [MEAS_STOP_CIB;] is not written. [close()] then clears
    the flag, sleeps 5 seconds and closes the port, and has written nothing
    either. Out of a measurement the same call does write the command. *)
Theorem stop_measurement_is_silenced :
  measurement_running unit (self unit measuring_session) = true
  /\ tx (s unit (self unit measuring_session))
     = [ascii_bytes "REMOTE ON;"; ascii_bytes "MEAS_START_CIB;"]
  /\ stop_measurement unit measuring_session = (measuring_session, Ok tt)
  /\ tx (s unit (self unit (fst (close unit measuring_session))))
     = [ascii_bytes "REMOTE ON;"; ascii_bytes "MEAS_START_CIB;"]
  /\ is_open (s unit (self unit (fst (close unit measuring_session)))) = false
  /\ tx (s unit (self unit (fst (stop_measurement unit (session false [])))))
     = [ascii_bytes "MEAS_STOP_CIB;"].
Proof.
  repeat split; reflexivity.
Qed.

(** ** The measurement loop *)

Section Loop.

Context {W : Type}.

(** [float(s)] raises nothing but [ValueError]. *)
Lemma float_of_str_raises (t : str) (e : exn) :
  float_of_str t = Raise e -> e = ValueError.
Proof.
  unfold float_of_str.
  destruct (strip_underscores _ _) as [u|]; [|congruence].
  destruct (parse_numeral u); congruence.
Qed.

Lemma item_raises {A} (l : list A) (i : nat) (e : exn) :
  item l i = Raise e -> e = IndexError.
Proof. unfold item. destruct (l !! i); congruence. Qed.

Lemma item_float_raises (l : list str) (i : nat) (e : exn) :
  rbind (item l i) float_of_str = Raise e -> is_Exception e = true.
Proof.
  unfold rbind. destruct (item l i) eqn:Hi.
  - intros H. apply float_of_str_raises in H. now subst.
  - intros H. inversion H; subst. apply item_raises in Hi. now subst.
Qed.

(** What the [else] branch of the loop raises is caught by
    [except Exception]. *)
Lemma parse_sample_raises (fs : list str) (e : exn) :
  parse_sample fs = Raise e -> is_Exception e = true.
Proof.
  unfold parse_sample.
  repeat match goal with
         | |- rbind ?r _ = Raise _ -> _ =>
             let H := fresh "H" in
             destruct r eqn:H; simpl;
             [ | intros Hr; inversion Hr; subst;
                 first [ now apply item_float_raises in H
                       | apply item_raises in H; now subst ] ]
         end.
  discriminate.
Qed.

(** X10. A malformed line, once decoded, is logged as an error and dropped:
    the callback is not called and nothing is raised. *)
Lemma handle_line_malformed (_line : str) (w : World W) :
  malformed _line = true ->
  exists m, handle_line W _line w = (add_log (Logging.error m) w, Ok tt).
Proof.
  unfold malformed, handle_line. intros Hm. run.
  destruct (negb (length (split comma (drop_last _line)) =? 6)%nat) eqn:Hlen.
  - eexists. reflexivity.
  - simpl in Hm.
    destruct (parse_sample (split comma (drop_last _line))) as [d|e] eqn:Hp;
      [discriminate|].
    rewrite (parse_sample_raises _ _ Hp). eexists. reflexivity.
Qed.

(** Whatever the decoded line, [handle_line] returns without raising and
    leaves the object's attributes alone, when the callback is well
    behaved. *)
Lemma handle_line_returns (_line : str) (w : World W) :
  well_behaved (callback W (self W w)) ->
  exists w', handle_line W _line w = (w', Ok tt) /\ self W w' = self W w.
Proof.
  intros Hcb. unfold handle_line. run.
  destruct (negb (length (split comma (drop_last _line)) =? 6)%nat).
  - eexists; split; reflexivity.
  - destruct (parse_sample (split comma (drop_last _line))) as [d|e] eqn:Hp.
    + destruct (callback W (self W w)) as [f|] eqn:Hf.
      * unfold call_callback.
        destruct (f d (consumer W w)) as [c [e|]] eqn:Hfd.
        -- rewrite (Hcb f d (consumer W w) e eq_refl)
             by (rewrite Hfd; reflexivity).
           eexists; split; reflexivity.
        -- eexists; split; reflexivity.
      * eexists; split; reflexivity.
    + rewrite (parse_sample_raises _ _ Hp). eexists; split; reflexivity.
Qed.

(** One turn of the loop on a line that decodes: it returns, the line is
    consumed, and the loop condition still holds. *)
Lemma measurement_loop_body_returns (w : World W) :
  is_open (s W (self W w)) = true ->
  is_ok (decode (hd [] (rx (s W (self W w))))) = true ->
  well_behaved (callback W (self W w)) ->
  exists w', measurement_loop_body W w = (w', Ok tt)
    /\ measurement_running W (self W w') = measurement_running W (self W w)
    /\ callback W (self W w') = callback W (self W w)
    /\ is_open (s W (self W w')) = true
    /\ rx (s W (self W w')) = tl (rx (s W (self W w))).
Proof.
  intros Hopen Hdec Hcb.
  unfold measurement_loop_body, serial_readline. run. rewrite Hopen.
  destruct (rx (s W (self W w))) as [|raw rest] eqn:Hrx; simpl in *.
  - destruct (handle_line_returns (strip []) w Hcb) as (w' & Hw' & Hself).
    change (decode []) with (@Ok str []). simpl.
    rewrite Hw'. exists w'. rewrite Hself, Hrx.
    repeat split; try reflexivity. exact Hopen.
  - destruct (decode raw) as [text|] eqn:Ht; [|discriminate]. simpl.
    set (w1 := set_self W _ w).
    destruct (handle_line_returns (strip text) w1 Hcb) as (w' & Hw' & Hself).
    rewrite Hw'. exists w'. rewrite Hself. subst w1. simpl.
    repeat split; try reflexivity. exact Hopen.
Qed.

(** X9. As long as the lines decode, the loop does not stop: however many
    turns it is given, it has raised nothing and is still running. *)
Lemma measurement_loop_keeps_running (n : nat) : forall w : World W,
  measurement_running W (self W w) = true ->
  is_open (s W (self W w)) = true ->
  Forall (fun raw => is_ok (decode raw) = true) (rx (s W (self W w))) ->
  well_behaved (callback W (self W w)) ->
  snd (measurement_loop W n w) = Ok StillRunning.
Proof.
  induction n as [|n IH]; intros w Hrun Hopen Hall Hcb; simpl.
  - run. rewrite Hrun. reflexivity.
  - unfold bind at 1. unfold gets at 1. rewrite Hrun.
    assert (Hhd : is_ok (decode (hd [] (rx (s W (self W w))))) = true).
    { destruct Hall; [reflexivity|assumption]. }
    destruct (measurement_loop_body_returns w Hopen Hhd Hcb)
      as (w' & Hbody & Hrun' & Hcb' & Hopen' & Hrx').
    unfold bind. rewrite Hbody.
    apply IH.
    + now rewrite Hrun'.
    + exact Hopen'.
    + rewrite Hrx'. destruct Hall; [constructor|assumption].
    + now rewrite Hcb'.
Qed.

End Loop.

(** C3, on the code. The line is decoded before the [try] block is entered.
    On the measuring session, a line of the single byte 0xFF ends the loop
    with [UnicodeDecodeError]: the line is consumed, nothing is logged and
    the lines after it are not read. The same loop on a line with too few
    fields and on one with an unparsable number logs each and is still
    running. *)
Theorem undecodable_line_ends_the_loop :
  let w := session true [[xff]; ascii_bytes "0,8,0,OK,OK,100;"] in
  snd (measurement_loop unit 2 w) = Raise UnicodeDecodeError
  /\ log unit (fst (measurement_loop unit 2 w)) = []
  /\ rx (s unit (self unit (fst (measurement_loop unit 2 w))))
     = [ascii_bytes "0,8,0,OK,OK,100;"]
  /\ measurement_loop unit 2
       (session true [ascii_bytes "0,8,0;"; ascii_bytes "0,x,0,OK,OK,100;"])
     = ({| self := self unit (session true []);
           log := [Logging.error Logging.NotEnoughFields;
                   Logging.error
                     (Logging.CouldNotParseLine (lit "0,x,0,OK,OK,100;")
                        ValueError)];
           threads := 0; slept := 0; consumer := tt |},
        Ok StillRunning).
Proof.
  cbv zeta. repeat split; vm_compute; reflexivity.
Qed.

(** ** The two information queries *)

(** The entries of a dictionary built by a nest of insertions. *)
Ltac entries :=
  repeat (rewrite map_to_list_insert by (simplify_map_eq; done));
  rewrite map_to_list_empty.

(** A key looked up in a nest of insertions. *)
Ltac look :=
  repeat (rewrite lookup_insert_ne by discriminate);
  first [apply lookup_insert_eq | apply lookup_empty].

Lemma length_10 {A} (l : list A) :
  length l = 10%nat ->
  exists a0 a1 a2 a3 a4 a5 a6 a7 a8 a9, l = [a0; a1; a2; a3; a4; a5; a6; a7; a8; a9].
Proof.
  intros H. do 10 (destruct l as [|? l]; [discriminate|]).
  destruct l; [|discriminate]. repeat eexists.
Qed.

Lemma length_12 {A} (l : list A) :
  length l = 12%nat ->
  exists a0 a1 a2 a3 a4 a5 a6 a7 a8 a9 a10 a11,
    l = [a0; a1; a2; a3; a4; a5; a6; a7; a8; a9; a10; a11].
Proof.
  intros H. do 12 (destruct l as [|? l]; [discriminate|]).
  destruct l; [|discriminate]. repeat eexists.
Qed.

Section Queries.

Context {W : Type}.

(** A command that is answered, out of a measurement: it is written with its
    terminator, one line is read, and the line comes back decoded and
    stripped. *)
Lemma command_answered (cmd : str) (b : bytes) (w : World W)
  (raw : bytes) (rest : list bytes) (text : str) :
  measurement_running W (self W w) = false ->
  is_open (s W (self W w)) = true ->
  rx (s W (self W w)) = raw :: rest ->
  encode cmd = Ok b ->
  decode raw = Ok text ->
  command W cmd false w
  = (after_query (b ++ [semicolon]) rest w, Ok (Some (strip text))).
Proof.
  intros Hrun Hopen Hrx Henc Hdec.
  unfold command, serial_write, serial_readline. run.
  rewrite Hrun, Henc. simpl. rewrite Hopen. simpl. rewrite Hopen, Hrx, Hdec.
  reflexivity.
Qed.

(** The [try] block of [get_probe_info] on twelve fields: the numbers before
    the first malformed one are stored, and the shaping only after all
    four. *)
Lemma probe_optional_runs (f0 f1 f2 f3 f4 f5 f6 f7 f8 f9 f10 f11 : str)
  (m : dict) (w : World W) :
  let xs := parsed_prefix [f6; f7; f8; f9] in
  try_local W
    (probe_optional [f0; f1; f2; f3; f4; f5; f6; f7; f8; f9; f10; f11])
    (fun e => Radman2.logging W
                (Logging.warning (Logging.ProbeInfoException e))) m w
  = if (length xs =? 4)%nat
    then (w, Ok (with_shaping f10 f11 (partial_record m xs)))
    else (add_log (Logging.warning (Logging.ProbeInfoException ValueError))
            w, Ok (partial_record m xs)).
Proof.
  cbv zeta. unfold try_local, probe_optional, store_float, store_str.
  unfold parsed_prefix. run.
  destruct (float_of_str f6) as [x6|e6] eqn:E6; simpl;
    [|rewrite (float_of_str_raises _ _ E6); reflexivity].
  destruct (float_of_str f7) as [x7|e7] eqn:E7; simpl;
    [|rewrite (float_of_str_raises _ _ E7); reflexivity].
  destruct (float_of_str f8) as [x8|e8] eqn:E8; simpl;
    [|rewrite (float_of_str_raises _ _ E8); reflexivity].
  destruct (float_of_str f9) as [x9|e9] eqn:E9; simpl;
    [|rewrite (float_of_str_raises _ _ E9); reflexivity].
  reflexivity.
Qed.

(** C5. Out of a measurement, on an open port whose next line decodes to
    [text]: [get_device_info] writes [DEVICE_INFO?;], reads that line and
    splits it, stripped and without its last character, on commas. It raises
    [ValueError] (the spec's ProtocolError) exactly when that does not give
    10 fields, and with 10 fields it returns the dictionary that holds the
    ten keys, each with the field of its position, and nothing else. *)
Theorem get_device_info_spec (w : World W)
  (raw : bytes) (rest : list bytes) (text : str) :
  measurement_running W (self W w) = false ->
  is_open (s W (self W w)) = true ->
  rx (s W (self W w)) = raw :: rest ->
  decode raw = Ok text ->
  let _fields := split comma (drop_last (strip text)) in
  let w' := after_query (ascii_bytes "DEVICE_INFO?;") rest w in
  (length _fields <> 10%nat ->
   get_device_info W w = (w', Raise ValueError))
  /\ (forall f0 f1 f2 f3 f4 f5 f6 f7 f8 f9 : str,
        _fields = [f0; f1; f2; f3; f4; f5; f6; f7; f8; f9] ->
        exists d : dict,
          get_device_info W w = (w', Ok d)
          /\ map_to_list d ≡ₚ
               [("product_name", VStr f0); ("production_id", VStr f1);
                ("serial_number", VStr f2); ("device_id", VStr f3);
                ("device_type", VStr f4); ("firmware_version", VStr f5);
                ("calibration_date", VStr f6); ("calibration_due", VStr f7);
                ("num_options", VStr f8); ("options_name", VStr f9)])
  /\ (length _fields = 10%nat <-> is_ok (snd (get_device_info W w)) = true).
Proof.
  intros Hrun Hopen Hrx Hdec _fields w'.
  assert (Hcmd : command W (lit "DEVICE_INFO?") false w
                 = (w', Ok (Some (strip text)))).
  { apply (command_answered _ (ascii_bytes "DEVICE_INFO?") w raw); auto. }
  assert (Hbad : length _fields <> 10%nat ->
                 get_device_info W w = (w', Raise ValueError)).
  { intros Hlen. unfold get_device_info, bind at 1. rewrite Hcmd. run.
    fold _fields. apply Nat.eqb_neq in Hlen. rewrite Hlen. reflexivity. }
  assert (Hgood : forall f0 f1 f2 f3 f4 f5 f6 f7 f8 f9 : str,
        _fields = [f0; f1; f2; f3; f4; f5; f6; f7; f8; f9] ->
        exists d : dict,
          get_device_info W w = (w', Ok d)
          /\ map_to_list d ≡ₚ
               [("product_name", VStr f0); ("production_id", VStr f1);
                ("serial_number", VStr f2); ("device_id", VStr f3);
                ("device_type", VStr f4); ("firmware_version", VStr f5);
                ("calibration_date", VStr f6); ("calibration_due", VStr f7);
                ("num_options", VStr f8); ("options_name", VStr f9)]).
  { intros f0 f1 f2 f3 f4 f5 f6 f7 f8 f9 Hf.
    unfold get_device_info, bind at 1. rewrite Hcmd. run.
    fold _fields. rewrite Hf. simpl.
    eexists; split; [reflexivity|].
    entries. symmetry. exact (Permutation_rev _). }
  split; [exact Hbad|]. split; [exact Hgood|].
  split.
  - intros Hlen. destruct (length_10 _ Hlen)
      as (a0 & a1 & a2 & a3 & a4 & a5 & a6 & a7 & a8 & a9 & Hf).
    destruct (Hgood _ _ _ _ _ _ _ _ _ _ Hf) as (d & Hd & _).
    rewrite Hd. reflexivity.
  - intros Hok. destruct (Nat.eq_dec (length _fields) 10%nat) as [|Hne];
      [assumption|].
    rewrite (Hbad Hne) in Hok. discriminate.
Qed.

(** C6, as the code has it. Out of a measurement, on an open port whose next
    line decodes to [text]: [get_probe_info] writes [Probe_INFO?;] and
    splits the answer as [get_device_info] does. Without 12 fields it raises
    [ValueError]. With 12 fields of which at least one of the four optional
    numbers (fields 6 to 9) is malformed, it raises nothing, logs one
    warning and returns the dictionary that holds the six mandatory keys,
    each with the field of its position, together with the optional numbers
    that come before the first malformed one, and no other key: [shaped] and
    [standard_name] are never in it, and the optional keys are all absent
    exactly when field 6 itself is malformed. *)
Theorem get_probe_info_partial (w : World W)
  (raw : bytes) (rest : list bytes) (text : str) :
  measurement_running W (self W w) = false ->
  is_open (s W (self W w)) = true ->
  rx (s W (self W w)) = raw :: rest ->
  decode raw = Ok text ->
  let _fields := split comma (drop_last (strip text)) in
  let w' := after_query (ascii_bytes "Probe_INFO?;") rest w in
  (length _fields <> 12%nat ->
   get_probe_info W w = (w', Raise ValueError))
  /\ (forall f0 f1 f2 f3 f4 f5 f6 f7 f8 f9 f10 f11 : str,
        _fields = [f0; f1; f2; f3; f4; f5; f6; f7; f8; f9; f10; f11] ->
        forallb (fun f => is_ok (float_of_str f)) [f6; f7; f8; f9] = false ->
        let xs := parsed_prefix [f6; f7; f8; f9] in
        exists d : dict,
          get_probe_info W w
          = (add_log
               (Logging.warning (Logging.ProbeInfoException ValueError)) w',
             Ok d)
          /\ map_to_list d ≡ₚ
               [("product_name", VStr f0); ("production_id", VStr f1);
                ("serial_number", VStr f2); ("calibration_date", VStr f3);
                ("calibration_due", VStr f4); ("field_type", VStr f5)]
               ++ zip optional_keys (VFloat <$> xs)
          /\ (length xs < 4)%nat
          /\ (xs = [] <-> is_ok (float_of_str f6) = false)).
Proof.
  intros Hrun Hopen Hrx Hdec _fields w'.
  assert (Hcmd : command W (lit "Probe_INFO?") false w
                 = (w', Ok (Some (strip text)))).
  { apply (command_answered _ (ascii_bytes "Probe_INFO?") w raw); auto. }
  split.
  - intros Hlen. unfold get_probe_info, bind at 1. rewrite Hcmd. run.
    fold _fields. apply Nat.eqb_neq in Hlen. rewrite Hlen. reflexivity.
  - intros f0 f1 f2 f3 f4 f5 f6 f7 f8 f9 f10 f11 Hf Hbad xs.
    exists (partial_record (mandatory f0 f1 f2 f3 f4 f5) xs).
    assert (Hshort : (length xs < 4)%nat).
    { subst xs. simpl in Hbad |- *.
      destruct (float_of_str f6); simpl in *; [|lia].
      destruct (float_of_str f7); simpl in *; [|lia].
      destruct (float_of_str f8); simpl in *; [|lia].
      destruct (float_of_str f9); simpl in *; [discriminate|lia]. }
    split; [|split; [|split; [exact Hshort|]]].
    + unfold get_probe_info, bind at 1. rewrite Hcmd.
      unfold bind at 1. unfold lift at 1. unfold fields_of.
      fold _fields. rewrite Hf.
      change (negb (length [f0; f1; f2; f3; f4; f5; f6; f7; f8; f9; f10; f11]
                    =? 12)%nat) with false. cbv iota.
      unfold bind, lift, item. simpl lookup. cbv iota beta.
      rewrite (probe_optional_runs f0 f1 f2 f3 f4 f5 f6 f7 f8 f9 f10 f11).
      cbv zeta. fold xs.
      destruct (Nat.eqb_spec (length xs) 4) as [H4|_]; [lia|reflexivity].
    + clear Hshort. subst xs. simpl in Hbad |- *.
      unfold partial_record, mandatory, optional_keys.
      destruct (float_of_str f6); simpl in *;
        [|entries; symmetry; exact (Permutation_rev _)].
      destruct (float_of_str f7); simpl in *;
        [|entries; symmetry; exact (Permutation_rev _)].
      destruct (float_of_str f8); simpl in *;
        [|entries; symmetry; exact (Permutation_rev _)].
      destruct (float_of_str f9); simpl in *;
        [discriminate|entries; symmetry; exact (Permutation_rev _)].
    + subst xs. simpl. destruct (float_of_str f6); simpl.
      * split; discriminate.
      * split; reflexivity.
Qed.

(** X11. When the twelve fields are all well formed, the dictionary holds
    the twelve keys and nothing is logged. *)
Lemma get_probe_info_complete (w : World W)
  (raw : bytes) (rest : list bytes) (text : str)
  (f0 f1 f2 f3 f4 f5 f6 f7 f8 f9 f10 f11 : str) (x6 x7 x8 x9 : float) :
  measurement_running W (self W w) = false ->
  is_open (s W (self W w)) = true ->
  rx (s W (self W w)) = raw :: rest ->
  decode raw = Ok text ->
  split comma (drop_last (strip text))
  = [f0; f1; f2; f3; f4; f5; f6; f7; f8; f9; f10; f11] ->
  float_of_str f6 = Ok x6 -> float_of_str f7 = Ok x7 ->
  float_of_str f8 = Ok x8 -> float_of_str f9 = Ok x9 ->
  exists d : dict,
    get_probe_info W w
    = (after_query (ascii_bytes "Probe_INFO?;") rest w, Ok d)
    /\ map_to_list d ≡ₚ
         [("product_name", VStr f0); ("production_id", VStr f1);
          ("serial_number", VStr f2); ("calibration_date", VStr f3);
          ("calibration_due", VStr f4); ("field_type", VStr f5);
          ("e_field_lower_frequency_hz", VFloat x6);
          ("e_field_upper_frequency_hz", VFloat x7);
          ("h_field_lower_frequency_hz", VFloat x8);
          ("h_field_upper_frequency_hz", VFloat x9);
          ("shaped", VStr f10); ("standard_name", VStr f11)].
Proof.
  intros Hrun Hopen Hrx Hdec Hf H6 H7 H8 H9.
  unfold get_probe_info, bind at 1.
  rewrite (command_answered _ (ascii_bytes "Probe_INFO?") w raw rest text)
    by auto.
  run. rewrite Hf. simpl.
  unfold try_local, probe_optional, store_float, store_str. run.
  rewrite H6. simpl. rewrite H7. simpl. rewrite H8. simpl. rewrite H9. simpl.
  eexists; split; [reflexivity|].
  entries. symmetry. exact (Permutation_rev _).
Qed.

(** C4. A line whose six fields are well formed (fields 0, 1 and 5 are
    numbers) yields the sample whose [e_field_percentage] and
    [h_field_percentage] are the numbers of fields 0 and 1 divided by 100 and
    whose [battery_percentage] is the number of field 5 as it is; fields 2,
    3 and 4 are kept as text. The loop hands this very sample to the
    callback. In particular the line "0,8,0,OK,OK,100;" yields 0.0, 0.08 and
    100.0. *)
Theorem sample_scaling (w : World W) (_line s0 s1 s2 s3 s4 s5 : str)
  (x0 x1 x5 : float) :
  split comma (drop_last _line) = [s0; s1; s2; s3; s4; s5] ->
  float_of_str s0 = Ok x0 ->
  float_of_str s1 = Ok x1 ->
  float_of_str s5 = Ok x5 ->
  (exists d : dict,
      parse_sample (split comma (drop_last _line)) = Ok d
      /\ map_to_list d ≡ₚ
           [("e_field_percentage", VFloat (x0 / 100)%float);
            ("h_field_percentage", VFloat (x1 / 100)%float);
            ("unknown", VStr s2); ("e_field_ok", VStr s3);
            ("h_fields_ok", VStr s4); ("battery_percentage", VFloat x5)]
      /\ (forall f : callback_t W,
            callback W (self W w) = Some f ->
            handle_line W _line w
            = try_except (call_callback W f d)
                (fun e => logging W
                   (Logging.error (Logging.CouldNotParseLine _line e))) w))
  /\ (exists d : dict,
        parse_sample (split comma (drop_last (lit "0,8,0,OK,OK,100;"))) = Ok d
        /\ map_to_list d ≡ₚ
             [("e_field_percentage", VFloat 0%float);
              ("h_field_percentage", VFloat 0.08%float);
              ("unknown", VStr (lit "0")); ("e_field_ok", VStr (lit "OK"));
              ("h_fields_ok", VStr (lit "OK"));
              ("battery_percentage", VFloat 100%float)]).
Proof.
  assert (Hgen : forall (l t0 t1 t2 t3 t4 t5 : str) (y0 y1 y5 : float),
    split comma (drop_last l) = [t0; t1; t2; t3; t4; t5] ->
    float_of_str t0 = Ok y0 -> float_of_str t1 = Ok y1 ->
    float_of_str t5 = Ok y5 ->
    exists d : dict,
      parse_sample (split comma (drop_last l)) = Ok d
      /\ map_to_list d ≡ₚ
           [("e_field_percentage", VFloat (y0 / 100)%float);
            ("h_field_percentage", VFloat (y1 / 100)%float);
            ("unknown", VStr t2); ("e_field_ok", VStr t3);
            ("h_fields_ok", VStr t4); ("battery_percentage", VFloat y5)]
      /\ (forall f : callback_t W,
            callback W (self W w) = Some f ->
            handle_line W l w
            = try_except (call_callback W f d)
                (fun e => logging W
                   (Logging.error (Logging.CouldNotParseLine l e))) w)).
  { intros l t0 t1 t2 t3 t4 t5 y0 y1 y5 Hf H0 H1 H5.
    assert (Hp : parse_sample (split comma (drop_last l))
                 = Ok (<["battery_percentage" := VFloat y5]>
                       (<["h_fields_ok" := VStr t4]>
                       (<["e_field_ok" := VStr t3]>
                       (<["unknown" := VStr t2]>
                       (<["h_field_percentage" := VFloat (y1 / 100)%float]>
                       (<["e_field_percentage" := VFloat (y0 / 100)%float]>
                          (∅ : dict)))))))).
    { rewrite Hf. unfold parse_sample. simpl. rewrite H0. simpl.
      rewrite H1. simpl. rewrite H5. reflexivity. }
    eexists; split; [exact Hp|]. split.
    - entries. symmetry. exact (Permutation_rev _).
    - intros f Hcb. unfold handle_line, try_except. cbv zeta.
      rewrite Hp, Hf. simpl. run. rewrite Hcb. reflexivity. }
  intros Hf H0 H1 H5. split.
  - exact (Hgen _line s0 s1 s2 s3 s4 s5 x0 x1 x5 Hf H0 H1 H5).
  - destruct (Hgen (lit "0,8,0,OK,OK,100;") (lit "0") (lit "8") (lit "0")
                (lit "OK") (lit "OK") (lit "100") 0%float 8%float 100%float
                eq_refl eq_refl eq_refl eq_refl) as (d & Hd & Hl & _).
    exists d. split; [exact Hd|]. exact Hl.
Qed.


End Queries.


Lemma get_device_info_spec_witness :
  let w := answering "RadMan 2XT,2251/51,A-0042,1,XT,1.4.2,2021-03-01,2023-03-01,0,none;" in
  measurement_running unit (self unit w) = false
  /\ is_open (s unit (self unit w)) = true
  /\ exists d : dict,
       get_device_info unit w
       = (after_query (ascii_bytes "DEVICE_INFO?;") [] w, Ok d)
       /\ map_to_list d ≡ₚ
            [("product_name", VStr (lit "RadMan 2XT"));
             ("production_id", VStr (lit "2251/51"));
             ("serial_number", VStr (lit "A-0042"));
             ("device_id", VStr (lit "1"));
             ("device_type", VStr (lit "XT"));
             ("firmware_version", VStr (lit "1.4.2"));
             ("calibration_date", VStr (lit "2021-03-01"));
             ("calibration_due", VStr (lit "2023-03-01"));
             ("num_options", VStr (lit "0"));
             ("options_name", VStr (lit "none"))].
Proof.
  cbv zeta. split; [reflexivity|]. split; [reflexivity|].
  destruct (get_device_info_spec
              (answering "RadMan 2XT,2251/51,A-0042,1,XT,1.4.2,2021-03-01,2023-03-01,0,none;")
              (ascii_bytes "RadMan 2XT,2251/51,A-0042,1,XT,1.4.2,2021-03-01,2023-03-01,0,none;")
              []
              (lit "RadMan 2XT,2251/51,A-0042,1,XT,1.4.2,2021-03-01,2023-03-01,0,none;")
              eq_refl eq_refl eq_refl eq_refl) as (_ & Hgood & _).
  exact (Hgood _ _ _ _ _ _ _ _ _ _ eq_refl).
Defined.

Lemma get_probe_info_partial_witness :
  let w := answering "Probe,2402/01,B-0007,2021-03-01,2023-03-01,E/H,n/a,n/a,n/a,n/a,YES,FCC 96-326 / Occupational;" in
  measurement_running unit (self unit w) = false
  /\ is_open (s unit (self unit w)) = true
  /\ is_ok (float_of_str (lit "n/a")) = false
  /\ exists d : dict,
       get_probe_info unit w
       = (add_log (Logging.warning (Logging.ProbeInfoException ValueError))
            (after_query (ascii_bytes "Probe_INFO?;") [] w), Ok d)
       /\ map_to_list d ≡ₚ
            [("product_name", VStr (lit "Probe"));
             ("production_id", VStr (lit "2402/01"));
             ("serial_number", VStr (lit "B-0007"));
             ("calibration_date", VStr (lit "2021-03-01"));
             ("calibration_due", VStr (lit "2023-03-01"));
             ("field_type", VStr (lit "E/H"))].
Proof.
  cbv zeta. split; [reflexivity|]. split; [reflexivity|].
  split; [reflexivity|].
  destruct (get_probe_info_partial
              (answering "Probe,2402/01,B-0007,2021-03-01,2023-03-01,E/H,n/a,n/a,n/a,n/a,YES,FCC 96-326 / Occupational;")
              (ascii_bytes "Probe,2402/01,B-0007,2021-03-01,2023-03-01,E/H,n/a,n/a,n/a,n/a,YES,FCC 96-326 / Occupational;")
              []
              (lit "Probe,2402/01,B-0007,2021-03-01,2023-03-01,E/H,n/a,n/a,n/a,n/a,YES,FCC 96-326 / Occupational;")
              eq_refl eq_refl eq_refl eq_refl) as (_ & Hpartial).
  destruct (Hpartial _ _ _ _ _ _ _ _ _ _ _ _ eq_refl eq_refl)
    as (d & Hd & Hkeys & _).
  exists d. split; [exact Hd|exact Hkeys].
Defined.

(** C6, as it is stated, fails for the answer of a probe that gives an
    E-field range and no H-field range: the mandatory fields are valid and
    the optional numbers of fields 8 and 9 are malformed, a warning is
    logged and nothing is raised, but the optional fields are not absent:
    the two E-field frequencies, stored before the failure, are in the
    record that is returned. *)
Lemma probe_info_keeps_the_numbers_before_the_failure :
  let w := answering "Probe,2402/01,B-0007,2021-03-01,2023-03-01,E,100000,6000000000,n/a,n/a,YES,FCC 96-326 / Occupational;" in
  is_ok (float_of_str (lit "n/a")) = false
  /\ exists d : dict,
       get_probe_info unit w
       = (add_log (Logging.warning (Logging.ProbeInfoException ValueError))
            (after_query (ascii_bytes "Probe_INFO?;") [] w), Ok d)
       /\ d !! "product_name" = Some (VStr (lit "Probe"))
       /\ d !! "e_field_lower_frequency_hz" = Some (VFloat 100000)
       /\ d !! "e_field_upper_frequency_hz" = Some (VFloat 6000000000)
       /\ d !! "h_field_lower_frequency_hz" = None
       /\ d !! "shaped" = None.
Proof.
  cbv zeta. split; [reflexivity|].
  exists (partial_record
            (mandatory (lit "Probe") (lit "2402/01") (lit "B-0007")
               (lit "2021-03-01") (lit "2023-03-01") (lit "E"))
            [100000%float; 6000000000%float]).
  split.
  - unfold get_probe_info, bind at 1.
    rewrite (command_answered (lit "Probe_INFO?")
               (ascii_bytes "Probe_INFO?")
               (answering "Probe,2402/01,B-0007,2021-03-01,2023-03-01,E,100000,6000000000,n/a,n/a,YES,FCC 96-326 / Occupational;")
               (ascii_bytes "Probe,2402/01,B-0007,2021-03-01,2023-03-01,E,100000,6000000000,n/a,n/a,YES,FCC 96-326 / Occupational;")
               []
               (lit "Probe,2402/01,B-0007,2021-03-01,2023-03-01,E,100000,6000000000,n/a,n/a,YES,FCC 96-326 / Occupational;")
               eq_refl eq_refl eq_refl eq_refl eq_refl).
    exact (probe_optional_runs (lit "Probe") (lit "2402/01") (lit "B-0007")
             (lit "2021-03-01") (lit "2023-03-01") (lit "E")
             (lit "100000") (lit "6000000000") (lit "n/a") (lit "n/a")
             (lit "YES") (lit "FCC 96-326 / Occupational") _ _).
  - unfold partial_record, mandatory. simpl fold_left.
    repeat split; look.
Qed.

Lemma sample_scaling_witness :
  split comma (drop_last (lit "12,250,0,OK,OK,87;"))
  = [lit "12"; lit "250"; lit "0"; lit "OK"; lit "OK"; lit "87"]
  /\ float_of_str (lit "12") = Ok 12%float
  /\ float_of_str (lit "250") = Ok 250%float
  /\ float_of_str (lit "87") = Ok 87%float
  /\ exists d : dict,
       parse_sample (split comma (drop_last (lit "12,250,0,OK,OK,87;"))) = Ok d
       /\ map_to_list d ≡ₚ
            [("e_field_percentage", VFloat 0.12%float);
             ("h_field_percentage", VFloat 2.5%float);
             ("unknown", VStr (lit "0")); ("e_field_ok", VStr (lit "OK"));
             ("h_fields_ok", VStr (lit "OK"));
             ("battery_percentage", VFloat 87%float)].
Proof.
  split; [reflexivity|]. split; [reflexivity|]. split; [reflexivity|].
  split; [reflexivity|].
  destruct (sample_scaling (session true []) (lit "12,250,0,OK,OK,87;")
              (lit "12") (lit "250") (lit "0") (lit "OK") (lit "OK")
              (lit "87") 12%float 250%float 87%float
              eq_refl eq_refl eq_refl eq_refl) as ((d & Hd & Hl & _) & _).
  exists d. split; [exact Hd|exact Hl].
Defined.


End Radman2_facts.

(* ===================================================================== *)
(** * Facts about binary64 numbers                                        *)
(* ===================================================================== *)

Module Float_facts.

Local Open Scope float_scope.

Ltac cmp_cases :=
  repeat match goal with
         | |- context [Z.compare ?a ?b] =>
             destruct (Z.compare_spec a b); simpl
         | H : context [Z.compare ?a ?b] |- _ =>
             destruct (Z.compare_spec a b); simpl in H
         | |- context [Pos.compare_cont Eq ?a ?b] =>
             change (Pos.compare_cont Eq a b) with (Pos.compare a b);
             destruct (Pos.compare_spec a b); simpl
         | H : context [Pos.compare_cont Eq ?a ?b] |- _ =>
             change (Pos.compare_cont Eq a b) with (Pos.compare a b) in H;
             destruct (Pos.compare_spec a b); simpl in H
         end.

Ltac by_cases :=
  simpl; repeat match goal with sg : bool |- _ => destruct sg end; simpl.

Lemma SFcompare_lt_trans (a b c : spec_float) :
  SFcompare a b = Some Lt -> SFcompare b c = Some Lt ->
  SFcompare a c = Some Lt.
Proof.
  destruct a as [sa|sa| |sa ma ea], b as [sb|sb| |sb mb eb],
           c as [sc|sc| |sc mc ec]; by_cases;
    try discriminate; try reflexivity; intros H1 H2;
    cmp_cases; try discriminate; try reflexivity; lia.
Qed.

Lemma SFcompare_swap (a b : spec_float) :
  SFcompare b a
  = match SFcompare a b with Some c => Some (CompOpp c) | None => None end.
Proof.
  destruct a as [sa|sa| |sa ma ea], b as [sb|sb| |sb mb eb]; by_cases;
    try reflexivity; cmp_cases; try reflexivity; lia.
Qed.

Lemma SFcompare_None (a b : spec_float) :
  SFcompare a b = None -> a = S754_nan \/ b = S754_nan.
Proof.
  destruct a as [sa|sa| |sa ma ea], b as [sb|sb| |sb mb eb]; simpl;
    intros H; try discriminate; auto.
Qed.

Lemma SFcompare_refl (a : spec_float) :
  a <> S754_nan -> SFcompare a a = Some Eq.
Proof.
  destruct a as [sa|sa| |sa ma ea]; by_cases; try reflexivity;
    try congruence; intros _; rewrite Z.compare_refl;
    change (Pos.compare_cont Eq ma ma) with (Pos.compare ma ma);
    rewrite Pos.compare_refl; reflexivity.
Qed.

Lemma is_nan_spec (x : float) :
  is_nan x = true <-> Prim2SF x = S754_nan.
Proof.
  unfold is_nan. rewrite FloatAxioms.eqb_spec. unfold SFeqb. split.
  - intros H. destruct (Prim2SF x) eqn:E; try reflexivity;
      rewrite SFcompare_refl in H by discriminate; discriminate.
  - intros ->. reflexivity.
Qed.

Lemma is_nan_false (x : float) :
  is_nan x = false <-> Prim2SF x <> S754_nan.
Proof.
  split.
  - intros H E. apply is_nan_spec in E. congruence.
  - intros H. destruct (is_nan x) eqn:E; [|reflexivity].
    apply is_nan_spec in E. contradiction.
Qed.

(** Nothing is below a NaN. *)
Lemma ltb_nan_r (x y : float) : is_nan y = true -> (x <? y) = false.
Proof.
  intros H. apply is_nan_spec in H. rewrite FloatAxioms.ltb_spec. unfold SFltb.
  rewrite H. destruct (Prim2SF x); reflexivity.
Qed.

Lemma ltb_irrefl (x : float) : (x <? x) = false.
Proof.
  rewrite FloatAxioms.ltb_spec. unfold SFltb.
  destruct (SFcompare (Prim2SF x) (Prim2SF x)) as [[]|] eqn:E; try reflexivity.
  destruct (Prim2SF x) eqn:Ex; try discriminate;
    rewrite SFcompare_refl in E by discriminate; discriminate.
Qed.

Lemma ltb_trans (x y z : float) :
  (x <? y) = true -> (y <? z) = true -> (x <? z) = true.
Proof.
  rewrite !FloatAxioms.ltb_spec. unfold SFltb. intros H1 H2.
  destruct (SFcompare (Prim2SF x) (Prim2SF y)) as [[]|] eqn:E1;
    try discriminate.
  destruct (SFcompare (Prim2SF y) (Prim2SF z)) as [[]|] eqn:E2;
    try discriminate.
  rewrite (SFcompare_lt_trans _ _ _ E1 E2). reflexivity.
Qed.

(** [x <= y] leaves no room for [y < x]. *)
Lemma leb_ltb_false (x y : float) : (x <=? y) = true -> (y <? x) = false.
Proof.
  rewrite FloatAxioms.leb_spec, FloatAxioms.ltb_spec. unfold SFleb, SFltb.
  rewrite (SFcompare_swap (Prim2SF x) (Prim2SF y)).
  destruct (SFcompare (Prim2SF x) (Prim2SF y)) as [[]|];
    simpl; congruence.
Qed.

(** Two numbers that are not NaN are comparable. *)
Lemma not_leb_ltb (x y : float) :
  (x <=? y) = false -> is_nan x = false -> is_nan y = false ->
  (y <? x) = true.
Proof.
  rewrite FloatAxioms.leb_spec, FloatAxioms.ltb_spec. unfold SFleb, SFltb.
  intros H Hx%is_nan_false Hy%is_nan_false.
  rewrite (SFcompare_swap (Prim2SF x) (Prim2SF y)).
  destruct (SFcompare (Prim2SF x) (Prim2SF y)) as [[]|] eqn:E;
    simpl; try congruence.
  destruct (SFcompare_None _ _ E); contradiction.
Qed.

(** Multiplying by 1 changes nothing, on the specification first. *)
Lemma SFmul_one_l (x : spec_float) :
  valid_binary x = true -> SF64mul (Prim2SF 1) x = x.
Proof.
  destruct x as [sg|sg| |sg m e]; try reflexivity.
  intros Hv. cbn in Hv. unfold bounded, canonical_mantissa in Hv.
  apply andb_prop in Hv as [Hc He].
  apply Z.eqb_eq in Hc.
  change (Prim2SF 1) with (S754_finite false 4503599627370496 (-52)).
  unfold SF64mul, SFmul. cbn [xorb].
  unfold binary_round_aux.
  assert (Hd : Zdigits2 (Zpos (4503599627370496 * m))
               = (Zpos (digits2_pos m) + 52)%Z).
  { replace (4503599627370496 * m)%positive with (Pos.iter xO m 52).
    - cbn. lia.
    - cbn. lia. }
  unfold shr_fexp at 1. rewrite Hd.
  replace (Z.pos (digits2_pos m) + 52 + (-52 + e))%Z
    with (Z.pos (digits2_pos m) + e)%Z by lia.
  rewrite Hc.
  replace (e - (-52 + e))%Z with 52%Z by lia.
  replace (4503599627370496 * m)%positive with (Pos.iter xO m 52)
    by (cbn; lia).
  cbn -[fexp Z.sub Z.leb Z.add digits2_pos].
  unfold shr_fexp. cbn [Zdigits2].
  replace (-52 + e + 52)%Z with e by lia.
  rewrite Hc. rewrite Z.sub_diag. cbn -[Z.leb Z.sub].
  rewrite He. reflexivity.
Qed.

Lemma mul_one_l (x : float) : 1 * x = x.
Proof.
  apply Prim2SF_inj. rewrite FloatAxioms.mul_spec. apply SFmul_one_l, Prim2SF_valid.
Qed.

End Float_facts.

(* ===================================================================== *)
(** * Facts about the limit tables (radhaz_standards.py)                  *)
(* ===================================================================== *)

Module Radhaz_facts.

Import Radhaz Standards Float_facts.

Local Open Scope float_scope.

(** ** [argmin] *)

(** The scan keeps the least entry seen so far: when it ends, no entry of
    the whole array is strictly below the one it points at. *)
Lemma argmin_scan_spec (l : list float) :
  forall (pre : list float) (mp : float) (mi i : nat),
    is_nan mp = false ->
    pre !! mi = Some mp ->
    length pre = i ->
    (forall y, y ∈ pre -> (y <? mp) = false) ->
    exists v, (pre ++ l) !! Numpy.argmin_scan mp mi i l = Some v
              /\ forall y, y ∈ pre ++ l -> (y <? v) = false.
Proof.
  induction l as [|x r IH]; intros pre mp mi i Hn Hmi Hlen Hmin; simpl.
  - exists mp. rewrite app_nil_r. split; assumption.
  - destruct (mp <=? x) eqn:Hle.
    + destruct (IH (pre ++ [x]) mp mi (S i)) as (v & Hv & Hall).
      * exact Hn.
      * apply lookup_app_l_Some. exact Hmi.
      * rewrite length_app. simpl. lia.
      * intros y [Hy|Hy%list_elem_of_singleton]%elem_of_app.
        -- apply Hmin. exact Hy.
        -- subst y. apply leb_ltb_false. exact Hle.
      * exists v. rewrite <- app_assoc in Hv, Hall. split; assumption.
    + destruct (is_nan x) eqn:Hx.
      * exists x. split.
        -- apply list_lookup_middle. symmetry. exact Hlen.
        -- intros y _. apply ltb_nan_r. exact Hx.
      * assert (Hlt : (x <? mp) = true) by (apply not_leb_ltb; assumption).
        destruct (IH (pre ++ [x]) x i (S i)) as (v & Hv & Hall).
        -- exact Hx.
        -- apply list_lookup_middle. symmetry. exact Hlen.
        -- rewrite length_app. simpl. lia.
        -- intros y [Hy|Hy%list_elem_of_singleton]%elem_of_app.
           ++ destruct (y <? x) eqn:E; [|reflexivity].
              rewrite <- (Hmin y Hy). symmetry.
              exact (ltb_trans y x mp E Hlt).
           ++ subst y. apply ltb_irrefl.
        -- exists v. rewrite <- app_assoc in Hv, Hall. split; assumption.
Qed.

(** [argmin] of a non-empty array returns an index of the array, and no
    entry is strictly below the entry at that index. *)
Lemma argmin_spec (a : list float) :
  a <> [] ->
  exists (idx : nat) (v : float),
    Numpy.argmin a = Ok idx
    /\ a !! idx = Some v
    /\ forall y, y ∈ a -> (y <? v) = false.
Proof.
  destruct a as [|x r]; [congruence|]. intros _. unfold Numpy.argmin.
  destruct (is_nan x) eqn:Hx.
  - exists O, x. repeat split. intros y _. apply ltb_nan_r. exact Hx.
  - destruct (argmin_scan_spec r [x] x 0 1) as (v & Hv & Hall).
    + exact Hx.
    + reflexivity.
    + reflexivity.
    + intros y Hy%list_elem_of_singleton. subst y. apply ltb_irrefl.
    + exists (Numpy.argmin_scan x 0 1 r), v. repeat split; assumption.
Qed.

(** ** The lookups, on any table *)

Section Lookup.

Variable self : FCC96326.
Hypothesis non_empty : frequency_mhz self <> [].

(** The index that both lookups use is one of a nearest table frequency,
    and the only thing logged is the warning for a far one. *)
Lemma nearest_index_spec (freq : float) (lg : Log) :
  exists (idx : nat) (nearest : float),
    nearest_at self freq idx nearest
    /\ nearest_index self freq lg = (lg ++ far_warning freq nearest, Ok idx).
Proof.
  set (diffs := Numpy.abs (Numpy.sub_scalar (frequency_mhz self) freq)).
  assert (Hne : diffs <> []).
  { subst diffs. unfold Numpy.abs, Numpy.sub_scalar.
    destruct (frequency_mhz self); [congruence|discriminate]. }
  destruct (argmin_spec diffs Hne) as (idx & v & Harg & Hv & Hmin).
  assert (Hnear : exists nearest, frequency_mhz self !! idx = Some nearest
                                  /\ v = distance nearest freq).
  { subst diffs. unfold Numpy.abs, Numpy.sub_scalar in Hv.
    rewrite !list_lookup_fmap in Hv.
    destruct (frequency_mhz self !! idx) as [nearest|]; [|discriminate].
    exists nearest. split; [reflexivity|]. simpl in Hv. unfold distance.
    congruence. }
  destruct Hnear as (nearest & Hidx & ->).
  exists idx, nearest. split.
  - split; [exact Hidx|]. intros j other Hj. apply Hmin.
    subst diffs. unfold Numpy.abs, Numpy.sub_scalar.
    apply (list_elem_of_lookup_2 _ j). rewrite !list_lookup_fmap, Hj.
    reflexivity.
  - unfold nearest_index, bind, lift, ret. fold diffs. rewrite Harg.
    unfold item. rewrite Hidx. unfold far_warning, distance, logging, modify.
    destruct (1 <? abs (nearest - freq)).
    + reflexivity.
    + rewrite app_nil_r. reflexivity.
Qed.

Hypothesis efield_length : length (efield self) = length (frequency_mhz self).
Hypothesis hfield_length : length (hfield self) = length (frequency_mhz self).

(** Both lookups return the limit stored at the index of a nearest table
    frequency; far or not, they raise nothing. *)
Lemma limits_spec (freq : float) (lg : Log) :
  exists (idx : nat) (nearest e_limit h_limit : float),
    nearest_at self freq idx nearest
    /\ efield self !! idx = Some e_limit
    /\ hfield self !! idx = Some h_limit
    /\ efield_limit self freq lg = (lg ++ far_warning freq nearest, Ok e_limit)
    /\ hfield_limit self freq lg = (lg ++ far_warning freq nearest, Ok h_limit).
Proof.
  destruct (nearest_index_spec freq lg) as (idx & nearest & Hnear & Hrun).
  assert (Hlt : (idx < length (frequency_mhz self))%nat).
  { destruct Hnear as [Hidx _]. exact (lookup_lt_Some _ _ _ Hidx). }
  destruct (lookup_lt_is_Some_2 (efield self) idx) as [e_limit He];
    [rewrite efield_length; exact Hlt|].
  destruct (lookup_lt_is_Some_2 (hfield self) idx) as [h_limit Hh];
    [rewrite hfield_length; exact Hlt|].
  exists idx, nearest, e_limit, h_limit.
  repeat split; try assumption; try apply Hnear.
  - unfold efield_limit, bind. rewrite Hrun. unfold lift, item.
    rewrite He. reflexivity.
  - unfold hfield_limit, bind. rewrite Hrun. unfold lift, item.
    rewrite Hh. reflexivity.
Qed.

End Lookup.

(** ** The tables *)

Lemma arange_is_ok (start stop step : float) :
  is_ok (Numpy.arange start stop step)
  = is_ok (Numpy.arange_length start stop step).
Proof.
  unfold Numpy.arange.
  destruct (Numpy.arange_length start stop step); reflexivity.
Qed.

(** An [arange] of positive length begins with [start]. *)
Lemma arange_head (start stop step : float) (n : Z) :
  Numpy.arange_length start stop step = Ok n ->
  (0 < n)%Z ->
  exists rest, Numpy.arange start stop step = Ok (start :: rest).
Proof.
  intros Hlen Hpos. unfold Numpy.arange. rewrite Hlen. simpl.
  unfold Numpy.arange_fill.
  destruct (Z.to_nat n) as [|k] eqn:Hk; [lia|].
  simpl. eexists. reflexivity.
Qed.

Lemma ones_length (n : nat) : length (Numpy.ones n) = n.
Proof. unfold Numpy.ones. apply repeat_length. Qed.

(** The arrays of one band have the length of its frequencies. *)
Ltac band_lengths :=
  unfold Numpy.sqrt, Numpy.mul_scalar, Numpy.scalar_div, Numpy.div_scalar;
  rewrite ?length_map, ?ones_length.

(** The three tables that [init_tables_occupational] builds have one
    length. *)
Lemma occupational_lengths (self std : FCC96326) :
  init_tables_occupational self = Ok std ->
  length (efield std) = length (frequency_mhz std)
  /\ length (hfield std) = length (frequency_mhz std).
Proof.
  unfold init_tables_occupational.
  destruct (Numpy.arange 0.003 0.1 0.01) as [f1|]; [|discriminate].
  cbn [rbind].
  destruct (Numpy.arange 0.1 3.0 0.01) as [f2|]; [|discriminate].
  cbn [rbind].
  destruct (Numpy.arange 3.0 30.0 0.01) as [f3|]; [|discriminate].
  cbn [rbind].
  destruct (Numpy.arange 30.0 100.0 0.01) as [f4|]; [|discriminate].
  cbn [rbind].
  destruct (Numpy.arange 100.0 300.0 0.01) as [f5|]; [|discriminate].
  cbn [rbind].
  destruct (Numpy.arange 300.0 3000.0 0.01) as [f6|]; [|discriminate].
  cbn [rbind].
  intros [= <-].
  cbn [append_band clear_tables frequency_mhz efield hfield].
  rewrite !length_app. band_lengths. split; reflexivity.
Qed.

(** The six bands of the occupational table are generated without an
    error, and the first of them is not empty. *)
Lemma occupational_tables :
  exists std : FCC96326,
    init true = Ok std
    /\ frequency_mhz std <> []
    /\ length (efield std) = length (frequency_mhz std)
    /\ length (hfield std) = length (frequency_mhz std).
Proof.
  assert (Hinit : exists std : FCC96326,
            init true = Ok std /\ frequency_mhz std <> []).
  { unfold init, init_tables_occupational.
    destruct (arange_head 0.003 0.1 0.01 10) as (rest & ->);
      [vm_compute; reflexivity|lia|].
    cbn [rbind].
    destruct (Numpy.arange 0.1 3.0 0.01) as [f2|] eqn:E2;
      [|apply (f_equal is_ok) in E2; rewrite arange_is_ok in E2;
        vm_compute in E2; discriminate].
    cbn [rbind].
    destruct (Numpy.arange 3.0 30.0 0.01) as [f3|] eqn:E3;
      [|apply (f_equal is_ok) in E3; rewrite arange_is_ok in E3;
        vm_compute in E3; discriminate].
    cbn [rbind].
    destruct (Numpy.arange 30.0 100.0 0.01) as [f4|] eqn:E4;
      [|apply (f_equal is_ok) in E4; rewrite arange_is_ok in E4;
        vm_compute in E4; discriminate].
    cbn [rbind].
    destruct (Numpy.arange 100.0 300.0 0.01) as [f5|] eqn:E5;
      [|apply (f_equal is_ok) in E5; rewrite arange_is_ok in E5;
        vm_compute in E5; discriminate].
    cbn [rbind].
    destruct (Numpy.arange 300.0 3000.0 0.01) as [f6|] eqn:E6;
      [|apply (f_equal is_ok) in E6; rewrite arange_is_ok in E6;
        vm_compute in E6; discriminate].
    cbn [rbind].
    eexists. split; [reflexivity|].
    cbn [append_band clear_tables frequency_mhz app]. discriminate. }
  destruct Hinit as (std & Hstd & Hne).
  exists std. split; [exact Hstd|]. split; [exact Hne|].
  exact (occupational_lengths _ std Hstd).
Qed.


(** ** The occupational table *)

(** C9. On the occupational table, which is not empty, [efield_limit] and
    [hfield_limit] return, for every query frequency, the limits stored at
    one index, and no table frequency is strictly nearer to the query than
    the one at that index. When that frequency is more than 1.0 MHz away the
    one thing logged is a warning, otherwise nothing is logged; in both cases
    the value is returned and nothing is raised. *)
Theorem limits_are_those_of_a_nearest_entry :
  exists std : FCC96326,
    init true = Ok std
    /\ frequency_mhz std <> []
    /\ forall (freq : float) (lg : Log),
         exists (idx : nat) (nearest e_limit h_limit : float),
           nearest_at std freq idx nearest
           /\ efield std !! idx = Some e_limit
           /\ hfield std !! idx = Some h_limit
           /\ efield_limit std freq lg
              = (lg ++ far_warning freq nearest, Ok e_limit)
           /\ hfield_limit std freq lg
              = (lg ++ far_warning freq nearest, Ok h_limit).
Proof.
  destruct occupational_tables as (std & Hstd & Hne & He & Hh).
  exists std. split; [exact Hstd|]. split; [exact Hne|].
  intros freq lg. exact (limits_spec std Hne He Hh freq lg).
Qed.

(** ** The conversions *)

Section Conversion_identities.

Variable lm : Libm.
Hypothesis annex_f : special_values lm.

(** 100 percent is a ratio of 1: 0 dB, and 10 to the power 0. *)
Lemma ratio_of_100_percent (p : number) :
  p = PyInt 100 \/ p = PyFloat 100 ->
  is_zero p = false
  /\ exists x, to_float p = Ok x
       /\ pow lm 10 (10 * log10 lm (x / 100.0) / 20.0) = 1.
Proof.
  destruct annex_f as [Hlog Hpow].
  intros [-> | ->]; (split; [reflexivity|]); exists 100; (split; [reflexivity|]).
  all: change (100 / 100.0) with 1; rewrite Hlog;
    change (10 * 0 / 20.0) with 0; exact Hpow.
Qed.

(** On any table, 0 percent converts to 0.0 without a lookup, and 100
    percent converts to what the lookup gives, log and errors included. *)
Lemma conversion_identities (self : FCC96326) (freq : float) (lg : Log) :
  percentage_to_efield lm self (PyInt 0) freq lg = (lg, Ok 0)
  /\ percentage_to_hfield lm self (PyInt 0) freq lg = (lg, Ok 0)
  /\ percentage_to_efield lm self (PyFloat 0) freq lg = (lg, Ok 0)
  /\ percentage_to_hfield lm self (PyFloat 0) freq lg = (lg, Ok 0)
  /\ percentage_to_efield lm self (PyInt 100) freq lg
     = efield_limit self freq lg
  /\ percentage_to_hfield lm self (PyInt 100) freq lg
     = hfield_limit self freq lg
  /\ percentage_to_efield lm self (PyFloat 100) freq lg
     = efield_limit self freq lg
  /\ percentage_to_hfield lm self (PyFloat 100) freq lg
     = hfield_limit self freq lg.
Proof.
  assert (He : forall p, p = PyInt 100 \/ p = PyFloat 100 ->
            percentage_to_efield lm self p freq lg = efield_limit self freq lg).
  { intros p Hp. destruct (ratio_of_100_percent p Hp) as (Hz & x & Hx & Hr).
    unfold percentage_to_efield. rewrite Hz. unfold bind at 1, lift.
    rewrite Hx, Hr. unfold bind, ret.
    destruct (efield_limit self freq lg) as [lg' [v|e]]; [|reflexivity].
    rewrite mul_one_l. reflexivity. }
  assert (Hh : forall p, p = PyInt 100 \/ p = PyFloat 100 ->
            percentage_to_hfield lm self p freq lg = hfield_limit self freq lg).
  { intros p Hp. destruct (ratio_of_100_percent p Hp) as (Hz & x & Hx & Hr).
    unfold percentage_to_hfield. rewrite Hz. unfold bind at 1, lift.
    rewrite Hx, Hr. unfold bind, ret.
    destruct (hfield_limit self freq lg) as [lg' [v|e]]; [|reflexivity].
    rewrite mul_one_l. reflexivity. }
  repeat split; try reflexivity; auto.
Qed.

End Conversion_identities.

(** C8. With a C library that gives [log10(1) = 0] and [pow(10, 0) = 1]: on
    the occupational table and for every frequency, in the table or not,
    [percentage_to_efield(0, f)] is 0.0 and [percentage_to_efield(100, f)] is
    what [efield_limit(f)] returns, a value of the table; the same holds for
    [percentage_to_hfield] and [hfield_limit], and for the percentages 0.0
    and 100.0 given as floats. *)
Theorem conversion_identity (lm : Libm) :
  special_values lm ->
  exists std : FCC96326,
    init true = Ok std
    /\ forall (freq : float) (lg : Log),
         percentage_to_efield lm std (PyInt 0) freq lg = (lg, Ok 0)
         /\ percentage_to_hfield lm std (PyInt 0) freq lg = (lg, Ok 0)
         /\ percentage_to_efield lm std (PyFloat 0) freq lg = (lg, Ok 0)
         /\ percentage_to_hfield lm std (PyFloat 0) freq lg = (lg, Ok 0)
         /\ percentage_to_efield lm std (PyInt 100) freq lg
            = efield_limit std freq lg
         /\ percentage_to_hfield lm std (PyInt 100) freq lg
            = hfield_limit std freq lg
         /\ percentage_to_efield lm std (PyFloat 100) freq lg
            = efield_limit std freq lg
         /\ percentage_to_hfield lm std (PyFloat 100) freq lg
            = hfield_limit std freq lg
         /\ is_ok (snd (efield_limit std freq lg)) = true
         /\ is_ok (snd (hfield_limit std freq lg)) = true.
Proof.
  intros Hlm.
  destruct occupational_tables as (std & Hstd & Hne & He & Hh).
  exists std. split; [exact Hstd|]. intros freq lg.
  destruct (conversion_identities lm Hlm std freq lg)
    as (H1 & H2 & H3 & H4 & H5 & H6 & H7 & H8).
  destruct (limits_spec std Hne He Hh freq lg)
    as (idx & nearest & e_limit & h_limit & _ & _ & _ & Hel & Hhl).
  repeat split; try assumption.
  - rewrite Hel. reflexivity.
  - rewrite Hhl. reflexivity.
Qed.

Lemma conversion_identity_witness :
  special_values libm_special
  /\ exists std : FCC96326,
       init true = Ok std
       /\ percentage_to_efield libm_special std (PyInt 100) 100.0 []
          = efield_limit std 100.0 []
       /\ percentage_to_efield libm_special std (PyInt 0) 100.0 [] = ([], Ok 0).
Proof.
  split; [split; reflexivity|].
  destruct (conversion_identity libm_special (conj eq_refl eq_refl))
    as (std & Hstd & Hall).
  exists std. split; [exact Hstd|].
  destruct (Hall 100.0 []) as (H0 & _ & _ & _ & H100 & _).
  split; [exact H100|exact H0].
Defined.

(** ** The general-public table *)

(** C7, as the code has it. The general-public tables are empty, and a
    lookup goes straight to [argmin], which refuses an empty array: both
    lookups raise [ValueError], at any frequency, and log nothing. *)
Theorem general_public_lookup_raises_ValueError :
  exists std : FCC96326,
    init false = Ok std
    /\ frequency_mhz std = []
    /\ forall (freq : float) (lg : Log),
         efield_limit std freq lg = (lg, Raise ValueError)
         /\ hfield_limit std freq lg = (lg, Raise ValueError).
Proof.
  eexists. split; [reflexivity|]. split; [reflexivity|].
  intros freq lg. split; reflexivity.
Qed.

(** C7, as it is stated, fails at 100 MHz: the lookup on the general-public
    tables does attempt [argmin] on the empty array, and what comes out is
    its [ValueError], not a [NotImplementedError]. *)
Lemma general_public_lookup_is_not_guarded :
  exists std : FCC96326,
    init false = Ok std
    /\ Numpy.argmin (Numpy.abs (Numpy.sub_scalar (frequency_mhz std) 100.0))
       = Raise ValueError
    /\ efield_limit std 100.0 [] = ([], Raise ValueError)
    /\ hfield_limit std 100.0 [] = ([], Raise ValueError)
    /\ exn_eqb ValueError NotImplementedError = false.
Proof.
  eexists. split; [reflexivity|]. repeat split; reflexivity.
Qed.


End Radhaz_facts.

(* ===================================================================== *)
(** * More about the session (radman2.py)                                 *)
(* ===================================================================== *)

Module Radman2_more.

Import Radman2 Scenario Cases Radman2_facts.

Section Commands.

Context {W : Type}.

(** A command is written whole and with its terminator, or not at all. *)
Lemma command_reaches_the_port (cmd : str) (noreply : bool) (b : bytes)
  (w : World W) :
  measurement_running W (self W w) = false ->
  is_open (s W (self W w)) = true ->
  encode cmd = Ok b ->
  command W cmd noreply w
  = if noreply then (after_write (b ++ [semicolon]) w, Ok None)
    else match rx (s W (self W w)) with
         | raw :: rest =>
             (after_query (b ++ [semicolon]) rest w,
              rbind (decode raw) (fun text => Ok (Some (strip text))))
         | [] => (after_write (b ++ [semicolon]) w, Ok (Some []))
         end.
Proof.
  intros Hrun Hopen Henc.
  destruct w as [[run cb rate [op rx0 tx0] di pi mt] lg th sl c].
  simpl in *. subst op run.
  unfold command, serial_write, serial_readline. run.
  rewrite Henc. simpl.
  destruct noreply; [reflexivity|].
  destruct rx0 as [|raw rest]; simpl.
  - reflexivity.
  - destruct (decode raw); reflexivity.
Qed.

(** X1. Out of a measurement and on an open port, a command sent with
    [noreply] is written once, followed by [;], and nothing is read: the
    lines that the port holds stay for the next read, and the result is
    [None]. *)
Theorem command_noreply_reads_nothing (cmd : str) (b : bytes) (w : World W) :
  measurement_running W (self W w) = false ->
  is_open (s W (self W w)) = true ->
  encode cmd = Ok b ->
  command W cmd true w = (after_write (b ++ [semicolon]) w, Ok None)
  /\ rx (s W (self W (fst (command W cmd true w)))) = rx (s W (self W w))
  /\ tx (s W (self W (fst (command W cmd true w))))
     = tx (s W (self W w)) ++ [b ++ [semicolon]].
Proof.
  intros Hrun Hopen Henc.
  rewrite (command_reaches_the_port cmd true b w Hrun Hopen Henc).
  repeat split; reflexivity.
Qed.

(** X2. Out of a measurement, a command that UTF-8 cannot encode raises
    [UnicodeEncodeError], and a command to a closed port raises
    [PortNotOpenError]; in both cases nothing is written and nothing is
    read: the state is as before. *)
Theorem command_fails_before_writing (cmd : str) (noreply : bool)
  (w : World W) :
  measurement_running W (self W w) = false ->
  is_ok (encode cmd) = false \/ is_open (s W (self W w)) = false ->
  command W cmd noreply w
  = (w, Raise (if is_ok (encode cmd) then PortNotOpenError
               else UnicodeEncodeError)).
Proof.
  intros Hrun Hbad. unfold command, serial_write. run. rewrite Hrun.
  unfold encode in *. destruct (encode_cps cmd) as [bs|]; simpl in *.
  - destruct Hbad as [Hbad|Hbad]; [discriminate|]. rewrite Hbad. reflexivity.
  - reflexivity.
Qed.

(** X3. Out of a measurement, on an open port whose next line decodes to
    [text]: [set_remote_mode] writes [REMOTE ON;] or [REMOTE OFF;], reads
    that line, and returns [True] exactly when the line, stripped, is
    [0;]. *)
Theorem set_remote_mode_status (remote_mode : bool) (w : World W)
  (raw : bytes) (rest : list bytes) (text : str) :
  measurement_running W (self W w) = false ->
  is_open (s W (self W w)) = true ->
  rx (s W (self W w)) = raw :: rest ->
  decode raw = Ok text ->
  exists status : bool,
    set_remote_mode W remote_mode w
    = (after_query
         (ascii_bytes (if remote_mode then "REMOTE ON;" else "REMOTE OFF;"))
         rest w, Ok status)
    /\ (status = true <-> strip text = lit "0;").
Proof.
  intros Hrun Hopen Hrx Hdec.
  exists (str_eqb (strip text) (lit "0;")). split.
  - unfold set_remote_mode.
    destruct remote_mode; unfold bind;
      [rewrite (command_reaches_the_port (lit "REMOTE ON") false
                  (ascii_bytes "REMOTE ON")
                  w Hrun Hopen eq_refl)
      |rewrite (command_reaches_the_port (lit "REMOTE OFF") false
                  (ascii_bytes "REMOTE OFF")
                  w Hrun Hopen eq_refl)];
      rewrite Hrx, Hdec; reflexivity.
  - unfold str_eqb. apply bool_decide_eq_true.
Qed.

(** X4. While a measurement runs, [set_remote_mode] returns [False] and both
    information queries raise [TypeError], the guard of [command] having
    given them [None]; nothing is written or read. *)
Theorem queries_while_measuring (remote_mode : bool) (w : World W) :
  measurement_running W (self W w) = true ->
  set_remote_mode W remote_mode w = (w, Ok false)
  /\ get_device_info W w = (w, Raise TypeError)
  /\ get_probe_info W w = (w, Raise TypeError).
Proof.
  intros Hrun.
  destruct w as [[run cb rate port di pi mt] lg th sl c].
  simpl in Hrun. subst run.
  destruct remote_mode; repeat split; reflexivity.
Qed.

(** X5. Out of a measurement and on an open port, [start_measurement]
    starts the measurement whatever status the device answers to
    [REMOTE ON], as long as the answer decodes (no answer at all is read as
    the empty line): it writes [REMOTE ON;] and [MEAS_START_CIB;], reads the
    one answer, sets the flag and starts one thread. An answer that does not
    decode ends it with [UnicodeDecodeError] once [REMOTE ON;] is written
    and the answer read: [MEAS_START_CIB;] is not sent, the flag stays
    clear and no thread is started. *)
Theorem start_measurement_ignores_the_status (w : World W) :
  measurement_running W (self W w) = false ->
  is_open (s W (self W w)) = true ->
  start_measurement W w
  = if is_ok (decode (hd [] (rx (s W (self W w)))))
    then (started (tl (rx (s W (self W w)))) w, Ok tt)
    else (after_query (ascii_bytes "REMOTE ON;") (tl (rx (s W (self W w)))) w,
          Raise UnicodeDecodeError).
Proof.
  intros Hrun Hopen. unfold start_measurement, set_remote_mode.
  unfold bind at 1. unfold gets at 1. rewrite Hrun.
  unfold bind at 1. unfold bind at 1.
  rewrite (command_reaches_the_port (lit "REMOTE ON") false
                  (ascii_bytes "REMOTE ON")
             w Hrun Hopen eq_refl).
  destruct w as [[run cb rate [op rx0 tx0] di pi mt] lg th sl c].
  simpl in *. subst op run.
  destruct rx0 as [|raw rest]; simpl in *.
  - unfold command, serial_write, thread_start. run. reflexivity.
  - unfold decode. destruct (utf8_decode (map Byte.to_N raw)) as [text|];
      simpl; [|reflexivity].
    unfold command, serial_write, thread_start. run. reflexivity.
Qed.

End Commands.

Section Turns.

Context {W : Type}.

(** X6. A line of six well-formed fields whose sample makes the callback
    raise is reported as a line that could not be parsed: the exception of
    the callback is logged as an error with the line and goes no further,
    what the callback did to the consumer stays done. An exception outside
    [Exception] is not caught. *)
Theorem callback_failure_is_reported_as_a_parse_failure
  (w : World W) (_line : str) (d : dict) (f : callback_t W) (c : W)
  (e : exn) :
  length (split comma (drop_last _line)) = 6%nat ->
  parse_sample (split comma (drop_last _line)) = Ok d ->
  callback W (self W w) = Some f ->
  f d (consumer W w) = (c, Some e) ->
  handle_line W _line w
  = if is_Exception e
    then (add_log (Logging.error (Logging.CouldNotParseLine _line e))
            (with_consumer c w), Ok tt)
    else (with_consumer c w, Raise e).
Proof.
  intros Hlen Hp Hcb Hf.
  unfold handle_line, try_except. cbv zeta. rewrite Hlen, Hp. simpl.
  unfold bind, lift, gets, call_callback. rewrite Hcb, Hf.
  destruct (is_Exception e); reflexivity.
Qed.

(** X7. Once [close] has returned, the loop ends at its next test without
    reading, and every method that talks to the device raises
    [PortNotOpenError] and leaves the state as [close] left it: nothing is
    written to the closed port. *)
Theorem nothing_is_sent_after_close (w : World W) (fuel : nat)
  (remote_mode : bool) :
  let w' := fst (close W w) in
  measurement_loop W fuel w' = (w', Ok Exited)
  /\ stop_measurement W w' = (w', Raise PortNotOpenError)
  /\ set_remote_mode W remote_mode w' = (w', Raise PortNotOpenError)
  /\ get_device_info W w' = (w', Raise PortNotOpenError)
  /\ get_probe_info W w' = (w', Raise PortNotOpenError)
  /\ start_measurement W w' = (w', Raise PortNotOpenError).
Proof.
  destruct w as [[run cb rate [op rx0 tx0] di pi mt] lg th sl c].
  cbv zeta. destruct fuel, remote_mode; repeat split; reflexivity.
Qed.

End Turns.

(** One turn of the loop with the recording callback, on a line that
    decodes: the line is consumed, and its sample is recorded or its error
    logged. *)
Lemma recorded_turn (raw : bytes) (rest : list bytes) (w : World (list dict)) :
  is_open (s _ (self _ w)) = true ->
  callback _ (self _ w) = Some recorder ->
  rx (s _ (self _ w)) = raw :: rest ->
  is_ok (decode raw) = true ->
  measurement_loop_body _ w
  = (after_turns rest (consumer _ w ++ option_list (sample_of raw))
       (option_list (report_of raw)) w, Ok tt).
Proof.
  intros Hopen Hcb Hrx Hdec.
  destruct w as [[run cb rate [op rx0 tx0] di pi mt] lg th sl c].
  simpl in *. subst op cb rx0.
  unfold measurement_loop_body, serial_readline, sample_of, report_of.
  unfold bind at 1. simpl.
  unfold bind, lift.
  destruct (decode raw) as [text|]; [|discriminate].
  unfold handle_line, try_except, after_turns. cbv zeta. simpl.
  destruct (length (split comma (drop_last (strip text))) =? 6)%nat; simpl.
  - unfold bind, lift.
    destruct (parse_sample (split comma (drop_last (strip text))))
      as [d|e] eqn:Hp; simpl.
    + rewrite app_nil_r. reflexivity.
    + rewrite (parse_sample_raises _ _ Hp). unfold logging, modify. simpl.
      rewrite app_nil_r. reflexivity.
  - unfold logging, modify. simpl. rewrite app_nil_r. reflexivity.
Qed.

(** X8. The loop handles the lines one by one and in the order received:
    with a callback that records its samples, after as many turns as there
    are lines, all of them decodable, the consumer holds the samples of the
    well-formed lines in their order, the log has one error for each other
    line, in their order too, and the loop is still running. *)
Theorem loop_delivers_the_samples_in_order (lines : list bytes) :
  forall w : World (list dict),
    measurement_running _ (self _ w) = true ->
    is_open (s _ (self _ w)) = true ->
    callback _ (self _ w) = Some recorder ->
    rx (s _ (self _ w)) = lines ->
    Forall (fun raw => is_ok (decode raw) = true) lines ->
    measurement_loop _ (length lines) w
    = (after_turns [] (consumer _ w ++ omap sample_of lines)
         (omap report_of lines) w, Ok StillRunning).
Proof.
  induction lines as [|raw rest IH]; intros w Hrun Hopen Hcb Hrx Hall.
  - destruct w as [[run cb rate [op rx0 tx0] di pi mt] lg th sl c].
    simpl in *. subst. unfold after_turns. simpl.
    rewrite !app_nil_r. reflexivity.
  - apply Forall_cons in Hall as [Hraw Hall].
    cbn [length measurement_loop].
    unfold bind at 1. unfold gets at 1. rewrite Hrun.
    unfold bind at 1.
    rewrite (recorded_turn raw rest w Hopen Hcb Hrx Hraw).
    rewrite IH.
    + destruct w as [[run cb rate [op rx0 tx0] di pi mt] lg th sl c].
      unfold after_turns. simpl.
      destruct (sample_of raw), (report_of raw); simpl;
        rewrite <- ?app_assoc; reflexivity.
    + destruct w as [[run cb rate port di pi mt] lg th sl c]. exact Hrun.
    + destruct w as [[run cb rate [op rx0 tx0] di pi mt] lg th sl c].
      exact Hopen.
    + destruct w as [[run cb rate port di pi mt] lg th sl c]. exact Hcb.
    + destruct w as [[run cb rate port di pi mt] lg th sl c]. reflexivity.
    + exact Hall.
Qed.


Section Stopping.

Context {W : Type}.

(** X25. [stop_measurement] cannot end the loop: in every state, whether it
    returns or raises, it leaves [measurement_running] and the thread as
    they were, starts no thread and reads nothing; only [close] clears the
    flag. *)
Theorem stop_measurement_leaves_the_loop_running (w : World W) :
  let w' := fst (stop_measurement W w) in
  measurement_running W (self W w') = measurement_running W (self W w)
  /\ measurement_thread W (self W w') = measurement_thread W (self W w)
  /\ threads W w' = threads W w
  /\ rx (s W (self W w')) = rx (s W (self W w))
  /\ measurement_running W (self W (fst (close W w'))) = false.
Proof.
  destruct w as [[run cb rate [op rx0 tx0] di pi mt] lg th sl c].
  cbv zeta. destruct run, op; repeat split; reflexivity.
Qed.

End Stopping.

(** ** The statements above, at a concrete session *)

Lemma command_noreply_reads_nothing_witness :
  let w := session false [ascii_bytes "late;"] in
  measurement_running unit (self unit w) = false
  /\ is_open (s unit (self unit w)) = true
  /\ encode (lit "MEAS_STOP_CIB") = Ok (ascii_bytes "MEAS_STOP_CIB")
  /\ command unit (lit "MEAS_STOP_CIB") true w
     = (after_write (ascii_bytes "MEAS_STOP_CIB;") w, Ok None)
  /\ rx (s unit (self unit (fst (command unit (lit "MEAS_STOP_CIB") true w))))
     = [ascii_bytes "late;"].
Proof.
  cbv zeta. split; [reflexivity|]. split; [reflexivity|].
  split; [reflexivity|].
  destruct (command_noreply_reads_nothing (lit "MEAS_STOP_CIB")
              (ascii_bytes "MEAS_STOP_CIB")
              (session false [ascii_bytes "late;"])
              eq_refl eq_refl eq_refl) as (Hcmd & Hrx & _).
  split; [exact Hcmd|exact Hrx].
Defined.

Lemma command_fails_before_writing_witness :
  let w := fst (close unit (session false [])) in
  measurement_running unit (self unit w) = false
  /\ is_open (s unit (self unit w)) = false
  /\ command unit (lit "DEVICE_INFO?") false w = (w, Raise PortNotOpenError).
Proof.
  cbv zeta. split; [reflexivity|]. split; [reflexivity|].
  exact (command_fails_before_writing (lit "DEVICE_INFO?") false
           (fst (close unit (session false []))) eq_refl
           (or_intror eq_refl)).
Defined.

Lemma set_remote_mode_status_witness :
  let w := answering "0;" in
  measurement_running unit (self unit w) = false
  /\ is_open (s unit (self unit w)) = true
  /\ decode (ascii_bytes "0;") = Ok (lit "0;")
  /\ exists status : bool,
       set_remote_mode unit true w
       = (after_query (ascii_bytes "REMOTE ON;") [] w, Ok status)
       /\ (status = true <-> strip (lit "0;") = lit "0;").
Proof.
  cbv zeta. split; [reflexivity|]. split; [reflexivity|].
  split; [reflexivity|].
  exact (set_remote_mode_status true (answering "0;") (ascii_bytes "0;") []
           (lit "0;") eq_refl eq_refl eq_refl eq_refl).
Defined.

Lemma queries_while_measuring_witness :
  measurement_running unit (self unit measuring_session) = true
  /\ set_remote_mode unit false measuring_session
     = (measuring_session, Ok false)
  /\ get_device_info unit measuring_session
     = (measuring_session, Raise TypeError)
  /\ get_probe_info unit measuring_session
     = (measuring_session, Raise TypeError).
Proof.
  split; [reflexivity|].
  exact (queries_while_measuring false measuring_session eq_refl).
Defined.

Lemma start_measurement_ignores_the_status_witness :
  let w := answering "1;" in
  measurement_running unit (self unit w) = false
  /\ is_open (s unit (self unit w)) = true
  /\ is_ok (decode (ascii_bytes "1;")) = true
  /\ start_measurement unit w = (started [] w, Ok tt)
  /\ measurement_running unit (self unit (started [] w)) = true.
Proof.
  cbv zeta. split; [reflexivity|]. split; [reflexivity|].
  split; [reflexivity|].
  split; [|reflexivity].
  exact (start_measurement_ignores_the_status (answering "1;")
           eq_refl eq_refl).
Defined.

Lemma callback_failure_is_reported_as_a_parse_failure_witness :
  let w := listening (failing KeyError) [] in
  let _line := lit "0,8,0,OK,OK,100;" in
  exists d : dict,
    parse_sample (split comma (drop_last _line)) = Ok d
    /\ failing KeyError d (consumer nat w) = (1%nat, Some KeyError)
    /\ handle_line nat _line w
       = (add_log (Logging.error (Logging.CouldNotParseLine _line KeyError))
            (with_consumer 1%nat w), Ok tt).
Proof.
  cbv zeta. eexists. split; [reflexivity|]. split; [reflexivity|].
  exact (callback_failure_is_reported_as_a_parse_failure
           (listening (failing KeyError) []) (lit "0,8,0,OK,OK,100;")
           _ (failing KeyError) 1%nat KeyError
           eq_refl eq_refl eq_refl eq_refl).
Defined.

Lemma loop_delivers_the_samples_in_order_witness :
  let lines := [ascii_bytes "0,8,0,OK,OK,100;"; ascii_bytes "0,8,0;";
                ascii_bytes "12,250,0,OK,OK,87;"] in
  Forall (fun raw => is_ok (decode raw) = true) lines
  /\ measurement_loop (list dict) 3 (recording lines)
     = (after_turns [] (omap sample_of lines) (omap report_of lines)
          (recording lines), Ok StillRunning)
  /\ omap report_of lines = [Logging.error Logging.NotEnoughFields]
  /\ length (omap sample_of lines) = 2%nat.
Proof.
  cbv zeta.
  assert (Hall : Forall (fun raw => is_ok (decode raw) = true)
                   [ascii_bytes "0,8,0,OK,OK,100;"; ascii_bytes "0,8,0;";
                    ascii_bytes "12,250,0,OK,OK,87;"]).
  { repeat constructor. }
  split; [exact Hall|].
  split; [|split; reflexivity].
  exact (loop_delivers_the_samples_in_order _ (recording _)
           eq_refl eq_refl eq_refl eq_refl Hall).
Defined.

(** A callback that raises an exception of [Exception] is well behaved. *)
Lemma failing_is_well_behaved (e : exn) :
  is_Exception e = true -> well_behaved (Some (failing e)).
Proof.
  intros He f d c e' [= <-] Hf. simpl in Hf. congruence.
Qed.

Lemma measurement_loop_keeps_running_witness :
  let w := listening (failing ValueError)
             [ascii_bytes "0,8,0,OK,OK,100;"; ascii_bytes "0,8,0;"] in
  measurement_running nat (self nat w) = true
  /\ is_open (s nat (self nat w)) = true
  /\ Forall (fun raw => is_ok (decode raw) = true) (rx (s nat (self nat w)))
  /\ snd (measurement_loop nat 5 w) = Ok StillRunning.
Proof.
  cbv zeta.
  assert (Hall : Forall (fun raw => is_ok (decode raw) = true)
                   [ascii_bytes "0,8,0,OK,OK,100;"; ascii_bytes "0,8,0;"]).
  { repeat constructor. }
  split; [reflexivity|]. split; [reflexivity|]. split; [exact Hall|].
  exact (measurement_loop_keeps_running 5 (listening (failing ValueError) _)
           eq_refl eq_refl Hall (failing_is_well_behaved ValueError eq_refl)).
Defined.

Lemma handle_line_malformed_witness :
  malformed (lit "0,x,0,OK,OK,100;") = true
  /\ exists m,
       handle_line unit (lit "0,x,0,OK,OK,100;") (session true [])
       = (add_log (Logging.error m) (session true []), Ok tt).
Proof.
  split; [reflexivity|].
  exact (handle_line_malformed (lit "0,x,0,OK,OK,100;") (session true [])
           eq_refl).
Defined.

Lemma get_probe_info_complete_witness :
  let w := answering "Probe,2402/01,B-0007,2021-03-01,2023-03-01,E/H,100000,6000000000,300000,1000000000,YES,FCC 96-326 / Occupational;" in
  measurement_running unit (self unit w) = false
  /\ is_open (s unit (self unit w)) = true
  /\ float_of_str (lit "6000000000") = Ok 6000000000%float
  /\ exists d : dict,
       get_probe_info unit w
       = (after_query (ascii_bytes "Probe_INFO?;") [] w, Ok d)
       /\ map_to_list d ≡ₚ
            [("product_name", VStr (lit "Probe"));
             ("production_id", VStr (lit "2402/01"));
             ("serial_number", VStr (lit "B-0007"));
             ("calibration_date", VStr (lit "2021-03-01"));
             ("calibration_due", VStr (lit "2023-03-01"));
             ("field_type", VStr (lit "E/H"));
             ("e_field_lower_frequency_hz", VFloat 100000%float);
             ("e_field_upper_frequency_hz", VFloat 6000000000%float);
             ("h_field_lower_frequency_hz", VFloat 300000%float);
             ("h_field_upper_frequency_hz", VFloat 1000000000%float);
             ("shaped", VStr (lit "YES"));
             ("standard_name", VStr (lit "FCC 96-326 / Occupational"))].
Proof.
  cbv zeta. split; [reflexivity|]. split; [reflexivity|].
  split; [reflexivity|].
  exact (get_probe_info_complete
           (answering "Probe,2402/01,B-0007,2021-03-01,2023-03-01,E/H,100000,6000000000,300000,1000000000,YES,FCC 96-326 / Occupational;")
           (ascii_bytes "Probe,2402/01,B-0007,2021-03-01,2023-03-01,E/H,100000,6000000000,300000,1000000000,YES,FCC 96-326 / Occupational;")
           []
           (lit "Probe,2402/01,B-0007,2021-03-01,2023-03-01,E/H,100000,6000000000,300000,1000000000,YES,FCC 96-326 / Occupational;")
           _ _ _ _ _ _ _ _ _ _ _ _ _ _ _ _
           eq_refl eq_refl eq_refl eq_refl eq_refl
           eq_refl eq_refl eq_refl eq_refl).
Defined.

End Radman2_more.

(* ===================================================================== *)
(** * More about the limit tables (radhaz_standards.py)                   *)
(* ===================================================================== *)

Module Radhaz_more.

Import Radhaz Standards Cases Float_facts Radhaz_facts.

Local Open Scope float_scope.

(** ** Which entry a lookup takes *)

Lemma SFcompare_lt_eq_trans (a b c : spec_float) :
  SFcompare a b = Some Lt -> SFcompare b c = Some Eq ->
  SFcompare a c = Some Lt.
Proof.
  destruct a as [sa|sa| |sa ma ea], b as [sb|sb| |sb mb eb],
           c as [sc|sc| |sc mc ec]; by_cases;
    try discriminate; try reflexivity; intros H1 H2;
    cmp_cases; try discriminate; try reflexivity; subst;
    try lia; cmp_cases; try discriminate; try reflexivity; lia.
Qed.

(** [x < y <= z] gives [x < z]. *)
Lemma ltb_leb_trans (x y z : float) :
  (x <? y) = true -> (y <=? z) = true -> (x <? z) = true.
Proof.
  rewrite !FloatAxioms.ltb_spec, FloatAxioms.leb_spec.
  unfold SFltb, SFleb. intros H1 H2.
  destruct (SFcompare (Prim2SF x) (Prim2SF y)) as [[]|] eqn:E1;
    try discriminate.
  destruct (SFcompare (Prim2SF y) (Prim2SF z)) as [[]|] eqn:E2;
    try discriminate.
  - rewrite (SFcompare_lt_eq_trans _ _ _ E1 E2). reflexivity.
  - rewrite (SFcompare_lt_trans _ _ _ E1 E2). reflexivity.
Qed.

(** The scan keeps the first of the least entries: when it ends on an array
    without NaN, the entry it points at is strictly below every entry before
    it and not above any entry after it. *)
Lemma argmin_scan_first (l : list float) :
  forall (pre : list float) (mp : float) (mi i : nat),
    Forall (fun x => is_nan x = false) l ->
    is_nan mp = false ->
    pre !! mi = Some mp ->
    length pre = i ->
    (forall j y, (j < mi)%nat -> pre !! j = Some y -> (mp <? y) = true) ->
    (forall j y, (mi < j)%nat -> pre !! j = Some y -> (mp <=? y) = true) ->
    exists v,
      (pre ++ l) !! Numpy.argmin_scan mp mi i l = Some v
      /\ (forall j y, (j < Numpy.argmin_scan mp mi i l)%nat ->
                      (pre ++ l) !! j = Some y -> (v <? y) = true)
      /\ (forall j y, (Numpy.argmin_scan mp mi i l < j)%nat ->
                      (pre ++ l) !! j = Some y -> (v <=? y) = true).
Proof.
  induction l as [|x r IH]; intros pre mp mi i Hl Hn Hmi Hlen Hlt Hle; simpl.
  - exists mp. rewrite app_nil_r. repeat split; assumption.
  - apply Forall_cons in Hl as [Hx Hl].
    assert (Hmi_lt : (mi < length pre)%nat) by exact (lookup_lt_Some _ _ _ Hmi).
    destruct (mp <=? x) eqn:Hcmp.
    + destruct (IH (pre ++ [x]) mp mi (S i)) as (v & Hv & Hb & Ha).
      * exact Hl.
      * exact Hn.
      * apply lookup_app_l_Some. exact Hmi.
      * rewrite length_app. simpl. lia.
      * intros j y Hj Hy. apply (Hlt j y Hj).
        rewrite lookup_app_l in Hy by lia. exact Hy.
      * intros j y Hj Hy.
        destruct (decide (j < length pre)%nat) as [Hjl|Hjl].
        -- rewrite lookup_app_l in Hy by exact Hjl. exact (Hle j y Hj Hy).
        -- rewrite lookup_app_r in Hy by lia.
           destruct (j - length pre)%nat as [|k]; simpl in Hy;
             [|discriminate].
           inversion Hy; subst y. exact Hcmp.
      * exists v. rewrite <- app_assoc in Hv, Hb, Ha. repeat split; assumption.
    + rewrite Hx.
      assert (Hxmp : (x <? mp) = true) by (apply not_leb_ltb; assumption).
      destruct (IH (pre ++ [x]) x i (S i)) as (v & Hv & Hb & Ha).
      * exact Hl.
      * exact Hx.
      * apply list_lookup_middle. symmetry. exact Hlen.
      * rewrite length_app. simpl. lia.
      * intros j y Hj Hy. rewrite lookup_app_l in Hy by lia.
        destruct (lt_eq_lt_dec j mi) as [[Hjm|Hjm]|Hjm].
        -- exact (ltb_trans x mp y Hxmp (Hlt j y Hjm Hy)).
        -- subst j. rewrite Hmi in Hy. inversion Hy; subst y. exact Hxmp.
        -- exact (ltb_leb_trans x mp y Hxmp (Hle j y Hjm Hy)).
      * intros j y Hj Hy. rewrite lookup_app_r in Hy by lia.
        destruct (j - length pre)%nat as [|k] eqn:Hk; [lia|].
        simpl in Hy. discriminate.
      * exists v. rewrite <- app_assoc in Hv, Hb, Ha. repeat split; assumption.
Qed.

(** [argmin] of an array without NaN returns the first index of its least
    entry. *)
Lemma argmin_first (a : list float) :
  a <> [] ->
  Forall (fun x => is_nan x = false) a ->
  exists (idx : nat) (v : float),
    Numpy.argmin a = Ok idx
    /\ a !! idx = Some v
    /\ (forall j y, (j < idx)%nat -> a !! j = Some y -> (v <? y) = true)
    /\ (forall j y, (idx < j)%nat -> a !! j = Some y -> (v <=? y) = true).
Proof.
  destruct a as [|x r]; [congruence|]. intros _ Ha.
  apply Forall_cons in Ha as [Hx Hr]. unfold Numpy.argmin. rewrite Hx.
  destruct (argmin_scan_first r [x] x 0 1) as (v & Hv & Hb & Ha);
    try assumption; try reflexivity.
  - intros j y Hj. lia.
  - intros j y Hj Hy. destruct j; [lia|]. discriminate.
  - exists (Numpy.argmin_scan x 0 1 r), v. repeat split; assumption.
Qed.

(** X12. On a table that is not empty, at a query frequency whose distance to
    every table frequency is a number (not a NaN), the index that
    [efield_limit] and [hfield_limit] use is the first one of a nearest table
    frequency: every entry before it is strictly farther from the query, and
    no entry after it is nearer. *)
Theorem lookup_takes_the_first_nearest (self : FCC96326) (freq : float)
  (lg : Log) :
  frequency_mhz self <> [] ->
  Forall (fun entry => is_nan (distance entry freq) = false)
    (frequency_mhz self) ->
  exists (idx : nat) (nearest : float),
    nearest_index self freq lg = (lg ++ far_warning freq nearest, Ok idx)
    /\ frequency_mhz self !! idx = Some nearest
    /\ (forall j other, (j < idx)%nat ->
          frequency_mhz self !! j = Some other ->
          (distance nearest freq <? distance other freq) = true)
    /\ (forall j other, (idx < j)%nat ->
          frequency_mhz self !! j = Some other ->
          (distance nearest freq <=? distance other freq) = true).
Proof.
  intros Hne Hnan.
  set (diffs := Numpy.abs (Numpy.sub_scalar (frequency_mhz self) freq)).
  assert (Hdiffs : forall j,
            diffs !! j = (fun e => distance e freq) <$> frequency_mhz self !! j).
  { intros j. subst diffs. unfold Numpy.abs, Numpy.sub_scalar.
    rewrite !list_lookup_fmap.
    destruct (frequency_mhz self !! j); reflexivity. }
  assert (Hne' : diffs <> []).
  { subst diffs. unfold Numpy.abs, Numpy.sub_scalar.
    destruct (frequency_mhz self); [congruence|discriminate]. }
  assert (Hnan' : Forall (fun x => is_nan x = false) diffs).
  { subst diffs. unfold Numpy.abs, Numpy.sub_scalar.
    rewrite !Forall_fmap. exact Hnan. }
  destruct (argmin_first diffs Hne' Hnan') as (idx & v & Harg & Hv & Hb & Ha).
  rewrite Hdiffs in Hv.
  destruct (frequency_mhz self !! idx) as [nearest|] eqn:Hidx;
    [|discriminate].
  simpl in Hv. inversion Hv; subst v.
  exists idx, nearest. split; [|split; [exact Hidx|split]].
  - unfold nearest_index, bind, lift, ret. fold diffs. rewrite Harg.
    unfold item. rewrite Hidx. unfold far_warning, distance, logging, modify.
    destruct (1 <? abs (nearest - freq)).
    + reflexivity.
    + rewrite app_nil_r. reflexivity.
  - intros j other Hj Hother. apply (Hb j _ Hj).
    rewrite Hdiffs, Hother. reflexivity.
  - intros j other Hj Hother. apply (Ha j _ Hj).
    rewrite Hdiffs, Hother. reflexivity.
Qed.

Lemma lookup_takes_the_first_nearest_witness :
  Forall (fun entry => is_nan (distance entry 2.5) = false)
    (frequency_mhz three_entries)
  /\ distance 2 2.5 = distance 3 2.5
  /\ nearest_index three_entries 2.5 [] = ([], Ok 1%nat)
  /\ exists (idx : nat) (nearest : float),
       nearest_index three_entries 2.5 []
       = ([] ++ far_warning 2.5 nearest, Ok idx)
       /\ frequency_mhz three_entries !! idx = Some nearest.
Proof.
  assert (Hall : Forall (fun entry => is_nan (distance entry 2.5) = false)
                   (frequency_mhz three_entries)).
  { repeat constructor. }
  split; [exact Hall|]. split; [reflexivity|]. split; [reflexivity|].
  destruct (lookup_takes_the_first_nearest three_entries 2.5 []
              ltac:(discriminate) Hall)
    as (idx & nearest & Hrun & Hidx & _).
  exists idx, nearest. split; assumption.
Defined.

(** ** The conversions, where they fail *)

(** X14. On the general-public tables, which are empty, a conversion returns
    0.0 for the percentage 0 without looking anything up, and raises
    [ValueError] for every other percentage that is a float or an int that
    fits a float; it logs nothing. *)
Theorem general_public_conversions (lm : Libm) :
  exists std : FCC96326,
    init false = Ok std
    /\ forall (percentage : number) (freq : float) (lg : Log),
         (is_zero percentage = true ->
          percentage_to_efield lm std percentage freq lg = (lg, Ok 0)
          /\ percentage_to_hfield lm std percentage freq lg = (lg, Ok 0))
         /\ (is_zero percentage = false ->
             is_ok (to_float percentage) = true ->
             percentage_to_efield lm std percentage freq lg
             = (lg, Raise ValueError)
             /\ percentage_to_hfield lm std percentage freq lg
                = (lg, Raise ValueError)).
Proof.
  eexists. split; [reflexivity|]. intros percentage freq lg. split.
  - intros Hz. unfold percentage_to_efield, percentage_to_hfield.
    rewrite Hz. split; reflexivity.
  - intros Hz Hf. unfold percentage_to_efield, percentage_to_hfield.
    rewrite Hz. unfold bind, lift.
    destruct (to_float percentage) as [p|e]; [|discriminate].
    split; reflexivity.
Qed.

(** X15. An [int] percentage too large for a float makes both conversions
    raise [OverflowError], on any table and before any lookup: nothing is
    logged. *)
Theorem huge_percentage_overflows (lm : Libm) (self : FCC96326) (z : Z)
  (freq : float) (lg : Log) :
  to_float (PyInt z) = Raise OverflowError ->
  percentage_to_efield lm self (PyInt z) freq lg = (lg, Raise OverflowError)
  /\ percentage_to_hfield lm self (PyInt z) freq lg
     = (lg, Raise OverflowError).
Proof.
  intros Hz. unfold percentage_to_efield, percentage_to_hfield.
  assert (Hnz : is_zero (PyInt z) = false).
  { simpl. destruct (Z.eqb_spec z 0) as [->|]; [discriminate Hz|reflexivity]. }
  rewrite Hnz. unfold bind, lift. rewrite Hz. split; reflexivity.
Qed.

Lemma huge_percentage_overflows_witness :
  to_float (PyInt (2 ^ 1024)) = Raise OverflowError
  /\ is_ok (to_float (PyInt (2 ^ 1024 - 2 ^ 970 - 1))) = true
  /\ percentage_to_efield libm_special three_entries (PyInt (2 ^ 1024)) 2 []
     = ([], Raise OverflowError).
Proof.
  split; [reflexivity|]. split; [reflexivity|].
  destruct (huge_percentage_overflows libm_special three_entries (2 ^ 1024)
              2 [] eq_refl) as [He _].
  exact He.
Defined.

(** ** Which standard is chosen *)

Lemma is_prefix_spec (needle t : str) :
  is_prefix needle t = true <-> exists post, t = needle ++ post.
Proof.
  revert t. induction needle as [|a n IH]; intros t; simpl.
  - split; [intros _; exists t; reflexivity|reflexivity].
  - destruct t as [|b r].
    + split; [discriminate|intros [post H]; discriminate].
    + rewrite andb_true_iff, N.eqb_eq, IH. split.
      * intros [-> [post ->]]. exists post. reflexivity.
      * intros [post H]. inversion H; subst. split; [reflexivity|].
        exists post. reflexivity.
Qed.

(** [needle in t]: [needle] is a substring of [t]. *)
Lemma contains_spec (needle t : str) :
  contains needle t = true <-> exists pre post, t = pre ++ needle ++ post.
Proof.
  induction t as [|c r IH]; simpl.
  - rewrite orb_false_r, is_prefix_spec. split.
    + intros [post H]. exists [], post. exact H.
    + intros (pre & post & H). destruct pre as [|p pre]; [|discriminate].
      exists post. exact H.
  - rewrite orb_true_iff, is_prefix_spec, IH. split.
    + intros [[post H]|(pre & post & H)].
      * exists [], post. exact H.
      * exists (c :: pre), post. rewrite H. reflexivity.
    + intros (pre & post & H). destruct pre as [|p pre].
      * left. exists post. exact H.
      * right. inversion H; subst. exists pre, post. reflexivity.
Qed.

(** X16. [choose_standard] returns the occupational standard, with its
    tables generated and not empty, exactly for the names that contain
    [FCC 96-326 / Occupational] somewhere, and [None] for every other name;
    the general-public standard is never chosen. *)
Theorem choose_standard_spec :
  exists std : FCC96326,
    init true = Ok std
    /\ frequency_mhz std <> []
    /\ forall standard_name : str,
         ((exists pre post,
              standard_name
              = pre ++ lit "FCC 96-326 / Occupational" ++ post) ->
          choose_standard standard_name = Ok (Some std))
         /\ ((forall pre post,
                 standard_name
                 <> pre ++ lit "FCC 96-326 / Occupational" ++ post) ->
             choose_standard standard_name = Ok None).
Proof.
  destruct occupational_tables as (std & Hstd & Hne & _).
  exists std. split; [exact Hstd|]. split; [exact Hne|].
  intros standard_name. unfold choose_standard. split.
  - intros H. apply contains_spec in H. rewrite H, Hstd. reflexivity.
  - intros H.
    destruct (contains (lit "FCC 96-326 / Occupational") standard_name)
      eqn:Hc; [|reflexivity].
    apply contains_spec in Hc as (pre & post & Hc). destruct (H pre post Hc).
Qed.

(** ** The entries of the occupational table *)

Lemma arange_from_lookup (start step : float) (n : nat) :
  forall (i : Z) (k : nat), (k < n)%nat ->
    Numpy.arange_from start step i n !! k
    = Some (Numpy.arange_item start step (i + Z.of_nat k)).
Proof.
  induction n as [|n IH]; intros i k Hk; [lia|].
  destruct k as [|k]; simpl.
  - rewrite Z.add_0_r. reflexivity.
  - rewrite IH by lia. do 2 f_equal. lia.
Qed.

Lemma arange_entries (start stop step : float) (n : Z) :
  Numpy.arange_length start stop step = Ok n ->
  exists l,
    Numpy.arange start stop step = Ok l
    /\ length l = Z.to_nat n
    /\ forall j : Z, (0 <= j < n)%Z ->
         l !! Z.to_nat j = Some (Numpy.arange_item start step j).
Proof.
  intros H. unfold Numpy.arange. rewrite H. simpl. eexists.
  split; [reflexivity|]. split.
  - unfold Numpy.arange_fill.
    generalize 0%Z. induction (Z.to_nat n) as [|k IH]; intros i; simpl;
      [reflexivity|]. now rewrite IH.
  - intros j Hj. unfold Numpy.arange_fill.
    rewrite arange_from_lookup by lia. do 2 f_equal. lia.
Qed.

Lemma arange_item_stepped (start : float) :
  nth_frequency start 0 = start ->
  nth_frequency start 1 = start + 0.01 ->
  forall j : Z, (0 <= j)%Z ->
    Numpy.arange_item start 0.01 j = nth_frequency start j.
Proof.
  intros H0 H1 j Hj. destruct j as [|p|p]; [|destruct p|lia].
  - symmetry. exact H0.
  - reflexivity.
  - reflexivity.
  - symmetry. exact H1.
Qed.

Lemma ones_lookup (n k : nat) :
  (k < n)%nat -> Numpy.ones n !! k = Some 1.
Proof.
  unfold Numpy.ones. revert k. induction n as [|n IH]; intros k Hk; [lia|].
  destruct k as [|k]; simpl; [reflexivity|]. apply IH. lia.
Qed.

Lemma six_lookups {A} (l1 l2 l3 l4 l5 l6 : list A) (n1 n2 n3 n4 n5 n6 j : Z) :
  length l1 = Z.to_nat n1 -> length l2 = Z.to_nat n2 ->
  length l3 = Z.to_nat n3 -> length l4 = Z.to_nat n4 ->
  length l5 = Z.to_nat n5 -> length l6 = Z.to_nat n6 ->
  (0 <= n1)%Z -> (0 <= n2)%Z -> (0 <= n3)%Z -> (0 <= n4)%Z -> (0 <= n5)%Z ->
  (0 <= j)%Z ->
  let t := (((((([] ++ l1) ++ l2) ++ l3) ++ l4) ++ l5) ++ l6) in
  ((j < n1)%Z -> t !! Z.to_nat (0 + j) = l1 !! Z.to_nat j)
  /\ ((j < n2)%Z -> t !! Z.to_nat (n1 + j) = l2 !! Z.to_nat j)
  /\ ((j < n3)%Z -> t !! Z.to_nat (n1 + n2 + j) = l3 !! Z.to_nat j)
  /\ ((j < n4)%Z -> t !! Z.to_nat (n1 + n2 + n3 + j) = l4 !! Z.to_nat j)
  /\ ((j < n5)%Z ->
      t !! Z.to_nat (n1 + n2 + n3 + n4 + j) = l5 !! Z.to_nat j)
  /\ ((j < n6)%Z ->
      t !! Z.to_nat (n1 + n2 + n3 + n4 + n5 + j) = l6 !! Z.to_nat j).
Proof.
  intros L1 L2 L3 L4 L5 L6 P1 P2 P3 P4 P5 Pj t. subst t.
  rewrite app_nil_l.
  repeat split; intros Hj;
    repeat (rewrite lookup_app_l by (rewrite ?length_app; lia));
    try (rewrite lookup_app_r by (rewrite ?length_app; lia));
    f_equal; rewrite ?length_app; lia.
Qed.


(** X17. The occupational table has 300000 entries in each of its three
    arrays, in six bands stepped by 0.01 MHz: 10 frequencies from 0.003 MHz,
    290 from 0.1, 2700 from 3, 7000 from 30, 20000 from 100 and 270000 from
    300 MHz. The [j]-th frequency of a band is its first frequency plus [j]
    times the step, and beside each frequency [f] stand the limits of its
    band: 614 and 163; 614 and 16.3/f; 1842/f and 16.3/f; 61.4 and 16.3/f;
    61.4 and 0.163; and, from 300 MHz on, the square roots of f/300*377 and
    of f/300/377. *)
Theorem occupational_table_entries :
  exists std : FCC96326,
    init true = Ok std
    /\ Z.of_nat (length (frequency_mhz std)) = 300000%Z
    /\ Z.of_nat (length (efield std)) = 300000%Z
    /\ Z.of_nat (length (hfield std)) = 300000%Z
    /\ holds_band std 0 10 0.003 (fun _ => 614) (fun _ => 163)
    /\ holds_band std 10 290 0.1 (fun _ => 614) (fun f => 16.3 / f)
    /\ holds_band std 300 2700 3.0 (fun f => 1842.0 / f) (fun f => 16.3 / f)
    /\ holds_band std 3000 7000 30.0 (fun _ => 61.4) (fun f => 16.3 / f)
    /\ holds_band std 10000 20000 100.0 (fun _ => 61.4) (fun _ => 0.163)
    /\ holds_band std 30000 270000 300.0
         (fun f => sqrt (f / 300 * 377.0)) (fun f => sqrt (f / 300 / 377.0)).
Proof.
  destruct (arange_entries 0.003 0.1 0.01 10) as (f1 & E1 & L1 & F1);
    [vm_compute; reflexivity|].
  destruct (arange_entries 0.1 3.0 0.01 290) as (f2 & E2 & L2 & F2);
    [vm_compute; reflexivity|].
  destruct (arange_entries 3.0 30.0 0.01 2700) as (f3 & E3 & L3 & F3);
    [vm_compute; reflexivity|].
  destruct (arange_entries 30.0 100.0 0.01 7000) as (f4 & E4 & L4 & F4);
    [vm_compute; reflexivity|].
  destruct (arange_entries 100.0 300.0 0.01 20000) as (f5 & E5 & L5 & F5);
    [vm_compute; reflexivity|].
  destruct (arange_entries 300.0 3000.0 0.01 270000) as (f6 & E6 & L6 & F6);
    [vm_compute; reflexivity|].
  pose proof (arange_item_stepped 0.003 eq_refl eq_refl) as S1.
  pose proof (arange_item_stepped 0.1 eq_refl eq_refl) as S2.
  pose proof (arange_item_stepped 3.0 eq_refl eq_refl) as S3.
  pose proof (arange_item_stepped 30.0 eq_refl eq_refl) as S4.
  pose proof (arange_item_stepped 100.0 eq_refl eq_refl) as S5.
  pose proof (arange_item_stepped 300.0 eq_refl eq_refl) as S6.
  eexists. split.
  { unfold init, init_tables_occupational.
    rewrite E1. cbn [rbind]. rewrite E2. cbn [rbind]. rewrite E3.
    cbn [rbind]. rewrite E4. cbn [rbind]. rewrite E5. cbn [rbind].
    rewrite E6. cbn [rbind]. reflexivity. }
  cbn [append_band clear_tables frequency_mhz efield hfield].
  assert (Hlen : Z.of_nat (length (f1 ++ f2 ++ f3 ++ f4 ++ f5 ++ f6))
                 = 300000%Z).
  { rewrite !length_app, L1, L2, L3, L4, L5, L6.
    rewrite !Nat2Z.inj_add, !Z2Nat.id by lia. reflexivity. }
  split; [|split; [|split]].
  - rewrite <- Hlen. f_equal. rewrite <- !app_assoc. reflexivity.
  - rewrite <- Hlen. f_equal. rewrite !length_app. band_lengths.
    simpl. lia.
  - rewrite <- Hlen. f_equal. rewrite !length_app. band_lengths.
    simpl. lia.
  - unfold holds_band.
    split; [|split; [|split; [|split; [|split]]]]; intros j Hj;
      cbn [append_band clear_tables frequency_mhz efield hfield];
      (split; [|split]);
      match goal with
      | |- (((((([] ++ ?a) ++ ?b) ++ ?c) ++ ?d) ++ ?e) ++ ?g) !! _ = _ =>
          destruct (six_lookups a b c d e g 10 290 2700 7000 20000 270000 j)
            as (B1 & B2 & B3 & B4 & B5 & B6);
          [band_lengths; assumption ..|lia|lia|lia|lia|lia|lia|]
      end;
      (etransitivity;
       [first [apply B1; lia | apply B2; lia | apply B3; lia
              | apply B4; lia | apply B5; lia | apply B6; lia]|]);
      unfold Numpy.sqrt, Numpy.mul_scalar, Numpy.scalar_div,
        Numpy.div_scalar;
      rewrite ?list_lookup_fmap;
      first [ rewrite ones_lookup by lia
            | rewrite F1, S1 by lia | rewrite F2, S2 by lia
            | rewrite F3, S3 by lia | rewrite F4, S4 by lia
            | rewrite F5, S5 by lia | rewrite F6, S6 by lia ];
      reflexivity.
Qed.

(** ** The statements above, at concrete inputs *)

Lemma general_public_conversions_witness :
  exists std : FCC96326,
    init false = Ok std
    /\ percentage_to_efield libm_special std (PyInt 0) 100 [] = ([], Ok 0)
    /\ percentage_to_hfield libm_special std (PyFloat 50) 100 []
       = ([], Raise ValueError).
Proof.
  destruct (general_public_conversions libm_special) as (std & Hstd & Hall).
  exists std. split; [exact Hstd|]. split.
  - destruct (Hall (PyInt 0) 100 []) as [Hzero _].
    destruct (Hzero eq_refl) as [He _]. exact He.
  - destruct (Hall (PyFloat 50) 100 []) as [_ Hother].
    destruct (Hother eq_refl eq_refl) as [_ Hh]. exact Hh.
Defined.

Lemma choose_standard_spec_witness :
  exists std : FCC96326,
    init true = Ok std
    /\ choose_standard (lit "Shaped: FCC 96-326 / Occupational (2021)")
       = Ok (Some std)
    /\ choose_standard (lit "FCC 96-326 / General Public") = Ok None.
Proof.
  destruct choose_standard_spec as (std & Hstd & _ & Hall).
  exists std. split; [exact Hstd|]. split.
  - destruct (Hall (lit "Shaped: FCC 96-326 / Occupational (2021)"))
      as [Hyes _].
    apply Hyes. exists (lit "Shaped: "), (lit " (2021)"). reflexivity.
  - destruct (Hall (lit "FCC 96-326 / General Public")) as [_ Hno].
    apply Hno. intros pre post H.
    assert (Hc : contains (lit "FCC 96-326 / Occupational")
                   (lit "FCC 96-326 / General Public") = true).
    { apply contains_spec. exists pre, post. exact H. }
    discriminate Hc.
Defined.

End Radhaz_more.

(* ===================================================================== *)
(** * Facts about the program (__main__.py)                               *)
(* ===================================================================== *)

Module Main_facts.

Import Radman2 Scenario Cases Main Radman2_facts.

(** ** The records that the program prints *)

Section Records.

Context {W : Type}.

(** X18. Out of a measurement, on an open port whose next line decodes to
    twelve fields: [get_probe_info] returns the six mandatory keys together
    with the optional numbers that come before the first malformed one,
    logging one warning; the keys [shaped] and [standard_name] are stored,
    and nothing is logged, only when all four numbers are well formed. *)
Theorem get_probe_info_keeps_what_it_parsed (w : World W)
  (raw : bytes) (rest : list bytes) (text : str)
  (f0 f1 f2 f3 f4 f5 f6 f7 f8 f9 f10 f11 : str) :
  measurement_running W (self W w) = false ->
  is_open (s W (self W w)) = true ->
  rx (s W (self W w)) = raw :: rest ->
  decode raw = Ok text ->
  split comma (drop_last (strip text))
  = [f0; f1; f2; f3; f4; f5; f6; f7; f8; f9; f10; f11] ->
  let xs := parsed_prefix [f6; f7; f8; f9] in
  let w' := after_query (ascii_bytes "Probe_INFO?;") rest w in
  get_probe_info W w
  = if (length xs =? 4)%nat
    then (w', Ok (with_shaping f10 f11
                    (partial_record (mandatory f0 f1 f2 f3 f4 f5) xs)))
    else (add_log (Logging.warning (Logging.ProbeInfoException ValueError))
            w', Ok (partial_record (mandatory f0 f1 f2 f3 f4 f5) xs)).
Proof.
  intros Hrun Hopen Hrx Hdec Hf. cbv zeta.
  unfold get_probe_info, bind at 1.
  rewrite (command_answered (lit "Probe_INFO?") (ascii_bytes "Probe_INFO?")
             w raw rest text) by auto.
  unfold bind at 1. unfold lift at 1. unfold fields_of. rewrite Hf.
  change (negb (length [f0; f1; f2; f3; f4; f5; f6; f7; f8; f9; f10; f11]
                =? 12)%nat) with false. cbv iota.
  unfold bind, lift, item. simpl lookup. cbv iota beta.
  exact (probe_optional_runs f0 f1 f2 f3 f4 f5 f6 f7 f8 f9 f10 f11
           (mandatory f0 f1 f2 f3 f4 f5) _).
Qed.

(** A record that [get_probe_info] returned is one of these. *)
Lemma probe_record_shape (w w' : World W) (d : dict) :
  get_probe_info W w = (w', Ok d) ->
  exists (f0 f1 f2 f3 f4 f5 f10 f11 : str) (xs : list float),
    d = if (length xs =? 4)%nat
        then with_shaping f10 f11
               (partial_record (mandatory f0 f1 f2 f3 f4 f5) xs)
        else partial_record (mandatory f0 f1 f2 f3 f4 f5) xs.
Proof.
  unfold get_probe_info. unfold bind at 1.
  destruct (command W (lit "Probe_INFO?") false w) as [w1 [data|e]];
    [|discriminate].
  unfold bind at 1. unfold lift at 1.
  destruct (fields_of data) as [_fields|e]; [|discriminate].
  destruct (negb (length _fields =? 12)%nat) eqn:Hlen; [discriminate|].
  apply negb_false_iff, Nat.eqb_eq in Hlen.
  destruct (length_12 _ Hlen)
    as (f0 & f1 & f2 & f3 & f4 & f5 & f6 & f7 & f8 & f9 & f10 & f11 & ->).
  unfold bind, lift, item. simpl lookup. cbv iota beta.
  intros H. rewrite probe_optional_runs in H. cbv zeta in H.
  exists f0, f1, f2, f3, f4, f5, f10, f11, (parsed_prefix [f6; f7; f8; f9]).
  fold (mandatory f0 f1 f2 f3 f4 f5) in H.
  destruct (length (parsed_prefix [f6; f7; f8; f9]) =? 4)%nat;
    congruence.
Qed.

(** A record that [get_device_info] returned has the ten keys. *)
Lemma device_record_shape (w w' : World W) (d : dict) :
  get_device_info W w = (w', Ok d) ->
  exists f0 f1 f2 f3 f4 f5 f6 f7 f8 f9 : str,
    d = <["options_name" := VStr f9]>
        (<["num_options" := VStr f8]>
        (<["calibration_due" := VStr f7]>
        (<["calibration_date" := VStr f6]>
        (<["firmware_version" := VStr f5]>
        (<["device_type" := VStr f4]>
        (<["device_id" := VStr f3]>
        (<["serial_number" := VStr f2]>
        (<["production_id" := VStr f1]>
        (<["product_name" := VStr f0]> (∅ : dict)))))))))).
Proof.
  unfold get_device_info. unfold bind at 1.
  destruct (command W (lit "DEVICE_INFO?") false w) as [w1 [data|e]];
    [|discriminate].
  unfold bind at 1. unfold lift at 1.
  destruct (fields_of data) as [_fields|e]; [|discriminate].
  destruct (negb (length _fields =? 10)%nat) eqn:Hlen; [discriminate|].
  apply negb_false_iff, Nat.eqb_eq in Hlen.
  destruct (length_10 _ Hlen)
    as (f0 & f1 & f2 & f3 & f4 & f5 & f6 & f7 & f8 & f9 & ->).
  unfold bind, lift, item, ret. simpl lookup. cbv iota beta.
  intros [= _ <-]. exists f0, f1, f2, f3, f4, f5, f6, f7, f8, f9.
  reflexivity.
Qed.

End Records.

(** ** Steps of a block *)

Lemma bind_Ok {S A B} (m : M S A) (k : A -> M S B) (st st' : S) (a : A) :
  m st = (st', Ok a) -> bind m k st = k a st'.
Proof. intros H. unfold bind. rewrite H. reflexivity. Qed.

Lemma bind_Raise {S A B} (m : M S A) (k : A -> M S B) (st st' : S)
  (e : exn) :
  m st = (st', Raise e) -> bind m k st = (st', Raise e).
Proof. intros H. unfold bind. rewrite H. reflexivity. Qed.

Lemma try_pass_Ok {S} (body : M S unit) (st st' : S) :
  body st = (st', Ok tt) -> try_pass body st = (st', Ok tt).
Proof. intros H. unfold try_pass. rewrite H. reflexivity. Qed.

Lemma try_pass_Raise {S} (body : M S unit) (st st' : S) (e : exn) :
  body st = (st', Raise e) -> try_pass body st = (st', Ok tt).
Proof. intros H. unfold try_pass. rewrite H. reflexivity. Qed.

Lemma said_said (a b : list entry) (st : State) :
  said b (said a st) = said (a ++ b) st.
Proof. unfold said. simpl. rewrite app_assoc. reflexivity. Qed.

Lemma info_item_Some (text : string) (d : dict) (key : string) (v : value)
  (st : State) :
  d !! key = Some v ->
  info_item text d key st = (said [Message Logging.INFO text [v]] st, Ok tt).
Proof.
  intros H. unfold info_item, getitem, bind, lift. rewrite H. reflexivity.
Qed.

Lemma info_item_None (text : string) (d : dict) (key : string) (st : State) :
  d !! key = None -> info_item text d key st = (st, Raise KeyError).
Proof.
  intros H. unfold info_item, getitem, bind, lift. rewrite H. reflexivity.
Qed.

Lemma info_range_Some (text : string) (d : dict) (lower upper : string)
  (a b : float) (st : State) :
  d !! lower = Some (VFloat a) -> d !! upper = Some (VFloat b) ->
  info_range text d lower upper st
  = (said [Message Logging.INFO text
             [VFloat (a / 1e6)%float; VFloat (b / 1e6)%float]] st, Ok tt).
Proof.
  intros Ha Hb. unfold info_range, getitem, bind, lift. rewrite Ha. simpl.
  rewrite Hb. reflexivity.
Qed.

Lemma info_range_None (text : string) (d : dict) (lower upper : string)
  (st : State) :
  d !! lower = None
  \/ (exists a, d !! lower = Some (VFloat a)) /\ d !! upper = None ->
  info_range text d lower upper st = (st, Raise KeyError).
Proof.
  intros [H|[[a Ha] Hb]]; unfold info_range, getitem, bind, lift.
  - rewrite H. reflexivity.
  - rewrite Ha. simpl. rewrite Hb. reflexivity.
Qed.

(** One statement of a printing function, on a record given by its
    insertions. *)
Ltac printed :=
  first
    [ erewrite bind_Ok by (apply info_item_Some; look)
    | erewrite bind_Ok by (apply info_range_Some; look)
    | erewrite bind_Ok by (apply try_pass_Ok; apply info_range_Some; look)
    | erewrite bind_Ok
        by (eapply try_pass_Raise; apply info_range_None; left; look)
    | erewrite bind_Ok
        by (eapply try_pass_Raise; apply info_range_None; right;
            split; [eexists; look|look])
    | erewrite bind_Raise by (apply info_item_None; look)
    | erewrite bind_Raise by (apply info_range_None; left; look)
    | erewrite bind_Raise
        by (apply info_range_None; right; split; [eexists; look|look]) ];
  cbv beta; rewrite ?said_said.

(** ** [print_device_info] and [print_probe_info] *)

Section Printing.

Context {W : Type}.

(** X19. Whatever record [get_device_info] returned, [print_device_info]
    logs nine lines from it and raises nothing: the product name twice, then
    the production id, serial number, device id, device type, firmware
    version and the two calibration dates; the number and the names of the
    options are not printed. *)
Theorem print_device_info_prints_the_record (w w' : World W) (d : dict)
  (st : State) :
  get_device_info W w = (w', Ok d) ->
  exists f0 f1 f2 f3 f4 f5 f6 f7 : str,
    d !! "product_name" = Some (VStr f0)
    /\ d !! "production_id" = Some (VStr f1)
    /\ d !! "serial_number" = Some (VStr f2)
    /\ d !! "device_id" = Some (VStr f3)
    /\ d !! "device_type" = Some (VStr f4)
    /\ d !! "firmware_version" = Some (VStr f5)
    /\ d !! "calibration_date" = Some (VStr f6)
    /\ d !! "calibration_due" = Some (VStr f7)
    /\ print_device_info d st
       = (said
            [Message Logging.INFO "Device Information for {}" [VStr f0];
             Message Logging.INFO (tab ++ "Product Name: {}") [VStr f0];
             Message Logging.INFO (tab ++ "Production ID: {}") [VStr f1];
             Message Logging.INFO (tab ++ "Serial Number: {}") [VStr f2];
             Message Logging.INFO (tab ++ "Device ID: {}") [VStr f3];
             Message Logging.INFO (tab ++ "Device Type: {}") [VStr f4];
             Message Logging.INFO (tab ++ "Firmware Version: {}") [VStr f5];
             Message Logging.INFO (tab ++ "Calibration Date: {}") [VStr f6];
             Message Logging.INFO (tab ++ "Calibration Due: {}") [VStr f7]]
            st, Ok tt).
Proof.
  intros H.
  destruct (device_record_shape w w' d H)
    as (f0 & f1 & f2 & f3 & f4 & f5 & f6 & f7 & f8 & f9 & ->).
  exists f0, f1, f2, f3, f4, f5, f6, f7.
  repeat (split; [look|]).
  unfold print_device_info. do 8 printed.
  erewrite info_item_Some by look. rewrite said_said. reflexivity.
Qed.

(** X20. Whatever record [get_probe_info] returned: when it holds
    [standard_name], that is when all four optional numbers were well
    formed, [print_probe_info] logs ten lines and raises nothing; when it
    does not, [print_probe_info] raises [KeyError], at the E-field range or
    at [shaped], the [try] around the H-field range notwithstanding. *)
Theorem print_probe_info_needs_the_whole_record (w w' : World W) (d : dict)
  (st : State) :
  get_probe_info W w = (w', Ok d) ->
  (is_Some (d !! "standard_name")
   /\ exists ms : list entry,
        length ms = 10%nat
        /\ print_probe_info d st = (said ms st, Ok tt))
  \/ (d !! "standard_name" = None
      /\ snd (print_probe_info d st) = Raise KeyError).
Proof.
  intros H.
  destruct (probe_record_shape w w' d H)
    as (f0 & f1 & f2 & f3 & f4 & f5 & f10 & f11 & xs & ->).
  destruct xs as [|x6 [|x7 [|x8 [|x9 [|x10 xs]]]]];
    clear H;
    cbn [length Nat.eqb partial_record with_shaping optional_keys
         zip zip_with fold_left fst snd];
    unfold partial_record, with_shaping, mandatory; simpl fold_left.
  - right. split; [look|]. unfold print_probe_info. do 7 printed.
    reflexivity.
  - right. split; [look|]. unfold print_probe_info. do 7 printed.
    reflexivity.
  - right. split; [look|]. unfold print_probe_info. do 9 printed.
    reflexivity.
  - right. split; [look|]. unfold print_probe_info. do 9 printed.
    reflexivity.
  - left. split; [eexists; look|].
    eexists. split; [|unfold print_probe_info; do 9 printed;
                      erewrite info_item_Some by look; rewrite said_said;
                      reflexivity].
    reflexivity.
  - right. split; [look|]. unfold print_probe_info. do 9 printed.
    reflexivity.
Qed.

End Printing.

(** ** [handle_data] *)

(** A sample that the loop built has these six keys. *)
Lemma parse_sample_shape (_fields : list str) (d : dict) :
  parse_sample _fields = Ok d ->
  exists (x0 x1 x5 : float) (f2 f3 f4 : str),
    d = <["battery_percentage" := VFloat x5]>
        (<["h_fields_ok" := VStr f4]>
        (<["e_field_ok" := VStr f3]>
        (<["unknown" := VStr f2]>
        (<["h_field_percentage" := VFloat (x1 / 100)%float]>
        (<["e_field_percentage" := VFloat (x0 / 100)%float]>
           (∅ : dict)))))).
Proof.
  unfold parse_sample.
  destruct (rbind (item _fields 0) float_of_str) as [x0|]; [|discriminate].
  cbn [rbind].
  destruct (rbind (item _fields 1) float_of_str) as [x1|]; [|discriminate].
  cbn [rbind].
  destruct (item _fields 2) as [f2|]; [|discriminate]. cbn [rbind].
  destruct (item _fields 3) as [f3|]; [|discriminate]. cbn [rbind].
  destruct (item _fields 4) as [f4|]; [|discriminate]. cbn [rbind].
  destruct (rbind (item _fields 5) float_of_str) as [x5|]; [|discriminate].
  cbn [rbind]. intros [= <-]. exists x0, x1, x5, f2, f3, f4. reflexivity.
Qed.

Lemma bind_bind {S A B C} (m : M S A) (k1 : A -> M S B) (k2 : B -> M S C)
  (st : S) :
  bind (bind m k1) k2 st = bind m (fun a => bind (k1 a) k2) st.
Proof. unfold bind. destruct (m st) as [st' [a|e]]; reflexivity. Qed.

Lemma lift_formatted (d : dict) (key : string) (x : float) (st : State) :
  d !! key = Some (VFloat x) ->
  lift (formatted d key) st = (st, Ok (VFloat x)).
Proof. intros H. unfold lift, formatted, getitem. rewrite H. reflexivity. Qed.

Lemma lift_getitem (d : dict) (key : string) (v : value) (st : State) :
  d !! key = Some v -> lift (getitem d key) st = (st, Ok v).
Proof. intros H. unfold lift, getitem. rewrite H. reflexivity. Qed.

Lemma lift_as_number (d : dict) (key : string) (x : float) (st : State) :
  d !! key = Some (VFloat x) ->
  lift (rbind (getitem d key) as_number) st = (st, Ok (Radhaz.PyFloat x)).
Proof. intros H. unfold lift, getitem. rewrite H. reflexivity. Qed.

Lemma logging_said (lvl : Logging.level) (text : string)
  (values : list value) (st : State) :
  logging lvl text values st = (said [Message lvl text values] st, Ok tt).
Proof. reflexivity. Qed.

Lemma write_line_written (text : string) (values : list value) (st : State) :
  write_line text values st = (written [(text, values)] st, Ok tt).
Proof. reflexivity. Qed.

Lemma run_standard_said {A} (m : M Radhaz.Log A) (lg : Radhaz.Log)
  (r : result A) (st : State) :
  m [] = (lg, r) -> run_standard m st = (said (map Library lg) st, r).
Proof. intros H. unfold run_standard. rewrite H. reflexivity. Qed.

Lemma log_file_said (ms : list entry) (st : State) :
  log_file (said ms st) = log_file st.
Proof. reflexivity. Qed.

(** One statement of [handle_data], on a sample given by its insertions. *)
Ltac handled :=
  rewrite ?bind_bind;
  first
    [ erewrite bind_Ok by (apply lift_formatted; look)
    | erewrite bind_Ok by (apply lift_as_number; look)
    | erewrite bind_Ok by (apply lift_getitem; look)
    | erewrite bind_Ok by (apply run_standard_said; eassumption)
    | erewrite bind_Ok by (apply logging_said)
    | erewrite bind_Ok by (apply write_line_written)
    | erewrite bind_Ok by (unfold gets; reflexivity)
    | erewrite bind_Ok by (unfold ret; reflexivity) ];
  cbv beta; cbn [fst snd]; rewrite ?said_said.

Section Handling.

Variable lm : Radhaz.Libm.

(** X21. Without a standard, without a frequency, or with the frequency 0.0
    (which is false as a condition), [handle_data] converts nothing: on a
    sample that the loop built it raises nothing, logs the two percentages,
    writes a line of four columns when a log file is open, and leaves the
    sample as it is. *)
Theorem handle_data_without_conversion
  (standard : option Radhaz.FCC96326) (frequency : option float)
  (_timestamp : str) (_fields : list str) (data : dict) (st : State) :
  standard = None \/ truthy frequency = false ->
  parse_sample _fields = Ok data ->
  exists (pe ph : float) (battery : value),
    data !! "e_field_percentage" = Some (VFloat pe)
    /\ data !! "h_field_percentage" = Some (VFloat ph)
    /\ data !! "battery_percentage" = Some battery
    /\ handle_data lm standard frequency _timestamp data st
       = (written
            [("{},{:.2f},{:.2f},{}",
              [VStr _timestamp; VFloat pe; VFloat ph; battery])]
            (said
               (Message Logging.INFO "{}: E-Field: {:.2f}%, H-Field: {:.2f}%"
                  [VStr _timestamp; VFloat pe; VFloat ph]
                :: match log_file st with
                   | Some _ =>
                       [Message Logging.DEBUG "Logged Line: {}"
                          [VStr _timestamp; VFloat pe; VFloat ph; battery]]
                   | None => []
                   end) st),
          Ok data).
Proof.
  intros Hoff Hd.
  destruct (parse_sample_shape _ _ Hd) as (x0 & x1 & x5 & f2 & f3 & f4 & ->).
  clear Hd.
  assert (Hconv : converting standard frequency = None).
  { unfold converting. destruct Hoff as [->|Hf]; [reflexivity|].
    destruct standard, frequency; try reflexivity. rewrite Hf. reflexivity. }
  eexists _, _, _.
  split; [look|]. split; [look|]. split; [look|].
  unfold handle_data. rewrite Hconv.
  destruct st as [sk [file|]].
  - do 5 handled. rewrite log_file_said. cbn [log_file]. do 6 handled.
    reflexivity.
  - do 5 handled. rewrite log_file_said. reflexivity.
Qed.

(** On a table that is not empty and whose arrays have one length, the
    conversions of a float percentage return a value. *)
Lemma conversion_returns (std : Radhaz.FCC96326) (p freq : float) :
  Radhaz.frequency_mhz std <> [] ->
  length (Radhaz.efield std) = length (Radhaz.frequency_mhz std) ->
  length (Radhaz.hfield std) = length (Radhaz.frequency_mhz std) ->
  (exists le e,
      Radhaz.percentage_to_efield lm std (Radhaz.PyFloat p) freq []
      = (le, Ok e))
  /\ (exists lh h,
        Radhaz.percentage_to_hfield lm std (Radhaz.PyFloat p) freq []
        = (lh, Ok h)).
Proof.
  intros Hne He Hh.
  destruct (Radhaz_facts.limits_spec std Hne He Hh freq [])
    as (idx & nearest & e_limit & h_limit & _ & _ & _ & Hel & Hhl).
  unfold Radhaz.percentage_to_efield, Radhaz.percentage_to_hfield.
  destruct (Radhaz.is_zero (Radhaz.PyFloat p)).
  - split; eexists _, _; reflexivity.
  - unfold bind, lift, ret. cbn [Radhaz.to_float]. rewrite Hel, Hhl.
    split; eexists _, _; reflexivity.
Qed.

(** X22. With the standard that [choose_standard] chose and a frequency
    other than 0.0, [handle_data] raises nothing on a sample that the loop
    built: it stores under [e_field] and [h_field] what
    [percentage_to_efield] and [percentage_to_hfield] return for the two
    percentages, passes on what they log, logs the four values, and writes a
    line of six columns when a log file is open. *)
Theorem handle_data_with_conversion (standard_name : str)
  (std : Radhaz.FCC96326) (f : float)
  (_timestamp : str) (_fields : list str) (data : dict) (st : State) :
  Radhaz.choose_standard standard_name = Ok (Some std) ->
  (f =? 0)%float = false ->
  parse_sample _fields = Ok data ->
  exists (pe ph e h : float) (battery : value) (le lh : Radhaz.Log),
    data !! "e_field_percentage" = Some (VFloat pe)
    /\ data !! "h_field_percentage" = Some (VFloat ph)
    /\ data !! "battery_percentage" = Some battery
    /\ Radhaz.percentage_to_efield lm std (Radhaz.PyFloat pe) f []
       = (le, Ok e)
    /\ Radhaz.percentage_to_hfield lm std (Radhaz.PyFloat ph) f []
       = (lh, Ok h)
    /\ handle_data lm (Some std) (Some f) _timestamp data st
       = (written
            [("{},{:.2f},{:.2f},{},{:.3f},{:.3f}",
              [VStr _timestamp; VFloat pe; VFloat ph; battery;
               VFloat e; VFloat h])]
            (said
               (map Library le ++ map Library lh
                ++ Message Logging.INFO
                     "{}: E-Field: {:.3f} V/m ({:.2f}%), H-Field: {:.3f} A/m ({:.2f}%)"
                     [VStr _timestamp; VFloat e; VFloat pe; VFloat h;
                      VFloat ph]
                   :: match log_file st with
                      | Some _ =>
                          [Message Logging.DEBUG "Logged Line: {}"
                             [VStr _timestamp; VFloat pe; VFloat ph; battery;
                              VFloat e; VFloat h]]
                      | None => []
                      end) st),
          Ok (<["h_field" := VFloat h]> (<["e_field" := VFloat e]> data))).
Proof.
  intros Hstd Hf Hd.
  destruct (parse_sample_shape _ _ Hd) as (x0 & x1 & x5 & f2 & f3 & f4 & ->).
  clear Hd.
  assert (Htables : Radhaz.frequency_mhz std <> []
                    /\ length (Radhaz.efield std)
                       = length (Radhaz.frequency_mhz std)
                    /\ length (Radhaz.hfield std)
                       = length (Radhaz.frequency_mhz std)).
  { unfold Radhaz.choose_standard in Hstd.
    destruct (Radhaz.contains _ standard_name); [|discriminate].
    destruct Radhaz_facts.occupational_tables as (std' & Hstd' & Hne & Hl).
    rewrite Hstd' in Hstd. cbn [rbind] in Hstd.
    assert (std' = std) by congruence. subst std'. split; assumption. }
  destruct Htables as (Hne & Hle & Hlh).
  destruct (conversion_returns std (x0 / 100) f Hne Hle Hlh)
    as [(le & e & Hpe) _].
  destruct (conversion_returns std (x1 / 100) f Hne Hle Hlh)
    as [_ (lh & h & Hph)].
  exists (x0 / 100)%float, (x1 / 100)%float, e, h, (VFloat x5), le, lh.
  split; [look|]. split; [look|]. split; [look|].
  split; [exact Hpe|]. split; [exact Hph|].
  assert (Hconv : converting (Some std) (Some f) = Some (std, f)).
  { unfold converting, truthy. rewrite Hf. reflexivity. }
  unfold handle_data. rewrite Hconv. cbv zeta.
  destruct st as [sk [file|]].
  - repeat handled. rewrite log_file_said. cbn [log_file].
    repeat handled. cbv iota. repeat handled.
    rewrite <- !app_assoc. reflexivity.
  - repeat handled. rewrite log_file_said. cbn [log_file].
    rewrite <- !app_assoc. reflexivity.
Qed.

End Handling.

(** ** The statements above, at concrete inputs *)

Lemma get_probe_info_keeps_what_it_parsed_witness :
  let w := answering "Probe,2402/01,B-0007,2021-03-01,2023-03-01,E,100000,6000000000,n/a,n/a,YES,FCC 96-326 / Occupational;" in
  measurement_running unit (self unit w) = false
  /\ is_open (s unit (self unit w)) = true
  /\ get_probe_info unit w
     = (add_log (Logging.warning (Logging.ProbeInfoException ValueError))
          (after_query (ascii_bytes "Probe_INFO?;") [] w),
        Ok (partial_record
              (mandatory (lit "Probe") (lit "2402/01") (lit "B-0007")
                 (lit "2021-03-01") (lit "2023-03-01") (lit "E"))
              [100000%float; 6000000000%float])).
Proof.
  cbv zeta. split; [reflexivity|]. split; [reflexivity|].
  exact (get_probe_info_keeps_what_it_parsed
           (answering "Probe,2402/01,B-0007,2021-03-01,2023-03-01,E,100000,6000000000,n/a,n/a,YES,FCC 96-326 / Occupational;")
           (ascii_bytes "Probe,2402/01,B-0007,2021-03-01,2023-03-01,E,100000,6000000000,n/a,n/a,YES,FCC 96-326 / Occupational;")
           []
           (lit "Probe,2402/01,B-0007,2021-03-01,2023-03-01,E,100000,6000000000,n/a,n/a,YES,FCC 96-326 / Occupational;")
           _ _ _ _ _ _ _ _ _ _ _ _
           eq_refl eq_refl eq_refl eq_refl eq_refl).
Defined.

Lemma print_device_info_prints_the_record_witness :
  let w := answering "RadMan 2XT,2251/51,A-0042,1,XT,1.4.2,2021-03-01,2023-03-01,0,none;" in
  exists (w' : World unit) (d : dict) (ms : list entry),
    get_device_info unit w = (w', Ok d)
    /\ length ms = 9%nat
    /\ print_device_info d (fresh false) = (said ms (fresh false), Ok tt).
Proof.
  cbv zeta.
  assert (H : { r : World unit * dict
              | get_device_info unit
                  (answering "RadMan 2XT,2251/51,A-0042,1,XT,1.4.2,2021-03-01,2023-03-01,0,none;")
                = (fst r, Ok (snd r)) }).
  { eexists (_, _). reflexivity. }
  destruct H as [[w' d] H]. cbn [fst snd] in H.
  destruct (print_device_info_prints_the_record _ w' d (fresh false) H)
    as (f0 & f1 & f2 & f3 & f4 & f5 & f6 & f7 & _ & _ & _ & _ & _ & _ & _ & _
        & Hprint).
  exists w', d. eexists. split; [exact H|]. split; [|exact Hprint].
  reflexivity.
Defined.

Lemma print_probe_info_needs_the_whole_record_witness :
  let w := answering "Probe,2402/01,B-0007,2021-03-01,2023-03-01,E,100000,6000000000,n/a,n/a,YES,FCC 96-326 / Occupational;" in
  exists (w' : World unit) (d : dict),
    get_probe_info unit w = (w', Ok d)
    /\ d !! "standard_name" = None
    /\ snd (print_probe_info d (fresh false)) = Raise KeyError.
Proof.
  cbv zeta.
  assert (H : get_probe_info unit
                (answering "Probe,2402/01,B-0007,2021-03-01,2023-03-01,E,100000,6000000000,n/a,n/a,YES,FCC 96-326 / Occupational;")
              = (add_log
                   (Logging.warning (Logging.ProbeInfoException ValueError))
                   (after_query (ascii_bytes "Probe_INFO?;") []
                      (answering "Probe,2402/01,B-0007,2021-03-01,2023-03-01,E,100000,6000000000,n/a,n/a,YES,FCC 96-326 / Occupational;")),
                 Ok (partial_record
                       (mandatory (lit "Probe") (lit "2402/01")
                          (lit "B-0007") (lit "2021-03-01")
                          (lit "2023-03-01") (lit "E"))
                       [100000%float; 6000000000%float]))).
  { unfold get_probe_info, bind at 1.
    rewrite (command_answered (lit "Probe_INFO?")
               (ascii_bytes "Probe_INFO?")
               (answering "Probe,2402/01,B-0007,2021-03-01,2023-03-01,E,100000,6000000000,n/a,n/a,YES,FCC 96-326 / Occupational;")
               (ascii_bytes "Probe,2402/01,B-0007,2021-03-01,2023-03-01,E,100000,6000000000,n/a,n/a,YES,FCC 96-326 / Occupational;")
               []
               (lit "Probe,2402/01,B-0007,2021-03-01,2023-03-01,E,100000,6000000000,n/a,n/a,YES,FCC 96-326 / Occupational;")
               eq_refl eq_refl eq_refl eq_refl eq_refl).
    exact (probe_optional_runs (lit "Probe") (lit "2402/01") (lit "B-0007")
             (lit "2021-03-01") (lit "2023-03-01") (lit "E")
             (lit "100000") (lit "6000000000") (lit "n/a") (lit "n/a")
             (lit "YES") (lit "FCC 96-326 / Occupational") _ _). }
  assert (Hnone : partial_record
                    (mandatory (lit "Probe") (lit "2402/01") (lit "B-0007")
                       (lit "2021-03-01") (lit "2023-03-01") (lit "E"))
                    [100000%float; 6000000000%float] !! "standard_name"
                  = None).
  { unfold partial_record, mandatory. simpl fold_left. look. }
  eexists _, _. split; [exact H|]. split; [exact Hnone|].
  destruct (print_probe_info_needs_the_whole_record _ _ _ (fresh false) H)
    as [[[v Hv] _]|[_ Hraise]].
  - rewrite Hnone in Hv. discriminate Hv.
  - exact Hraise.
Defined.

Lemma handle_data_without_conversion_witness :
  let _fields := split comma (drop_last (lit "12,250,0,OK,OK,87;")) in
  truthy (Some 0%float) = false
  /\ exists data : dict,
       parse_sample _fields = Ok data
       /\ exists (pe ph : float) (battery : value),
            handle_data Standards.libm_special (Some three_entries)
              (Some 0%float) (lit "2021-03-01T12:00:00Z") data (fresh true)
            = (written
                 [("{},{:.2f},{:.2f},{}",
                   [VStr (lit "2021-03-01T12:00:00Z"); VFloat pe; VFloat ph;
                    battery])]
                 (said
                    [Message Logging.INFO
                       "{}: E-Field: {:.2f}%, H-Field: {:.2f}%"
                       [VStr (lit "2021-03-01T12:00:00Z"); VFloat pe;
                        VFloat ph];
                     Message Logging.DEBUG "Logged Line: {}"
                       [VStr (lit "2021-03-01T12:00:00Z"); VFloat pe;
                        VFloat ph; battery]]
                    (fresh true)),
               Ok data).
Proof.
  cbv zeta. split; [reflexivity|].
  eexists. split; [reflexivity|].
  destruct (handle_data_without_conversion Standards.libm_special
              (Some three_entries) (Some 0%float)
              (lit "2021-03-01T12:00:00Z")
              (split comma (drop_last (lit "12,250,0,OK,OK,87;"))) _
              (fresh true) (or_intror eq_refl) eq_refl)
    as (pe & ph & battery & _ & _ & _ & Hrun).
  exists pe, ph, battery. exact Hrun.
Defined.

Lemma handle_data_with_conversion_witness :
  let _fields := split comma (drop_last (lit "12,250,0,OK,OK,87;")) in
  (100 =? 0)%float = false
  /\ exists (std : Radhaz.FCC96326) (data : dict),
       Radhaz.choose_standard (lit "FCC 96-326 / Occupational")
       = Ok (Some std)
       /\ parse_sample _fields = Ok data
       /\ exists e h : float,
            snd (handle_data Standards.libm_special (Some std)
                   (Some 100%float) (lit "2021-03-01T12:00:00Z") data
                   (fresh true))
            = Ok (<["h_field" := VFloat h]> (<["e_field" := VFloat e]> data)).
Proof.
  cbv zeta. split; [reflexivity|].
  destruct Radhaz_facts.occupational_tables as (std & Hstd & _).
  assert (Hchoose : Radhaz.choose_standard (lit "FCC 96-326 / Occupational")
                    = Ok (Some std)).
  { unfold Radhaz.choose_standard.
    change (Radhaz.contains (lit "FCC 96-326 / Occupational")
              (lit "FCC 96-326 / Occupational")) with true.
    cbv iota. rewrite Hstd. reflexivity. }
  exists std. eexists. split; [exact Hchoose|]. split; [reflexivity|].
  destruct (handle_data_with_conversion Standards.libm_special
              (lit "FCC 96-326 / Occupational") std 100%float
              (lit "2021-03-01T12:00:00Z")
              (split comma (drop_last (lit "12,250,0,OK,OK,87;"))) _
              (fresh true) Hchoose eq_refl eq_refl)
    as (pe & ph & e & h & battery & le & lh & _ & _ & _ & _ & _ & Hrun).
  exists e, h. rewrite Hrun. reflexivity.
Defined.

End Main_facts.

(* ===================================================================== *)
(** * The constructor (radman2.py, __init__)                              *)
(* ===================================================================== *)

Module Init_facts.

Import Radman2 Scenario Cases Radman2_facts.

Section Constructor.

Context {W : Type}.

(** A device query that returned has written its command to an open port
    and read one line of ten fields, which are the record; nothing else of
    the state has changed. *)
Lemma device_query_frame (w w' : World W) (d : dict) :
  measurement_running W (self W w) = false ->
  get_device_info W w = (w', Ok d) ->
  exists (raw : bytes) (rest : list bytes) (text : str)
    (f0 f1 f2 f3 f4 f5 f6 f7 f8 f9 : str),
    is_open (s W (self W w)) = true
    /\ rx (s W (self W w)) = raw :: rest
    /\ decode raw = Ok text
    /\ split comma (drop_last (strip text))
       = [f0; f1; f2; f3; f4; f5; f6; f7; f8; f9]
    /\ w' = after_query (ascii_bytes "DEVICE_INFO?;") rest w
    /\ d = device_record f0 f1 f2 f3 f4 f5 f6 f7 f8 f9.
Proof.
  intros Hrun.
  destruct w as [[run cb rate [op rx0 tx0] di pi mt] lg th sl c].
  simpl in Hrun. subst run.
  unfold get_device_info, command, serial_write, serial_readline.
  unfold bind, gets, lift, ret, raise. simpl.
  destruct op; simpl; [|discriminate].
  destruct rx0 as [|raw rest]; simpl; [discriminate|].
  destruct (decode raw) as [text|] eqn:Hdec; simpl; [|discriminate].
  destruct (negb (length (split comma (drop_last (strip text))) =? 10)%nat)
    eqn:Hlen; [discriminate|].
  apply negb_false_iff, Nat.eqb_eq in Hlen.
  destruct (length_10 _ Hlen)
    as (f0 & f1 & f2 & f3 & f4 & f5 & f6 & f7 & f8 & f9 & Hf).
  rewrite Hf. simpl. intros [= <- <-].
  exists raw, rest, text, f0, f1, f2, f3, f4, f5, f6, f7, f8, f9.
  repeat split; try reflexivity; assumption.
Qed.

(** The same for the probe query, which logs a warning when an optional
    number is malformed. *)
Lemma probe_query_frame (w w' : World W) (d : dict) :
  measurement_running W (self W w) = false ->
  get_probe_info W w = (w', Ok d) ->
  exists (raw : bytes) (rest : list bytes) (text : str)
    (f0 f1 f2 f3 f4 f5 f6 f7 f8 f9 f10 f11 : str),
    is_open (s W (self W w)) = true
    /\ rx (s W (self W w)) = raw :: rest
    /\ decode raw = Ok text
    /\ split comma (drop_last (strip text))
       = [f0; f1; f2; f3; f4; f5; f6; f7; f8; f9; f10; f11]
    /\ self W w' = self W (after_query (ascii_bytes "Probe_INFO?;") rest w)
    /\ threads W w' = threads W w
    /\ log W w' = log W w ++ probe_warning [f6; f7; f8; f9]
    /\ d = probe_record f0 f1 f2 f3 f4 f5 f6 f7 f8 f9 f10 f11.
Proof.
  intros Hrun.
  destruct w as [[run cb rate [op rx0 tx0] di pi mt] lg th sl c].
  simpl in Hrun. subst run.
  unfold get_probe_info, command, serial_write, serial_readline.
  unfold bind, gets, lift, ret, raise. simpl.
  destruct op; simpl; [|discriminate].
  destruct rx0 as [|raw rest]; simpl; [discriminate|].
  destruct (decode raw) as [text|] eqn:Hdec; simpl; [|discriminate].
  destruct (negb (length (split comma (drop_last (strip text))) =? 12)%nat)
    eqn:Hlen; [discriminate|].
  apply negb_false_iff, Nat.eqb_eq in Hlen.
  destruct (length_12 _ Hlen)
    as (f0 & f1 & f2 & f3 & f4 & f5 & f6 & f7 & f8 & f9 & f10 & f11 & Hf).
  rewrite Hf. simpl.
  rewrite (probe_optional_runs f0 f1 f2 f3 f4 f5 f6 f7 f8 f9 f10 f11).
  cbv zeta. unfold probe_record, probe_warning. fold (mandatory f0 f1 f2 f3 f4 f5).
  intros H.
  exists raw, rest, text, f0, f1, f2, f3, f4, f5, f6, f7, f8, f9, f10, f11.
  destruct (length (parsed_prefix [f6; f7; f8; f9]) =? 4)%nat;
    injection H as <- <-; simpl; rewrite ?app_nil_r;
    repeat split; try reflexivity; assumption.
Qed.

(** A start that returned, out of a measurement, has started it. *)
Lemma start_frame (w w' : World W) :
  measurement_running W (self W w) = false ->
  start_measurement W w = (w', Ok tt) ->
  w' = started (tl (rx (s W (self W w)))) w
  /\ is_open (s W (self W w)) = true.
Proof.
  intros Hrun.
  destruct w as [[run cb rate [op rx0 tx0] di pi mt] lg th sl c].
  simpl in Hrun. subst run.
  unfold start_measurement, set_remote_mode, command, serial_write,
    serial_readline, thread_start.
  unfold bind, gets, lift, ret, raise, modify. simpl.
  destruct op; simpl; [|discriminate].
  destruct rx0 as [|raw rest]; simpl.
  - intros [= <-]. split; reflexivity.
  - destruct (decode raw) as [text|]; simpl; [|discriminate].
    intros [= <-]. split; reflexivity.
Qed.

(** X23. When the constructor returns, the port it opened had at least two
    lines to give, of ten and of twelve fields: it has sent [DEVICE_INFO?;]
    and then [Probe_INFO?;], has stored the device record of the first line
    and the probe record of the second, and has logged the connection and,
    when an optional number of the probe was malformed, the warning. With
    [auto] it has then sent [REMOTE ON;] and [MEAS_START_CIB;], read one
    more line, set [measurement_running] and started the one thread;
    without [auto] it has sent and read nothing more, and no measurement
    runs. *)
Theorem init_sends_the_queries_in_order (port : str)
  (baud_rate sample_rate : Z) (auto : bool)
  (callback : option (callback_t W)) (p : Serial) (c : W) (w : World W) :
  snd (init W port baud_rate sample_rate auto callback (Ok p) c) = Ok tt ->
  w = fst (init W port baud_rate sample_rate auto callback (Ok p) c) ->
  is_open p = true
  /\ tx (s W (self W w))
     = tx p ++ [ascii_bytes "DEVICE_INFO?;"; ascii_bytes "Probe_INFO?;"]
            ++ (if auto
                then [ascii_bytes "REMOTE ON;"; ascii_bytes "MEAS_START_CIB;"]
                else [])
  /\ measurement_running W (self W w) = auto
  /\ threads W w = (if auto then 1%nat else 0%nat)
  /\ exists (raw1 raw2 : bytes) (rest : list bytes) (text1 text2 : str)
       (f0 f1 f2 f3 f4 f5 f6 f7 f8 f9 : str)
       (g0 g1 g2 g3 g4 g5 g6 g7 g8 g9 g10 g11 : str),
       rx p = raw1 :: raw2 :: rest
       /\ decode raw1 = Ok text1
       /\ split comma (drop_last (strip text1))
          = [f0; f1; f2; f3; f4; f5; f6; f7; f8; f9]
       /\ decode raw2 = Ok text2
       /\ split comma (drop_last (strip text2))
          = [g0; g1; g2; g3; g4; g5; g6; g7; g8; g9; g10; g11]
       /\ device_info W (self W w)
          = Some (device_record f0 f1 f2 f3 f4 f5 f6 f7 f8 f9)
       /\ probe_info W (self W w)
          = Some (probe_record g0 g1 g2 g3 g4 g5 g6 g7 g8 g9 g10 g11)
       /\ rx (s W (self W w)) = (if auto then tl rest else rest)
       /\ log W w
          = Logging.info (Logging.Connecting port baud_rate)
            :: probe_warning [g6; g7; g8; g9].
Proof.
  intros Hok Hw.
  assert (H : init W port baud_rate sample_rate auto callback (Ok p) c
              = (w, Ok tt)).
  { destruct (init W port baud_rate sample_rate auto callback (Ok p) c)
      as [w0 r]. simpl in Hok, Hw. congruence. }
  clear Hok Hw. revert H.
  unfold init.
  set (w1 := {| self := {| measurement_running := false;
                           callback := callback; sample_rate := sample_rate;
                           s := p; device_info := None; probe_info := None;
                           measurement_thread := None |};
                log := [Logging.info (Logging.Connecting port baud_rate)];
                threads := 0; slept := 0; consumer := c |}).
  unfold bind at 1. unfold Radman2.logging at 1, modify at 1.
  unfold bind at 1. unfold modify at 1.
  change (set_self W (set_s W (fun _ => p)) _) with w1.
  unfold bind at 1.
  destruct (get_device_info W w1) as [w2 [d|e]] eqn:Hd; [|discriminate].
  destruct (device_query_frame w1 w2 d eq_refl Hd)
    as (raw1 & rest1 & text1 & f0 & f1 & f2 & f3 & f4 & f5 & f6 & f7 & f8
        & f9 & Hopen & Hrx1 & Hdec1 & Hf & -> & ->).
  unfold bind at 1. unfold modify at 1.
  unfold bind at 1.
  match goal with
  | |- context [get_probe_info W ?w3] =>
      destruct (get_probe_info W w3) as [w4 [q|e]] eqn:Hq; [|discriminate];
      destruct (probe_query_frame w3 w4 q eq_refl Hq)
        as (raw2 & rest & text2 & g0 & g1 & g2 & g3 & g4 & g5 & g6 & g7 & g8
            & g9 & g10 & g11 & _ & Hrx2 & Hdec2 & Hg & Hself & Hthreads
            & Hlog & ->)
  end.
  simpl in Hrx1, Hrx2. subst rest1.
  unfold bind at 1. unfold modify at 1.
  destruct auto.
  - intros Hstart.
    apply start_frame in Hstart as [-> _];
      [|simpl; rewrite Hself; reflexivity].
    simpl. rewrite Hself, Hthreads, Hlog. simpl.
    split; [exact Hopen|]. split; [rewrite <- !app_assoc; reflexivity|].
    split; [reflexivity|]. split; [reflexivity|].
    exists raw1, raw2, rest, text1, text2, f0, f1, f2, f3, f4, f5, f6, f7,
      f8, f9, g0, g1, g2, g3, g4, g5, g6, g7, g8, g9, g10, g11.
    repeat split; try reflexivity; assumption.
  - unfold ret. intros [= <-].
    simpl. rewrite Hself, Hthreads, Hlog. simpl.
    split; [exact Hopen|].
    split; [rewrite ?app_nil_r, <- ?app_assoc; reflexivity|].
    split; [reflexivity|]. split; [reflexivity|].
    exists raw1, raw2, rest, text1, text2, f0, f1, f2, f3, f4, f5, f6, f7,
      f8, f9, g0, g1, g2, g3, g4, g5, g6, g7, g8, g9, g10, g11.
    repeat split; try reflexivity; assumption.
Qed.

(** X24. When the port cannot be opened, the constructor sends nothing and
    stores nothing: for an exception of [Exception] it logs the critical
    message and raises [SystemExit], which [except Exception] does not
    catch; an exception outside [Exception] goes through as it is, with
    nothing logged after the first message. *)
Theorem init_exits_when_the_port_does_not_open (port : str)
  (baud_rate sample_rate : Z) (auto : bool)
  (callback : option (callback_t W)) (e : exn) (c : W) :
  let w := fst (init W port baud_rate sample_rate auto callback (Raise e) c) in
  snd (init W port baud_rate sample_rate auto callback (Raise e) c)
  = Raise (if is_Exception e then SystemExit else e)
  /\ log W w
     = Logging.info (Logging.Connecting port baud_rate)
       :: (if is_Exception e
           then [Logging.critical Logging.CouldNotConnect] else [])
  /\ tx (s W (self W w)) = []
  /\ measurement_running W (self W w) = false
  /\ device_info W (self W w) = None
  /\ probe_info W (self W w) = None
  /\ threads W w = 0%nat
  /\ is_Exception SystemExit = false.
Proof.
  cbv zeta. unfold init.
  destruct (is_Exception e); repeat split; reflexivity.
Qed.

End Constructor.

Lemma init_sends_the_queries_in_order_witness :
  let p := {| is_open := true;
              rx := [ascii_bytes "RadMan 2XT,2251/51,A-0042,1,XT,1.4.2,2021-03-01,2023-03-01,0,none;";
                     ascii_bytes "Probe,2402/01,B-0007,2021-03-01,2023-03-01,E,100000,6000000000,n/a,n/a,YES,FCC 96-326 / Occupational;";
                     ascii_bytes "0;"];
              tx := [] |} in
  let w := fst (init unit (lit "/dev/ttyACM0") 115200 1 true None (Ok p) tt) in
  snd (init unit (lit "/dev/ttyACM0") 115200 1 true None (Ok p) tt) = Ok tt
  /\ tx (s unit (self unit w))
     = tx p ++ [ascii_bytes "DEVICE_INFO?;"; ascii_bytes "Probe_INFO?;"]
            ++ (if true
                then [ascii_bytes "REMOTE ON;"; ascii_bytes "MEAS_START_CIB;"]
                else [])
  /\ measurement_running unit (self unit w) = true
  /\ threads unit w = (if true then 1%nat else 0%nat).
Proof.
  cbv zeta. split; [reflexivity|].
  destruct (init_sends_the_queries_in_order (lit "/dev/ttyACM0") 115200 1
              true None
              {| is_open := true;
                 rx := [ascii_bytes "RadMan 2XT,2251/51,A-0042,1,XT,1.4.2,2021-03-01,2023-03-01,0,none;";
                        ascii_bytes "Probe,2402/01,B-0007,2021-03-01,2023-03-01,E,100000,6000000000,n/a,n/a,YES,FCC 96-326 / Occupational;";
                        ascii_bytes "0;"];
                 tx := [] |} tt _ eq_refl eq_refl)
    as (_ & Htx & Hrun & Hth & _).
  split; [exact Htx|]. split; [exact Hrun|exact Hth].
Defined.

End Init_facts.
